(** * Cloudburst sensor dashboard: a shallow embedding of the client logic

    The dashboard is a set of React pages that read and write a hosted
    realtime database.  This development embeds the pure helpers of
    [src/lib/utils.js], the status classifiers, the map filters and the
    form handlers (node registration, alert creation and acknowledgement,
    contact creation, bulk import and reset, SMS dispatch) and proves
    the properties the specification states about them.

    Modelling conventions.
    - JavaScript numbers are [Js.number]: [NaN], the two infinities and the
      finite values, the latter as exact rationals.  Every IEEE double is a
      rational and the comparisons agree, so what is proved for all
      rationals holds for all doubles; arithmetic is exact (no rounding).
    - JavaScript strings are [string]s of 8-bit code units.
    - The values the database hands back where the code inspects their
      type are [Js.value]: undefined, null, booleans, numbers and strings.
    - [Date.now()], [new Date().toISOString()] and the random suffix of
      [generateId] are inputs of the handlers.
    - The database client is reliable: [update], [remove] and [get] never
      throw, and [set] throws only where the client validates its
      argument (it refuses [NaN] and the infinities).  The [fetch] of the
      SMS endpoint does not fail either.
    - A page's React state that mirrors a subtree through a change
      subscription is the subtree as the store has it when a handler
      starts.
    - A handler returns the store it leaves behind together with the toast
      or message it shows. *)

From Stdlib Require Import QArith ZArith Ascii String List Lia Bool.
From Stdlib Require Import Lqa.
From stdpp Require Import base option gmap strings list pretty.

Local Open Scope string_scope.
Local Open Scope Z_scope.

(** ** JavaScript primitives *)

Module Js.

Inductive number : Type :=
| NaN
| PInf
| NInf
| Fin (q : Q).

Definition of_Z (z : Z) : number := Fin (inject_Z z).

Definition Qlt_bool (x y : Q) : bool := negb (Qle_bool y x).

(** [a < b], [a <= b], [a > b], [a >= b] on numbers: false when either
    side is [NaN]. *)
Definition ltb (a b : number) : bool :=
  match a, b with
  | NaN, _ | _, NaN => false
  | _, NInf => false
  | PInf, _ => false
  | NInf, _ => true
  | Fin _, PInf => true
  | Fin x, Fin y => Qlt_bool x y
  end.

Definition leb (a b : number) : bool :=
  match a, b with
  | NaN, _ | _, NaN => false
  | NInf, _ => true
  | _, PInf => true
  | PInf, _ => false
  | Fin _, NInf => false
  | Fin x, Fin y => Qle_bool x y
  end.

Definition gtb (a b : number) : bool := ltb b a.
Definition geb (a b : number) : bool := leb b a.

Definition neg (a : number) : number :=
  match a with
  | NaN => NaN
  | PInf => NInf
  | NInf => PInf
  | Fin q => Fin (- q)
  end.

Definition add (a b : number) : number :=
  match a, b with
  | NaN, _ | _, NaN => NaN
  | PInf, NInf | NInf, PInf => NaN
  | PInf, _ | _, PInf => PInf
  | NInf, _ | _, NInf => NInf
  | Fin x, Fin y => Fin (x + y)
  end.

Definition sub (a b : number) : number := add a (neg b).

Definition sign_inf (pos : bool) : number := if pos then PInf else NInf.

Definition mul (a b : number) : number :=
  match a, b with
  | NaN, _ | _, NaN => NaN
  | Fin x, Fin y => Fin (x * y)
  | Fin x, PInf | PInf, Fin x =>
      if Qeq_bool x 0 then NaN else sign_inf (Qlt_bool 0 x)
  | Fin x, NInf | NInf, Fin x =>
      if Qeq_bool x 0 then NaN else sign_inf (Qlt_bool x 0)
  | PInf, PInf | NInf, NInf => PInf
  | PInf, NInf | NInf, PInf => NInf
  end.

Definition num_isNaN (a : number) : bool :=
  match a with NaN => true | _ => false end.

Definition num_truthy (a : number) : bool :=
  match a with
  | NaN => false
  | Fin q => negb (Qeq_bool q 0)
  | _ => true
  end.

(** *** Characters and digits *)

Definition code (c : ascii) : Z := Z.of_nat (nat_of_ascii c).

(** White space and line terminators, as far as 8-bit code units go. *)
Definition is_ws (c : ascii) : bool :=
  let n := code c in
  ((9 <=? n) && (n <=? 13)) || (n =? 32) || (n =? 160).

Definition is_digit (c : ascii) : bool :=
  let n := code c in (48 <=? n) && (n <=? 57).

(** The value of [c] as a digit of the given radix. *)
Definition radix_digit (radix : Z) (c : ascii) : option Z :=
  let n := code c in
  let d :=
    if (48 <=? n) && (n <=? 57) then Some (n - 48)
    else if (97 <=? n) && (n <=? 122) then Some (n - 87)
    else if (65 <=? n) && (n <=? 90) then Some (n - 55)
    else None in
  match d with
  | Some v => if v <? radix then Some v else None
  | None => None
  end.

Fixpoint skip_ws (s : string) : string :=
  match s with
  | String c s' => if is_ws c then skip_ws s' else s
  | EmptyString => s
  end.

(** The longest prefix of digits of the radix, read most significant
    first; [acc] is [None] until a digit has been seen.  Returns the
    value and the rest of the string. *)
Fixpoint parse_digits (radix : Z) (acc : option Z) (s : string)
  : option Z * string :=
  match s with
  | String c s' =>
      match radix_digit radix c with
      | Some d => parse_digits radix (Some (radix * default 0 acc + d)) s'
      | None => (acc, s)
      end
  | EmptyString => (acc, s)
  end.

(** An optional sign, [-] (code 45) or [+] (code 43). *)
Definition split_sign (s : string) : bool * string :=
  match s with
  | String c r =>
      if code c =? 45 then (true, r)
      else if code c =? 43 then (false, r)
      else (false, s)
  | EmptyString => (false, s)
  end.

Definition apply_sign (negative : bool) (z : Z) : Z :=
  if negative then - z else z.

(** [parseInt(s)] with no radix argument. *)
Definition parseInt (s : string) : number :=
  let '(negative, s2) := split_sign (skip_ws s) in
  let '(radix, s3) :=
    match s2 with
    | String a (String b r) =>
        (* a leading 0x or 0X selects radix 16 *)
        if (code a =? 48) && ((code b =? 120) || (code b =? 88))
        then (16, r) else (10, s2)
    | _ => (10, s2)
    end in
  match fst (parse_digits radix None s3) with
  | None => NaN
  | Some n => of_Z (apply_sign negative n)
  end.

(** *** Decimal literals *)

(** [m * 10^e] as a rational. *)
Definition scale10 (m e : Z) : Q :=
  if 0 <=? e then inject_Z (m * 10 ^ e)
  else Qmake m (Z.to_pos (10 ^ (- e))).

(** Digits with their count, for the fraction part. *)
Fixpoint span_digits (acc : Z) (count : Z) (s : string) : Z * Z * string :=
  match s with
  | String c s' =>
      if is_digit c then span_digits (10 * acc + (code c - 48)) (count + 1) s'
      else (acc, count, s)
  | EmptyString => (acc, count, s)
  end.

(** An exponent part [e], [E] with an optional sign and at least one
    digit; when it is incomplete nothing is consumed. *)
Definition parse_exponent (s : string) : Z * string :=
  match s with
  | String c r =>
      if (code c =? 101) || (code c =? 69) then
        let '(negative, r2) := split_sign r in
        match span_digits 0 0 r2 with
        | (e, n, r3) => if 0 <? n then (apply_sign negative e, r3) else (0, s)
        end
      else (0, s)
  | EmptyString => (0, s)
  end.

(** The longest prefix of [s] that is a StrDecimalLiteral, with its
    value and the rest of the string. *)
Definition parse_decimal (s : string) : option (number * string) :=
  let '(negative, s1) := split_sign s in
  if String.prefix "Infinity" s1 then
    Some (sign_inf (negb negative), String.substring 8 (String.length s1 - 8) s1)
  else
    let '(ip, ni, s2) := span_digits 0 0 s1 in
    let '(m, nf, s3) :=
      match s2 with
      | String c r =>
          if code c =? 46 then
            (* a decimal point and the fraction digits *)
            let '(m, nf, r') := span_digits ip 0 r in
            if (0 <? ni) || (0 <? nf) then (m, nf, r') else (ip, 0, s2)
          else (ip, 0, s2)
      | EmptyString => (ip, 0, s2)
      end in
    if (0 <? ni) || (0 <? nf) then
      let '(e, s4) := parse_exponent s3 in
      Some (Fin (scale10 (apply_sign negative m) (e - nf)), s4)
    else None.

(** [parseFloat(s)] on a string. *)
Definition parseFloat (s : string) : number :=
  match parse_decimal (skip_ws s) with
  | Some (n, _) => n
  | None => NaN
  end.

Fixpoint rev_string (acc s : string) : string :=
  match s with
  | String c s' => rev_string (String c acc) s'
  | EmptyString => acc
  end.

(** [s.trim()]. *)
Definition trim (s : string) : string :=
  rev_string "" (skip_ws (rev_string "" (skip_ws s))).

(** [Number(s)] on a string: the whole string, white space trimmed, must
    be a numeric literal; the empty string is [0]. *)
Definition string_to_number (s : string) : number :=
  let t := trim s in
  match t with
  | EmptyString => of_Z 0
  | String z (String p r) =>
      let radix :=
        if negb (code z =? 48) then None
        else if (code p =? 120) || (code p =? 88) then Some 16
        else if (code p =? 111) || (code p =? 79) then Some 8
        else if (code p =? 98) || (code p =? 66) then Some 2
        else None in
      match radix with
      | Some rx =>
          match parse_digits rx None r with
          | (Some n, EmptyString) => of_Z n
          | _ => NaN
          end
      | None =>
          match parse_decimal t with
          | Some (n, EmptyString) => n
          | _ => NaN
          end
      end
  | _ =>
      match parse_decimal t with
      | Some (n, EmptyString) => n
      | _ => NaN
      end
  end.

(** [s.split(sep)] for a one-character separator. *)
Fixpoint split_on (sep : ascii) (s : string) : list string :=
  match s with
  | EmptyString => [EmptyString]
  | String c r =>
      if Ascii.eqb c sep then EmptyString :: split_on sep r
      else
        match split_on sep r with
        | h :: t => String c h :: t
        | [] => [String c EmptyString]
        end
  end.

(** The characters of [s] that satisfy [keep], in order. *)
Fixpoint filter_string (keep : ascii -> bool) (s : string) : string :=
  match s with
  | EmptyString => EmptyString
  | String c r =>
      if keep c then String c (filter_string keep r) else filter_string keep r
  end.

(** [s.substring(0, n)] *)
Definition take_string (n : nat) (s : string) : string := String.substring 0 n s.

(** [s.toUpperCase()] on the letters a to z. *)
Fixpoint toUpperCase (s : string) : string :=
  match s with
  | EmptyString => EmptyString
  | String c r =>
      let n := code c in
      String (if (97 <=? n) && (n <=? 122)
              then ascii_of_nat (Z.to_nat (n - 32)) else c)
             (toUpperCase r)
  end.

(** [l.join(sep)] *)
Fixpoint join (sep : string) (l : list string) : string :=
  match l with
  | [] => EmptyString
  | [x] => x
  | x :: l' => x ++ sep ++ join sep l'
  end.

(** The double quote character. *)
Definition dquote : string := String (ascii_of_nat 34) EmptyString.

(** [l.includes(x)] on an array of strings. *)
Definition includes (l : list string) (x : string) : bool :=
  existsb (String.eqb x) l.

(** [l.some(p)] *)
Definition some {A} (p : A -> bool) (l : list A) : bool := existsb p l.

(** [Object.values(m)] and [Object.keys(m)] *)
Definition values {A} (m : gmap string A) : list A := (map_to_list m).*2.
Definition keys {A} (m : gmap string A) : list string := (map_to_list m).*1.

(** *** Dynamically typed values *)

Inductive value : Type :=
| VUndefined
| VNull
| VBool (b : bool)
| VNum (n : number)
| VStr (s : string).

Inductive type_tag : Type :=
| TUndefined | TObject | TBoolean | TNumber | TString.

Definition typeof (v : value) : type_tag :=
  match v with
  | VUndefined => TUndefined
  | VNull => TObject
  | VBool _ => TBoolean
  | VNum _ => TNumber
  | VStr _ => TString
  end.

(** [typeof v === 'number'] *)
Definition is_number (v : value) : bool :=
  match typeof v with TNumber => true | _ => false end.

Definition truthy (v : value) : bool :=
  match v with
  | VUndefined | VNull => false
  | VBool b => b
  | VNum n => num_truthy n
  | VStr s => negb (String.eqb s "")
  end.

Definition ToNumber (v : value) : number :=
  match v with
  | VUndefined => NaN
  | VNull => of_Z 0
  | VBool b => of_Z (if b then 1 else 0)
  | VNum n => n
  | VStr s => string_to_number s
  end.

(** [v !== 0] *)
Definition not_strictly_zero (v : value) : bool :=
  match v with
  | VNum (Fin q) => negb (Qeq_bool q 0)
  | _ => true
  end.

(** The global [isNaN(v)]. *)
Definition isNaN (v : value) : bool := num_isNaN (ToNumber v).

(** [parseFloat(v)]: the argument is converted to a string first; the
    string of a number parses back to that number. *)
Definition parseFloat_value (v : value) : number :=
  match v with
  | VStr s => parseFloat s
  | VNum n => n
  | _ => NaN
  end.

(** [String(z)] for an integer. *)
Definition toString_Z (z : Z) : string := pretty z.

End Js.

(** ** Status classifiers *)

Inductive Status : Type := online | warning | offline.

Definition minutes (n : Z) : Z := n * 60 * 1000.

(** [src/lib/utils.js] *)
Module Utils.

(** [getNodeStatus(lastUpdate)], with [Date.now()] as [now].  The
    subtraction converts a non-string [lastUpdate] to a number. *)
Definition getNodeStatus (now : Z) (lastUpdate : Js.value) : Status :=
  if negb (Js.truthy lastUpdate) then offline
  else
    let lastUpdateMs :=
      match lastUpdate with
      | Js.VStr s => Js.mul (Js.parseInt s) (Js.of_Z 1000)
      | _ => Js.ToNumber lastUpdate
      end in
    let diff := Js.sub (Js.of_Z now) lastUpdateMs in
    if Js.ltb diff (Js.of_Z (5 * 60 * 1000)) then online
    else offline.

(** [isValidLatitude(lat)] *)
Definition isValidLatitude (lat : Js.value) : bool :=
  let num := Js.parseFloat_value lat in
  negb (Js.num_isNaN num) && Js.geb num (Js.of_Z (-90))
  && Js.leb num (Js.of_Z 90).

(** [isValidLongitude(lng)] *)
Definition isValidLongitude (lng : Js.value) : bool :=
  let num := Js.parseFloat_value lng in
  negb (Js.num_isNaN num) && Js.geb num (Js.of_Z (-180))
  && Js.leb num (Js.of_Z 180).

(** [phone.replace(/\D/g, '')] *)
Definition cleaned (phone : string) : string :=
  Js.filter_string Js.is_digit phone.

(** [isValidPhoneNumber(phone)] *)
Definition isValidPhoneNumber (phone : string) : bool :=
  let cleaned := cleaned phone in
  Nat.eqb (String.length cleaned) 10
  || (Nat.eqb (String.length cleaned) 12 && String.prefix "91" cleaned).

(** [formatPhoneNumber(phone)] *)
Definition formatPhoneNumber (phone : string) : string :=
  let cleaned := cleaned phone in
  if Nat.eqb (String.length cleaned) 10 then "+91" ++ cleaned
  else if Nat.eqb (String.length cleaned) 12 && String.prefix "91" cleaned
       then "+" ++ cleaned
  else phone.

(** One call of [generateId]: what [Date.now()] returned and the random
    suffix [Math.random().toString(36).substr(2, 9)]. *)
Record Tick : Type := mkTick { tick_now : Z; tick_rand : string }.

(** [generateId(prefix)] *)
Definition generateId (prefix : string) (t : Tick) : string :=
  prefix ++ "_" ++ Js.toString_Z (tick_now t) ++ "_" ++ tick_rand t.

End Utils.

(** [src/app/page.js] *)
Module HomePage.

Definition getNodeStatus (now : Z) (lastUpdate : Js.value) : Status :=
  if negb (Js.truthy lastUpdate) then offline
  else
    let lastUpdateTime :=
      match lastUpdate with
      | Js.VStr s => Js.mul (Js.parseInt s) (Js.of_Z 1000)
      | _ => Js.ToNumber lastUpdate
      end in
    let timeDiff := Js.sub (Js.of_Z now) lastUpdateTime in
    if Js.ltb timeDiff (Js.of_Z (5 * 60 * 1000)) then online
    else if Js.ltb timeDiff (Js.of_Z (15 * 60 * 1000)) then warning
    else offline.

End HomePage.

(** A timestamp that lies [d] milliseconds before [now], in either of the
    two representations the database holds: a non-zero number of epoch
    milliseconds, or the decimal string of a number of epoch seconds. *)
Inductive before (now d : Z) : Js.value -> Prop :=
| before_ms : now - d <> 0 -> before now d (Js.VNum (Js.of_Z (now - d)))
| before_sec (t : Z) :
    0 <= t -> 1000 * t = now - d -> before now d (Js.VStr (Js.toString_Z t)).

(** ** The realtime database

    The store is a tree of paths; the subtrees the pages use are keyed by
    identifier, so each is a finite map.  A [set] replaces the subtree at
    its path, an [update] overwrites the listed children and keeps the
    others, a [remove] deletes the subtree.  The database does not keep
    [null] values, empty objects or empty arrays: a field written as
    [null] reads back as absent, and an empty list stands for an absent
    array.  Identifiers are single path segments. *)

Module Db.

(** [nodes/{id}/metadata] *)
Record Metadata : Type := mkMetadata {
  md_nodeId : string;
  md_type : string;
  md_name : string;
  md_latitude : Js.value;
  md_longitude : Js.value;
  md_altitude : Js.value;
  md_installedDate : string;
  md_installedBy : string;
  md_description : string;
  md_nearbyNodes : list string;
  md_status : string;
  md_createdAt : Z
}.

(** [nodes/{id}/realtime] *)
Record Realtime : Type := mkRealtime {
  rt_temperature : Js.value;
  rt_pressure : Js.value;
  rt_altitude : Js.value;
  rt_humidity : Js.value;
  rt_rssi : Js.value;
  rt_status : string;
  rt_lastUpdate : Js.value
}.

(** [nodes/{id}/history/{key}] *)
Record Reading : Type := mkReading {
  rd_temperature : Js.value;
  rd_pressure : Js.value;
  rd_altitude : Js.value;
  rd_humidity : Js.value;
  rd_rainfall : Js.value;
  rd_rssi : Js.value;
  rd_timestamp : Js.value
}.

(** [nodes/{id}/alerts/{alertId}]: the back-reference to an alert. *)
Record AlertRef : Type := mkAlertRef {
  ref_alertId : string;
  ref_severity : string;
  ref_timestamp : Z;
  ref_acknowledged : bool
}.

(** [nodes/{id}] *)
Record Node : Type := mkNode {
  metadata : option Metadata;
  realtime : option Realtime;
  history : gmap string Reading;
  node_alerts : gmap string AlertRef
}.

(** [alerts/{id}]; a field is [None] when the record does not have it. *)
Record Alert : Type := mkAlert {
  al_id : option string;
  al_nodeId : option string;
  al_type : option string;
  al_severity : option string;
  al_message : option string;
  al_affectedNodes : list string;
  al_timestamp : option Z;
  al_acknowledged : option bool;
  al_acknowledgedBy : option string;
  al_acknowledgedAt : option Z;
  al_sentSMS : option bool;
  al_smsSentAt : option Z;
  al_recipients : list string;
  al_createdBy : option string;
  al_source : option string
}.

(** [contacts/{id}] *)
Record Contact : Type := mkContact {
  ct_id : string;
  ct_name : string;
  ct_phone : string;
  ct_email : string;
  ct_associatedNodes : list string;
  ct_notificationPreference : string;
  ct_createdAt : Z;
  ct_lastUpdated : Z
}.

(** The free-form [metadata] of a log entry. *)
Inductive Meta : Type :=
| MStr (s : string)
| MNum (z : Z)
| MList (l : list string).

(** [logs/{id}] *)
Record LogEntry : Type := mkLog {
  log_id : string;
  log_type : string;
  log_message : string;
  log_timestamp : Z;
  log_metadata : list (string * Meta)
}.

(** One entry of [deliveryResults]. *)
Record Delivery : Type := mkDelivery {
  dl_to : string;
  dl_status : string;
  dl_sid : option string;
  dl_error : option string;
  dl_success : bool
}.

(** One entry of [errors]. *)
Record DeliveryError : Type := mkDeliveryError {
  de_to : string;
  de_error : string;
  de_code : option Z
}.

(** [notifications/{id}] *)
Record Notification : Type := mkNotification {
  nt_id : string;
  nt_type : string;
  nt_status : string;
  nt_alertId : string;
  nt_severity : string;
  nt_message : string;
  nt_recipients : list string;
  nt_affectedNodes : list string;
  nt_timestamp : Z;
  nt_method : option string;
  nt_deliveryStatus : option string;
  nt_note : option string;
  nt_deliveryResults : list Delivery;
  nt_successCount : option Z;
  nt_failureCount : option Z;
  nt_errors : list DeliveryError;
  nt_expiresAt : option Z
}.

Record Store : Type := mkStore {
  nodes : gmap string Node;
  alerts : gmap string Alert;
  contacts : gmap string Contact;
  logs : gmap string LogEntry;
  notifications : gmap string Notification
}.

Definition empty : Store := mkStore ∅ ∅ ∅ ∅ ∅.

Definition empty_node : Node := mkNode None None ∅ ∅.

Definition empty_alert : Alert :=
  mkAlert None None None None None [] None None None None None None []
          None None.

(** A subtree exists when it holds at least one value. *)
Definition node_nonempty (n : Node) : bool :=
  bool_decide (is_Some (metadata n)) || bool_decide (is_Some (realtime n))
  || negb (bool_decide (history n = ∅))
  || negb (bool_decide (node_alerts n = ∅)).

(** [(await get(ref(database, `nodes/${id}`))).exists()].  With an empty
    [id] the path is [nodes/], the whole [nodes] subtree. *)
Definition node_exists (s : Store) (id : string) : bool :=
  if String.eqb id "" then
    negb (bool_decide (map_Forall (fun _ n => node_nonempty n = false) (nodes s)))
  else
    match nodes s !! id with
    | Some n => node_nonempty n
    | None => false
    end.

(** What is kept of a written value: [null] is dropped. *)
Definition stored (v : Js.value) : Js.value :=
  match v with
  | Js.VNull => Js.VUndefined
  | _ => v
  end.

(** A value the client refuses to write: [NaN] or an infinity. *)
Definition invalid_number (v : Js.value) : bool :=
  match v with
  | Js.VNum (Js.Fin _) => false
  | Js.VNum _ => true
  | _ => false
  end.

Definition set_nodes (f : gmap string Node -> gmap string Node) (s : Store)
  : Store :=
  mkStore (f (nodes s)) (alerts s) (contacts s) (logs s) (notifications s).

Definition set_alerts (f : gmap string Alert -> gmap string Alert) (s : Store)
  : Store :=
  mkStore (nodes s) (f (alerts s)) (contacts s) (logs s) (notifications s).

Definition set_contacts (f : gmap string Contact -> gmap string Contact)
           (s : Store) : Store :=
  mkStore (nodes s) (alerts s) (f (contacts s)) (logs s) (notifications s).

Definition set_logs (f : gmap string LogEntry -> gmap string LogEntry)
           (s : Store) : Store :=
  mkStore (nodes s) (alerts s) (contacts s) (f (logs s)) (notifications s).

Definition set_notifications
           (f : gmap string Notification -> gmap string Notification)
           (s : Store) : Store :=
  mkStore (nodes s) (alerts s) (contacts s) (logs s) (f (notifications s)).

(** [set(ref(database, `logs/${id}`), entry)] *)
Definition put_log (e : LogEntry) : Store -> Store :=
  set_logs (insert (log_id e) e).

(** Writing [r] at [{nodeId}/alerts/{alertId}] inside the [nodes]
    subtree: the node subtree is created when it is not there. *)
Definition link (alertId : string) (r : AlertRef)
           (ns : gmap string Node) (nodeId : string) : gmap string Node :=
  let n := default empty_node (ns !! nodeId) in
  <[nodeId := mkNode (metadata n) (realtime n) (history n)
                     (<[alertId := r]> (node_alerts n))]> ns.

(** [set(ref(database, `nodes/${nodeId}/alerts/${alertId}`), r)] *)
Definition put_node_alert (nodeId alertId : string) (r : AlertRef)
  : Store -> Store :=
  set_nodes (fun ns => link alertId r ns nodeId).

(** *** Handlers as store actions

    A handler body runs against the store and either completes or
    throws; what it wrote before throwing stays written. *)

Definition Action (E A : Type) : Type := Store -> Store * (E + A).

Definition ret {E A} (a : A) : Action E A := fun s => (s, inr a).

Definition bind {E A B} (m : Action E A) (k : A -> Action E B) : Action E B :=
  fun s =>
    match m s with
    | (s', inr a) => k a s'
    | (s', inl e) => (s', inl e)
    end.

Definition throw {E A} (e : E) : Action E A := fun s => (s, inl e).

Definition read {E A} (f : Store -> A) : Action E A := fun s => (s, inr (f s)).

Definition write {E} (f : Store -> Store) : Action E unit :=
  fun s => (f s, inr tt).

(** [if (c) throw e;] *)
Definition throw_if {E} (c : bool) (e : E) : Action E unit :=
  if c then throw e else ret tt.

(** [for (const x of l) { await body(x); }] *)
Fixpoint for_each {E A} (l : list A) (body : A -> Action E unit)
  : Action E unit :=
  match l with
  | [] => ret tt
  | x :: l' => bind (body x) (fun _ => for_each l' body)
  end.

End Db.

Notation "'do' x <- m ; k" := (Db.bind m (fun x => k))
  (at level 10, x name, m at level 100, k at level 200, only parsing).
Notation "'run' m ; k" := (Db.bind m (fun _ => k))
  (at level 10, m at level 100, k at level 200, only parsing).

(** The error classes of the specification. *)
Inductive ErrorClass : Type :=
| ValidationError
| DuplicateIdError
| VerificationError
| StoreError.

(** ** Node registration: [src/app/register/page.js] *)

Module Register.

Record FormData : Type := mkForm {
  nodeId : string;
  type : string;
  name : string;
  latitude : string;
  longitude : string;
  altitude : string;
  installedBy : string;
  description : string;
  nearbyNodes : string
}.

(** The errors the handler throws, one per [throw] site, and the one
    the database client raises. *)
Inductive Error : Type :=
| NodeIdExists
| RequiredFields
| LatitudeRequired
| LongitudeRequired
| InvalidLatitude
| InvalidLongitude
| LatitudeOutOfRange
| LongitudeOutOfRange
| ParseFailed
| SetRejected
| CoordinatesMissing
| CoordinatesNotNumbers
| VerifyFailed
| TypeError.

(** How the specification names them. *)
Definition classify (e : Error) : ErrorClass :=
  match e with
  | NodeIdExists => DuplicateIdError
  | RequiredFields | LatitudeRequired | LongitudeRequired
  | InvalidLatitude | InvalidLongitude
  | LatitudeOutOfRange | LongitudeOutOfRange | ParseFailed => ValidationError
  | SetRejected | TypeError => StoreError
  | CoordinatesMissing | CoordinatesNotNumbers | VerifyFailed =>
      VerificationError
  end.

(** The message shown when the handler is done. *)
Inductive Message : Type :=
| MsgSuccess
| MsgError (e : Error).

Definition falsy_string (s : string) : bool := String.eqb s "".

(** [validateForm()] *)
Definition validateForm (formData : FormData) : Db.Action Error unit :=
  do snapshot_exists <- Db.read (fun s => Db.node_exists s (nodeId formData)) ;
  run Db.throw_if snapshot_exists NodeIdExists ;
  run Db.throw_if (falsy_string (nodeId formData)
                   || falsy_string (name formData)) RequiredFields ;
  run Db.throw_if (falsy_string (latitude formData)
                   || String.eqb (latitude formData) "") LatitudeRequired ;
  run Db.throw_if (falsy_string (longitude formData)
                   || String.eqb (longitude formData) "") LongitudeRequired ;
  let lat := Js.parseFloat (latitude formData) in
  let lon := Js.parseFloat (longitude formData) in
  run Db.throw_if (Js.num_isNaN lat) InvalidLatitude ;
  run Db.throw_if (Js.num_isNaN lon) InvalidLongitude ;
  run Db.throw_if (negb (Utils.isValidLatitude (Js.VNum lat)))
                  LatitudeOutOfRange ;
  run Db.throw_if (negb (Utils.isValidLongitude (Js.VNum lon)))
                  LongitudeOutOfRange ;
  Db.ret tt.

(** [formData.nearbyNodes.split(',').map(id => id.trim())
      .filter(id => id.length > 0)] *)
Definition nearbyNodesArray (formData : FormData) : list string :=
  filter (fun id => id <> "")
         (map Js.trim (Js.split_on "," (nearbyNodes formData))).

(** [a || b] on values. *)
Definition or_value (a b : Js.value) : Js.value :=
  if Js.truthy a then a else b.

(** The record under [nodes/{nodeId}] that [handleSubmit] writes.
    [createdAt] and [lastUpdateNow] are two readings of [Date.now()],
    [installedDate] is [new Date().toISOString()]. *)
Definition nodeData (formData : FormData) (latitude longitude : Js.number)
           (altitude : Js.value) (installedDate : string)
           (createdAt lastUpdateNow : Z) : Db.Node :=
  let metadata :=
    {| Db.md_nodeId := nodeId formData;
       Db.md_type := type formData;
       Db.md_name := name formData;
       Db.md_latitude := Js.VNum latitude;
       Db.md_longitude := Js.VNum longitude;
       Db.md_altitude := Db.stored altitude;
       Db.md_installedDate := installedDate;
       Db.md_installedBy :=
         if falsy_string (installedBy formData) then "Unknown"
         else installedBy formData;
       Db.md_description := description formData;
       Db.md_nearbyNodes := nearbyNodesArray formData;
       Db.md_status := "active";
       Db.md_createdAt := createdAt |} in
  let gateway := String.eqb (type formData) "gateway" in
  let realtime :=
    {| Db.rt_temperature := Js.VNum (Js.of_Z 0);
       Db.rt_pressure := Js.VNum (Js.of_Z 0);
       Db.rt_altitude := or_value altitude (Js.VNum (Js.of_Z 0));
       Db.rt_humidity :=
         Db.stored (if gateway then Js.VNum (Js.of_Z 0) else Js.VNull);
       Db.rt_rssi :=
         Db.stored (if gateway then Js.VNull else Js.VNum (Js.of_Z 0));
       Db.rt_status := "offline";
       Db.rt_lastUpdate := Js.VStr (Js.toString_Z (lastUpdateNow / 1000)) |} in
  Db.mkNode (Some metadata) (Some realtime) ∅ ∅.

(** [formData.altitude ? parseFloat(formData.altitude) : null] *)
Definition parsed_altitude (formData : FormData) : Js.value :=
  if falsy_string (altitude formData) then Js.VNull
  else Js.VNum (Js.parseFloat (altitude formData)).

(** The body of the [try] block of [handleSubmit]. *)
Definition submit (formData : FormData) (installedDate : string)
           (createdAt lastUpdateNow : Z) : Db.Action Error unit :=
  run validateForm formData ;
  let latitude := Js.parseFloat (latitude formData) in
  let longitude := Js.parseFloat (longitude formData) in
  let altitude := parsed_altitude formData in
  run Db.throw_if (Js.num_isNaN latitude || Js.num_isNaN longitude)
                  ParseFailed ;
  let data := nodeData formData latitude longitude altitude installedDate
                       createdAt lastUpdateNow in
  (* the client refuses NaN and the infinities *)
  run Db.throw_if (Db.invalid_number altitude) SetRejected ;
  run Db.write (Db.set_nodes (insert (nodeId formData) data)) ;
  do verify_exists <- Db.read (fun s => Db.node_exists s (nodeId formData)) ;
  if verify_exists then
    do saved <- Db.read (fun s => Db.nodes s !! nodeId formData) ;
    match saved ≫= Db.metadata with
    | Some savedMetadata =>
        run Db.throw_if (negb (Js.truthy (Db.md_latitude savedMetadata))
                         || negb (Js.truthy (Db.md_longitude savedMetadata)))
                        CoordinatesMissing ;
        run Db.throw_if (negb (Js.is_number (Db.md_latitude savedMetadata))
                         || negb (Js.is_number (Db.md_longitude savedMetadata)))
                        CoordinatesNotNumbers ;
        Db.ret tt
    | None =>
        (* reading a field of an absent [savedData.metadata] *)
        Db.throw TypeError
    end
  else Db.throw VerifyFailed.

(** [handleSubmit(e)]: the store it leaves and the message it shows. *)
Definition handleSubmit (formData : FormData) (installedDate : string)
           (createdAt lastUpdateNow : Z) (s : Db.Store) : Db.Store * Message :=
  match submit formData installedDate createdAt lastUpdateNow s with
  | (s', inr _) => (s', MsgSuccess)
  | (s', inl e) => (s', MsgError e)
  end.

End Register.

(** ** The SMS dispatch endpoint: [src/app/api/sms/route.js] *)

Module SmsRoute.

(** What [client.messages.create] answers: a message resource, or an
    exception with a message and a code. *)
Inductive TwilioResult : Type :=
| Created (status sid : string)
| Rejected (message : string) (code : option Z).

(** The server environment: the four variables of [process.env], whether
    the [twilio] package can be imported, and the provider itself. *)
Record Env : Type := mkEnv {
  NEXT_PUBLIC_TWILIO_ENABLED : option string;
  NEXT_PUBLIC_TWILIO_ACCOUNT_SID : option string;
  TWILIO_AUTH_TOKEN : option string;
  NEXT_PUBLIC_TWILIO_PHONE_NUMBER : option string;
  sdk_installed : bool;
  messages_create : forall (body from to : string), TwilioResult
}.

(** The JSON body of the request.  [recipients] is [None] when the field
    is missing or not an array, [message] when it is missing or not a
    string. *)
Record Request : Type := mkRequest {
  recipients : option (list string);
  message : option string;
  alertId : string;
  severity : string
}.

(** The JSON body of the response with its HTTP status; a field the
    branch does not set is [None] (or the empty list). *)
Record Response : Type := mkResponse {
  http_status : Z;
  success : bool;
  configured : option bool;
  partialSuccess : option bool;
  recipient_count : option Z;
  successCount : option Z;
  failureCount : option Z;
  response_message : option string;
  error : option string;
  deliveryResults : list Db.Delivery;
  errors : list Db.DeliveryError
}.

Definition env_truthy (v : option string) : bool :=
  match v with
  | Some s => negb (String.eqb s "")
  | None => false
  end.

Definition bad_request (err : string) : Response :=
  mkResponse 400 false None None None None None None (Some err) [] [].

(** One turn of the delivery loop. *)
Definition deliver (env : Env) (body from to : string)
  : Db.Delivery * option Db.DeliveryError :=
  match messages_create env body from to with
  | Created status sid =>
      (Db.mkDelivery to status (Some sid) None true, None)
  | Rejected msg code =>
      (Db.mkDelivery to "failed" None (Some msg) false,
       Some (Db.mkDeliveryError to msg code))
  end.

(** [POST(request)]: the response, and the recipients for which a
    delivery was attempted. *)
Definition POST (env : Env) (req : Request) : Response * list string :=
  match recipients req with
  | None | Some [] => (bad_request "Recipients array is required", [])
  | Some rcpts =>
      match message req with
      | None => (bad_request "Message is required", [])
      | Some msg =>
          if String.eqb msg "" then (bad_request "Message is required", [])
          else
            let twilioEnabled :=
              bool_decide (NEXT_PUBLIC_TWILIO_ENABLED env = Some "true") in
            let accountSid := NEXT_PUBLIC_TWILIO_ACCOUNT_SID env in
            let authToken := TWILIO_AUTH_TOKEN env in
            let fromNumber := NEXT_PUBLIC_TWILIO_PHONE_NUMBER env in
            if negb twilioEnabled || negb (env_truthy accountSid)
               || negb (env_truthy authToken) || negb (env_truthy fromNumber)
            then
              (mkResponse 200 false (Some false) None
                 (Some (Z.of_nat (length rcpts))) None None
                 (Some "SMS service not configured. Please set up Twilio credentials.")
                 None [] [],
               [])
            else if negb (sdk_installed env) then
              (mkResponse 500 false (Some true) None None None None
                 (Some "SMS service configuration incomplete")
                 (Some "Twilio SDK not installed. Run: npm install twilio")
                 [] [],
               [])
            else
              let results :=
                map (deliver env msg (default "" fromNumber)) rcpts in
              let deliveryResults := results.*1 in
              let errors := omap snd results in
              let successCount :=
                Z.of_nat (length (List.filter Db.dl_success deliveryResults)) in
              let failures := Z.of_nat (length errors) in
              let allSuccess := failures =? 0 in
              let partialSuccess := (0 <? successCount) && (0 <? failures) in
              (mkResponse 200 allSuccess (Some true) (Some partialSuccess)
                 (Some (Z.of_nat (length rcpts))) (Some successCount)
                 (Some failures)
                 (Some (if allSuccess then
                          "SMS sent successfully to "
                          ++ Js.toString_Z successCount ++ " recipient(s)"
                        else if partialSuccess then
                          "SMS sent to " ++ Js.toString_Z successCount
                          ++ " recipient(s), failed for "
                          ++ Js.toString_Z failures
                        else
                          "Failed to send SMS to all "
                          ++ Js.toString_Z (Z.of_nat (length rcpts))
                          ++ " recipient(s)"))
                 None deliveryResults errors,
               rcpts)
      end
  end.

(** The provider is unconfigured: Twilio is not enabled or a credential
    is missing. *)
Definition unconfigured (env : Env) : Prop :=
  NEXT_PUBLIC_TWILIO_ENABLED env <> Some "true"
  \/ env_truthy (NEXT_PUBLIC_TWILIO_ACCOUNT_SID env) = false
  \/ env_truthy (TWILIO_AUTH_TOKEN env) = false
  \/ env_truthy (NEXT_PUBLIC_TWILIO_PHONE_NUMBER env) = false.

End SmsRoute.

(** ** Notifications: [src/lib/notifications.js]

    The [fetch] of the dispatch endpoint is a call of [SmsRoute.POST]; the
    network does not fail. *)

Module Notifications.

(** What [sendSMSNotification] returns. *)
Record SmsResult : Type := mkSmsResult {
  success : bool;
  configured : bool;
  notificationId : option string;
  recipient_count : option Z;
  message : option string;
  details : option Db.Notification;
  partialSuccess : option bool;
  errors : list Db.DeliveryError
}.

(** The readings of the clock and of the random source that one call of
    [sendSMSNotification] makes. *)
Record SmsTicks : Type := mkSmsTicks {
  notification_tick : Utils.Tick;
  timestamp : Z;
  log_tick : Utils.Tick
}.

Definition option_truthy (b : option bool) : bool := default false b.

(** [sendSMSNotification({ recipients, message, alertId, severity })]:
    the result, and the recipients the endpoint tried to reach. *)
Definition sendSMSNotification {E} (env : SmsRoute.Env)
           (recipients : list string) (message alertId severity : string)
           (ticks : SmsTicks) : Db.Action E (SmsResult * list string) :=
  let notificationId := Utils.generateId "notification" (notification_tick ticks) in
  let timestamp := timestamp ticks in
  let '(result, attempted) :=
    SmsRoute.POST env
      (SmsRoute.mkRequest (Some recipients) (Some message) alertId severity) in
  if negb (option_truthy (SmsRoute.configured result)) then
    let notificationData :=
      {| Db.nt_id := notificationId;
         Db.nt_type := "sms";
         Db.nt_status := "pending";
         Db.nt_alertId := alertId;
         Db.nt_severity := severity;
         Db.nt_message := message;
         Db.nt_recipients := recipients;
         Db.nt_affectedNodes := [];
         Db.nt_timestamp := timestamp;
         Db.nt_method := Some "twilio";
         Db.nt_deliveryStatus := Some "not_configured";
         Db.nt_note :=
           Some ("SMS service not configured. Would send to: "
                 ++ Js.join ", " recipients);
         Db.nt_deliveryResults := [];
         Db.nt_successCount := None;
         Db.nt_failureCount := None;
         Db.nt_errors := [];
         Db.nt_expiresAt := None |} in
    run Db.write (Db.set_notifications (insert notificationId notificationData)) ;
    let logId := Utils.generateId "log" (log_tick ticks) in
    run Db.write
      (Db.put_log
         {| Db.log_id := logId;
            Db.log_type := "sms_pending";
            Db.log_message :=
              "SMS notification logged (not sent - Twilio not configured). Recipients: "
              ++ Js.toString_Z (Z.of_nat (length recipients));
            Db.log_timestamp := timestamp;
            Db.log_metadata :=
              [("notificationId", Db.MStr notificationId);
               ("alertId", Db.MStr alertId);
               ("recipients", Db.MNum (Z.of_nat (length recipients)))] |}) ;
    Db.ret
      ({| success := false;
          configured := false;
          notificationId := Some notificationId;
          recipient_count := Some (Z.of_nat (length recipients));
          message :=
            Some (match SmsRoute.response_message result with
                  | Some m => if String.eqb m "" then
                      "SMS service not configured. Notification logged for future delivery."
                      else m
                  | None =>
                      "SMS service not configured. Notification logged for future delivery."
                  end);
          details := Some notificationData;
          partialSuccess := None;
          errors := [] |},
       attempted)
  else
    let partial := option_truthy (SmsRoute.partialSuccess result) in
    let outcome (ok part bad : string) : string :=
      if SmsRoute.success result then ok else if partial then part else bad in
    let notificationData :=
      {| Db.nt_id := notificationId;
         Db.nt_type := "sms";
         Db.nt_status := outcome "sent" "partial" "failed";
         Db.nt_alertId := alertId;
         Db.nt_severity := severity;
         Db.nt_message := message;
         Db.nt_recipients := recipients;
         Db.nt_affectedNodes := [];
         Db.nt_timestamp := timestamp;
         Db.nt_method := Some "twilio";
         Db.nt_deliveryStatus := Some (outcome "delivered" "partial" "failed");
         Db.nt_note := None;
         Db.nt_deliveryResults := SmsRoute.deliveryResults result;
         Db.nt_successCount := SmsRoute.successCount result;
         Db.nt_failureCount := SmsRoute.failureCount result;
         Db.nt_errors := SmsRoute.errors result;
         Db.nt_expiresAt := None |} in
    run Db.write (Db.set_notifications (insert notificationId notificationData)) ;
    let logId := Utils.generateId "log" (log_tick ticks) in
    run Db.write
      (Db.put_log
         {| Db.log_id := logId;
            Db.log_type := outcome "sms_sent" "sms_partial" "sms_failed";
            Db.log_message := default "" (SmsRoute.response_message result);
            Db.log_timestamp := timestamp;
            Db.log_metadata :=
              [("notificationId", Db.MStr notificationId);
               ("alertId", Db.MStr alertId);
               ("recipients", Db.MNum (Z.of_nat (length recipients)));
               ("successCount", Db.MNum (default 0 (SmsRoute.successCount result)));
               ("failureCount", Db.MNum (default 0 (SmsRoute.failureCount result)))] |}) ;
    Db.ret
      ({| success := SmsRoute.success result;
          configured := true;
          notificationId := Some notificationId;
          recipient_count := Some (Z.of_nat (length recipients));
          message := SmsRoute.response_message result;
          details := Some notificationData;
          partialSuccess := SmsRoute.partialSuccess result;
          errors := SmsRoute.errors result |},
       attempted).

(** The readings one call of [sendInAppNotification] makes. *)
Record InAppTicks : Type := mkInAppTicks {
  inapp_tick : Utils.Tick;
  inapp_timestamp : Z
}.

(** [sendInAppNotification({ alertId, message, severity, affectedNodes })];
    the answer is its [success] flag. *)
Definition sendInAppNotification {E} (alertId message severity : string)
           (affectedNodes : list string) (ticks : InAppTicks)
  : Db.Action E bool :=
  let notificationId := Utils.generateId "notification" (inapp_tick ticks) in
  let timestamp := inapp_timestamp ticks in
  run Db.write
    (Db.set_notifications
       (insert notificationId
          {| Db.nt_id := notificationId;
             Db.nt_type := "in_app";
             Db.nt_status := "unread";
             Db.nt_alertId := alertId;
             Db.nt_severity := severity;
             Db.nt_message := message;
             Db.nt_recipients := [];
             Db.nt_affectedNodes := affectedNodes;
             Db.nt_timestamp := timestamp;
             Db.nt_method := None;
             Db.nt_deliveryStatus := None;
             Db.nt_note := None;
             Db.nt_deliveryResults := [];
             Db.nt_successCount := None;
             Db.nt_failureCount := None;
             Db.nt_errors := [];
             Db.nt_expiresAt := Some (timestamp + 7 * 24 * 60 * 60 * 1000) |})) ;
  Db.ret true.

End Notifications.

(** ** Contacts: [src/app/contacts/page.js] *)

Module Contacts.

Record FormData : Type := mkForm {
  name : string;
  phone : string;
  email : string;
  associatedNodes : list string;
  notificationPreference : string
}.

Inductive Error : Type :=
| InvalidPhone.

Definition classify (e : Error) : ErrorClass :=
  match e with
  | InvalidPhone => ValidationError
  end.

Inductive Message : Type :=
| MsgSuccess
| MsgError (e : Error)
| MsgDeleted.

(** The record [handleSubmit] writes; [createdAt] and [lastUpdated] are
    two readings of [Date.now()]. *)
Definition contactData (formData : FormData) (contactId : string)
           (createdAt lastUpdated : Z) : Db.Contact :=
  {| Db.ct_id := contactId;
     Db.ct_name := name formData;
     Db.ct_phone := Utils.formatPhoneNumber (phone formData);
     Db.ct_email := email formData;
     Db.ct_associatedNodes := associatedNodes formData;
     Db.ct_notificationPreference := notificationPreference formData;
     Db.ct_createdAt := createdAt;
     Db.ct_lastUpdated := lastUpdated |}.

(** The body of the [try] block of [handleSubmit]. *)
Definition submit (formData : FormData) (id_tick : Utils.Tick)
           (createdAt lastUpdated : Z) : Db.Action Error unit :=
  run Db.throw_if (negb (Utils.isValidPhoneNumber (phone formData)))
                  InvalidPhone ;
  let contactId := Utils.generateId "contact" id_tick in
  Db.write (Db.set_contacts
              (insert contactId
                      (contactData formData contactId createdAt lastUpdated))).

(** [handleSubmit(e)] *)
Definition handleSubmit (formData : FormData) (id_tick : Utils.Tick)
           (createdAt lastUpdated : Z) (s : Db.Store) : Db.Store * Message :=
  match submit formData id_tick createdAt lastUpdated s with
  | (s', inr _) => (s', MsgSuccess)
  | (s', inl e) => (s', MsgError e)
  end.

(** [handleDelete(contactId)], once the user has confirmed. *)
Definition handleDelete (contactId : string) (s : Db.Store)
  : Db.Store * Message :=
  (Db.set_contacts (delete contactId) s, MsgDeleted).

End Contacts.

(** ** The analytical panel: [src/app/admin/page.js]

    The page keeps copies of the [nodes] and [contacts] subtrees in React
    state through change subscriptions; a handler sees the subtree as it
    is in the store when the handler starts. *)

Module Admin.

Record AlertForm : Type := mkAlertForm {
  message : string;
  severity : string;
  affectedNodes : list string;
  sendSMS : bool
}.

(** The effect that recomputes [recipients] when the affected nodes or
    the contacts change. *)
Definition computeRecipients (contacts : gmap string Db.Contact)
           (affectedNodes : list string) : list Db.Contact :=
  if Nat.eqb (length affectedNodes) 0 then []
  else
    List.filter
      (fun contact =>
         Js.some (fun nodeId => Js.includes affectedNodes nodeId)
                 (Db.ct_associatedNodes contact))
      (Js.values contacts).

Inductive Error : Type :=
| MessageTooLong
| NoNodeSelected
| VerificationFailed.

Definition classify (e : Error) : ErrorClass :=
  match e with
  | MessageTooLong | NoNodeSelected => ValidationError
  | VerificationFailed => VerificationError
  end.

(** The toasts of [handleCreateAlert], in the order they are shown. *)
Inductive Toast : Type :=
| ToastError (e : Error)
| ToastSmsSent
| ToastSmsNotConfigured
| ToastSmsFailed
| ToastCreated.

(** The readings of the clock and of the random source that one run of
    [handleCreateAlert] makes. *)
Record Ticks : Type := mkTicks {
  alert_tick : Utils.Tick;
  now : Z;
  log_tick : Utils.Tick;
  sms_ticks : Notifications.SmsTicks;
  inapp_ticks : Notifications.InAppTicks
}.

(** The record written under [alerts/{alertId}]. *)
Definition alertData (alertForm : AlertForm) (alertId : string)
           (recipientPhones : list string) (now : Z) : Db.Alert :=
  {| Db.al_id := Some alertId;
     Db.al_nodeId := None;
     Db.al_type := Some "manual";
     Db.al_severity := Some (severity alertForm);
     Db.al_message := Some (message alertForm);
     Db.al_affectedNodes := affectedNodes alertForm;
     Db.al_timestamp := Some now;
     Db.al_acknowledged := Some false;
     Db.al_acknowledgedBy := None;
     Db.al_acknowledgedAt := None;
     Db.al_sentSMS := Some (sendSMS alertForm);
     Db.al_smsSentAt := if sendSMS alertForm then Some now else None;
     Db.al_recipients := recipientPhones;
     Db.al_createdBy := Some "analytical";
     Db.al_source := Some "analytical_panel" |}.

(** The back-reference written under [nodes/{nodeId}/alerts/{alertId}]. *)
Definition nodeAlert (alertForm : AlertForm) (alertId : string) (now : Z)
  : Db.AlertRef :=
  {| Db.ref_alertId := alertId;
     Db.ref_severity := severity alertForm;
     Db.ref_timestamp := now;
     Db.ref_acknowledged := false |}.

Definition alertLog (alertForm : AlertForm) (alertId logId : string)
           (recipientPhones : list string) (now : Z) : Db.LogEntry :=
  {| Db.log_id := logId;
     Db.log_type := "alert_triggered";
     Db.log_message :=
       "Manual alert created affecting "
       ++ Js.toString_Z (Z.of_nat (length (affectedNodes alertForm)))
       ++ " node(s): " ++ Js.dquote
       ++ Js.take_string 50 (message alertForm)
       ++ (if Nat.ltb 50 (String.length (message alertForm)) then "..." else "")
       ++ Js.dquote;
     Db.log_timestamp := now;
     Db.log_metadata :=
       [("alertId", Db.MStr alertId);
        ("affectedNodes", Db.MList (affectedNodes alertForm));
        ("severity", Db.MStr (severity alertForm));
        ("recipients", Db.MNum (Z.of_nat (length recipientPhones)))] |}.

(** The body of the [try] block of [handleCreateAlert]: the toasts it
    shows and the recipients an SMS delivery was attempted for. *)
Definition createAlert (env : SmsRoute.Env) (alertForm : AlertForm)
           (recipients : list Db.Contact) (ticks : Ticks)
  : Db.Action Error (list Toast * list string) :=
  let alertId := Utils.generateId "alert" (alert_tick ticks) in
  let recipientPhones := map Db.ct_phone recipients in
  let now := now ticks in
  run Db.write
    (Db.set_alerts (insert alertId (alertData alertForm alertId recipientPhones now))) ;
  do verified <- Db.read (fun s => bool_decide (is_Some (Db.alerts s !! alertId))) ;
  run Db.throw_if (negb verified) VerificationFailed ;
  run Db.for_each (affectedNodes alertForm)
        (fun nodeId =>
           Db.write (Db.put_node_alert nodeId alertId
                       (nodeAlert alertForm alertId now))) ;
  let logId := Utils.generateId "log" (log_tick ticks) in
  run Db.write (Db.put_log (alertLog alertForm alertId logId recipientPhones now)) ;
  do sms <-
    (if sendSMS alertForm && Nat.ltb 0 (length recipientPhones) then
       do r <- Notifications.sendSMSNotification env recipientPhones
                 ("[" ++ Js.toUpperCase (severity alertForm) ++ "] "
                  ++ message alertForm)
                 alertId (severity alertForm) (sms_ticks ticks) ;
       let '(smsResult, attempted) := r in
       Db.ret
         ([if Notifications.success smsResult then ToastSmsSent
           else if negb (Notifications.configured smsResult)
                then ToastSmsNotConfigured
           else ToastSmsFailed],
          attempted)
     else Db.ret ([], [])) ;
  do inAppResult <-
    Notifications.sendInAppNotification alertId (message alertForm)
      (severity alertForm) (affectedNodes alertForm) (inapp_ticks ticks) ;
  Db.ret ((fst sms ++ [ToastCreated])%list, snd sms).

(** [handleCreateAlert(e)]: the store it leaves, the toasts it shows and
    the recipients an SMS delivery was attempted for. *)
Definition handleCreateAlert (env : SmsRoute.Env) (alertForm : AlertForm)
           (ticks : Ticks) (s : Db.Store)
  : Db.Store * (list Toast * list string) :=
  let recipients := computeRecipients (Db.contacts s) (affectedNodes alertForm) in
  if Nat.ltb 500 (String.length (message alertForm)) then
    (s, ([ToastError MessageTooLong], []))
  else if Nat.eqb (length (affectedNodes alertForm)) 0 then
    (s, ([ToastError NoNodeSelected], []))
  else
    match createAlert env alertForm recipients ticks s with
    | (s', inr out) => (s', out)
    | (s', inl e) => (s', ([ToastError e], []))
    end.

(** [handleDeleteNode()] for [nodeToDelete]. *)
Definition handleDeleteNode (nodeToDelete : string) (log_tick : Utils.Tick)
           (now : Z) (s : Db.Store) : Db.Store :=
  let logId := Utils.generateId "log" log_tick in
  Db.put_log
    {| Db.log_id := logId;
       Db.log_type := "node_deletion";
       Db.log_message := "Node " ++ nodeToDelete ++ " was deleted";
       Db.log_timestamp := now;
       Db.log_metadata := [("nodeId", Db.MStr nodeToDelete)] |}
    (Db.set_nodes (delete nodeToDelete) s).

(** The parsed JSON file of an import; a subtree is [None] when the file
    does not have it. *)
Record ImportPreview : Type := mkImport {
  import_nodes : option (gmap string Db.Node);
  import_alerts : option (gmap string Db.Alert);
  import_contacts : option (gmap string Db.Contact)
}.

Definition replace_with {A} (o : option A) (current : A) : A :=
  default current o.

(** [confirmImportData()] *)
Definition confirmImportData (importPreview : ImportPreview)
           (log_tick : Utils.Tick) (now : Z) (s : Db.Store) : Db.Store :=
  let s1 := Db.set_nodes (replace_with (import_nodes importPreview)) s in
  let s2 := Db.set_alerts (replace_with (import_alerts importPreview)) s1 in
  let s3 := Db.set_contacts (replace_with (import_contacts importPreview)) s2 in
  let logId := Utils.generateId "log" log_tick in
  Db.put_log
    {| Db.log_id := logId;
       Db.log_type := "data_import";
       Db.log_message := "Historical data was imported";
       Db.log_timestamp := now;
       Db.log_metadata := [] |}
    s3.

(** [handleResetSystem()] with the text typed into the dialog. *)
Definition handleResetSystem (resetConfirmText : string) (s : Db.Store)
  : Db.Store :=
  if negb (String.eqb resetConfirmText "DELETE") then s
  else Db.mkStore ∅ ∅ ∅ ∅ (Db.notifications s).

End Admin.

(** ** The alerts page: [src/app/alerts/page.js] *)

Module AlertsPage.

(** [update(ref(database, `alerts/${alertId}`), {...})]: the three
    fields are overwritten, the others kept; the record is created when
    it is not there. *)
Definition acknowledge (alertId : string) (now : Z)
           (alerts : gmap string Db.Alert) : gmap string Db.Alert :=
  let a := default Db.empty_alert (alerts !! alertId) in
  <[alertId :=
      {| Db.al_id := Db.al_id a;
         Db.al_nodeId := Db.al_nodeId a;
         Db.al_type := Db.al_type a;
         Db.al_severity := Db.al_severity a;
         Db.al_message := Db.al_message a;
         Db.al_affectedNodes := Db.al_affectedNodes a;
         Db.al_timestamp := Db.al_timestamp a;
         Db.al_acknowledged := Some true;
         Db.al_acknowledgedBy := Some "analytical";
         Db.al_acknowledgedAt := Some now;
         Db.al_sentSMS := Db.al_sentSMS a;
         Db.al_smsSentAt := Db.al_smsSentAt a;
         Db.al_recipients := Db.al_recipients a;
         Db.al_createdBy := Db.al_createdBy a;
         Db.al_source := Db.al_source a |}]> alerts.

(** [handleAcknowledge(alertId)] *)
Definition handleAcknowledge (alertId : string) (now : Z) (s : Db.Store)
  : Db.Store :=
  Db.set_alerts (acknowledge alertId now) s.

Record ManualAlertForm : Type := mkManualForm {
  nodeId : string;
  severity : string;
  message : string
}.

(** [handleSendManualAlert(e)] *)
Definition handleSendManualAlert (manualAlertForm : ManualAlertForm)
           (id_tick : Utils.Tick) (now : Z) (s : Db.Store) : Db.Store :=
  let alertId := Utils.generateId "alert" id_tick in
  let nodeContacts :=
    List.filter
      (fun contact =>
         Js.includes (Db.ct_associatedNodes contact) (nodeId manualAlertForm))
      (Js.values (Db.contacts s)) in
  let recipients := map Db.ct_phone nodeContacts in
  Db.set_alerts
    (insert alertId
       {| Db.al_id := Some alertId;
          Db.al_nodeId := Some (nodeId manualAlertForm);
          Db.al_type := Some "manual";
          Db.al_severity := Some (severity manualAlertForm);
          Db.al_message := Some (message manualAlertForm);
          Db.al_affectedNodes := [];
          Db.al_timestamp := Some now;
          Db.al_acknowledged := Some false;
          Db.al_acknowledgedBy := None;
          Db.al_acknowledgedAt := None;
          Db.al_sentSMS := Some false;
          Db.al_smsSentAt := None;
          Db.al_recipients := recipients;
          Db.al_createdBy := None;
          Db.al_source := None |})
    s.

End AlertsPage.

(** ** The dashboard page and its map

    The dashboard page validates the nodes it receives from the [nodes]
    subscription and hands the valid ones to the map component
    [src/components/DashboardMap.js], which filters them once more. *)

Module DashboardPage.

(** Why a node is left out, as logged by the page. *)
Inductive Reason : Type :=
| MissingMetadata
| MissingLatitude
| MissingLongitude
| LatitudeNotNumber
| LongitudeNotNumber
| LatitudeOutOfRange
| LongitudeOutOfRange.

(** The body of [allNodes.forEach]: the reason the node is pushed to
    [invalidNodes], or [None] when it is pushed to [nodeArray]. *)
Definition check (node : Db.Node) : option Reason :=
  match Db.metadata node with
  | None => Some MissingMetadata
  | Some metadata =>
      let latitude := Db.md_latitude metadata in
      let longitude := Db.md_longitude metadata in
      if negb (Js.truthy latitude) && Js.not_strictly_zero latitude
      then Some MissingLatitude
      else if negb (Js.truthy longitude) && Js.not_strictly_zero longitude
      then Some MissingLongitude
      else if negb (Js.is_number latitude) then Some LatitudeNotNumber
      else if negb (Js.is_number longitude) then Some LongitudeNotNumber
      else if Js.ltb (Js.ToNumber latitude) (Js.of_Z (-90))
              || Js.gtb (Js.ToNumber latitude) (Js.of_Z 90)
      then Some LatitudeOutOfRange
      else if Js.ltb (Js.ToNumber longitude) (Js.of_Z (-180))
              || Js.gtb (Js.ToNumber longitude) (Js.of_Z 180)
      then Some LongitudeOutOfRange
      else None
  end.

(** The [nodeArray] the page keeps in its state for a snapshot [data]. *)
Definition nodeArray (data : gmap string Db.Node) : list Db.Node :=
  List.filter (fun node => bool_decide (check node = None)) (Js.values data).

End DashboardPage.

Module DashboardMap.

(** The predicate of [validNodes] (and of the bounds updater). *)
Definition validNode (node : Db.Node) : bool :=
  match Db.metadata node with
  | None => false
  | Some metadata =>
      Js.truthy (Db.md_latitude metadata)
      && Js.truthy (Db.md_longitude metadata)
      && negb (Js.isNaN (Db.md_latitude metadata))
      && negb (Js.isNaN (Db.md_longitude metadata))
  end.

Definition validNodes (nodes : list Db.Node) : list Db.Node :=
  List.filter validNode nodes.

(** The marker positions, [[Number(latitude), Number(longitude)]]. *)
Definition markers (nodes : list Db.Node) : list (Js.number * Js.number) :=
  omap (fun node =>
          metadata ← Db.metadata node;
          Some (Js.ToNumber (Db.md_latitude metadata),
                Js.ToNumber (Db.md_longitude metadata)))
       (validNodes nodes).

End DashboardMap.

(** The nodes drawn on the dashboard map for a snapshot of [nodes]. *)
Definition visible_nodes (data : gmap string Db.Node) : list Db.Node :=
  DashboardMap.validNodes (DashboardPage.nodeArray data).

(** The coordinates of a node when both are present as finite numbers. *)
Definition coordinates (node : Db.Node) : option (Q * Q) :=
  match Db.metadata node with
  | Some metadata =>
      match Db.md_latitude metadata, Db.md_longitude metadata with
      | Js.VNum (Js.Fin lat), Js.VNum (Js.Fin lon) => Some (lat, lon)
      | _, _ => None
      end
  | None => None
  end.

(** The invariant of the data model: latitude in [-90, 90] and longitude
    in [-180, 180], both present as numbers. *)
Definition coordinates_valid (node : Db.Node) : Prop :=
  exists lat lon : Q,
    coordinates node = Some (lat, lon)
    /\ (inject_Z (-90) <= lat /\ lat <= inject_Z 90)%Q
    /\ (inject_Z (-180) <= lon /\ lon <= inject_Z 180)%Q.

(** ** The operations of the system

    Every handler that writes to the database, as one step on the store.
    [WriteElsewhere] stands for the handlers that are not embedded one by
    one (node edit, history clean-up, settings, the data simulator): they
    write under [nodes/], [logs/] and [settings/] only, and are
    over-approximated by an arbitrary change outside [alerts/]. *)

Module System.

Inductive Op : Type :=
| RegisterNode (f : Register.FormData) (installedDate : string)
               (createdAt lastUpdateNow : Z)
| CreateAlert (env : SmsRoute.Env) (f : Admin.AlertForm) (ticks : Admin.Ticks)
| SendManualAlert (f : AlertsPage.ManualAlertForm) (id_tick : Utils.Tick)
                  (now : Z)
| Acknowledge (alertId : string) (now : Z)
| AddContact (f : Contacts.FormData) (id_tick : Utils.Tick)
             (createdAt lastUpdated : Z)
| DeleteContact (contactId : string)
| DeleteNode (nodeId : string) (log_tick : Utils.Tick) (now : Z)
| ImportData (preview : Admin.ImportPreview) (log_tick : Utils.Tick) (now : Z)
| ResetSystem (resetConfirmText : string)
| WriteElsewhere (other : Db.Store).

Definition step (s : Db.Store) (op : Op) : Db.Store :=
  match op with
  | RegisterNode f installedDate createdAt lastUpdateNow =>
      fst (Register.handleSubmit f installedDate createdAt lastUpdateNow s)
  | CreateAlert env f ticks => fst (Admin.handleCreateAlert env f ticks s)
  | SendManualAlert f id_tick now =>
      AlertsPage.handleSendManualAlert f id_tick now s
  | Acknowledge alertId now => AlertsPage.handleAcknowledge alertId now s
  | AddContact f id_tick createdAt lastUpdated =>
      fst (Contacts.handleSubmit f id_tick createdAt lastUpdated s)
  | DeleteContact contactId => fst (Contacts.handleDelete contactId s)
  | DeleteNode nodeId log_tick now => Admin.handleDeleteNode nodeId log_tick now s
  | ImportData preview log_tick now =>
      Admin.confirmImportData preview log_tick now s
  | ResetSystem resetConfirmText => Admin.handleResetSystem resetConfirmText s
  | WriteElsewhere other =>
      Db.mkStore (Db.nodes other) (Db.alerts s) (Db.contacts other)
                 (Db.logs other) (Db.notifications other)
  end.

(** A sequence of operations, first to last. *)
Definition exec (ops : list Op) (s : Db.Store) : Db.Store := foldl step s ops.

(** The [acknowledged] field of the alert, if the alert and the field
    are there. *)
Definition acknowledged (s : Db.Store) (alertId : string) : option bool :=
  Db.alerts s !! alertId ≫= Db.al_acknowledged.

(** The operation does not write a new record under [alerts/{alertId}]:
    it is not a bulk import that carries an [alerts] subtree, and an
    identifier it generates for a new alert is not [alertId]. *)
Definition no_overwrite (alertId : string) (op : Op) : Prop :=
  match op with
  | CreateAlert _ _ ticks =>
      Utils.generateId "alert" (Admin.alert_tick ticks) <> alertId
  | SendManualAlert _ id_tick _ => Utils.generateId "alert" id_tick <> alertId
  | ImportData preview _ _ => Admin.import_alerts preview = None
  | _ => True
  end.

(** The operation is not a confirmed system reset. *)
Definition no_reset (op : Op) : Prop :=
  match op with
  | ResetSystem resetConfirmText => resetConfirmText <> "DELETE"
  | _ => True
  end.

End System.

(** The number of decimal digits in a string. *)
Fixpoint digit_count (s : string) : nat :=
  match s with
  | String c r => (if Js.is_digit c then 1 else 0) + digit_count r
  | EmptyString => 0
  end.

(** The node [nodeId] holds the back-reference [r] to the alert. *)
Definition linked (alertId : string) (r : Db.AlertRef) (nodeId : string)
           (ns : gmap string Db.Node) : Prop :=
  exists n, ns !! nodeId = Some n /\ Db.node_alerts n !! alertId = Some r.

(** Two lists of node identifiers that have an element in common. *)
Definition intersects (l1 l2 : list string) : Prop :=
  Exists (fun n => n ∈ l2) l1.

#[global] Instance intersects_dec (l1 l2 : list string) :
  Decision (intersects l1 l2).
Proof. unfold intersects. apply _. Defined.

(** ** Sample data *)

Module Sample.

(** A sensor node in Delhi. *)
Definition form1 : Register.FormData :=
  {| Register.nodeId := "node1";
     Register.type := "node";
     Register.name := "Ridge sensor";
     Register.latitude := "28.6139";
     Register.longitude := "77.2090";
     Register.altitude := "";
     Register.installedBy := "";
     Register.description := "";
     Register.nearbyNodes := "" |}.

(** The same node placed on the equator. *)
Definition form_equator : Register.FormData :=
  {| Register.nodeId := "node1";
     Register.type := "node";
     Register.name := "Ridge sensor";
     Register.latitude := "0";
     Register.longitude := "77.2090";
     Register.altitude := "";
     Register.installedBy := "";
     Register.description := "";
     Register.nearbyNodes := "" |}.

Definition installedDate : string := "2023-11-14T22:13:20.000Z".
Definition now : Z := 1700000000000.

(** The store after [form1] has been registered on an empty database. *)
Definition store1 : Db.Store :=
  fst (Register.handleSubmit form1 installedDate now now Db.empty).

(** The record stored for [form1]. *)
Definition node1 : Db.Node :=
  Register.nodeData form1 (Js.Fin (286139 # 10000)) (Js.Fin (772090 # 10000))
                    Js.VNull installedDate now now.

(** A server on which Twilio has not been set up. *)
Definition env_unconfigured : SmsRoute.Env :=
  {| SmsRoute.NEXT_PUBLIC_TWILIO_ENABLED := None;
     SmsRoute.NEXT_PUBLIC_TWILIO_ACCOUNT_SID := None;
     SmsRoute.TWILIO_AUTH_TOKEN := None;
     SmsRoute.NEXT_PUBLIC_TWILIO_PHONE_NUMBER := None;
     SmsRoute.sdk_installed := false;
     SmsRoute.messages_create :=
       fun _ _ to => SmsRoute.Rejected "no provider" None |}.

Definition contact1 : Db.Contact :=
  Db.mkContact "contact_1" "Asha" "+919876543210" "" ["node1"] "sms" now now.

(** [store1] with one contact associated to [node1]. *)
Definition store2 : Db.Store :=
  Db.set_contacts (insert "contact_1" contact1) store1.

Definition alert_form : Admin.AlertForm :=
  {| Admin.message := "Cloudburst risk upstream";
     Admin.severity := "critical";
     Admin.affectedNodes := ["node1"; "node2"];
     Admin.sendSMS := true |}.

Definition ticks : Admin.Ticks :=
  {| Admin.alert_tick := Utils.mkTick now "a1b2c3d4e";
     Admin.now := now;
     Admin.log_tick := Utils.mkTick now "f5g6h7i8j";
     Admin.sms_ticks :=
       Notifications.mkSmsTicks (Utils.mkTick now "k9l0m1n2o") now
                                (Utils.mkTick now "p3q4r5s6t");
     Admin.inapp_ticks :=
       Notifications.mkInAppTicks (Utils.mkTick now "u7v8w9x0y") now |}.

(** A store in which the alert [alert_1] has been acknowledged. *)
Definition store_acknowledged : Db.Store :=
  AlertsPage.handleAcknowledge "alert_1" now
    (Db.set_alerts
       (insert "alert_1" (Admin.alertData alert_form "alert_1" [] now))
       Db.empty).

(** A backup file taken before the acknowledgement. *)
Definition backup : Admin.ImportPreview :=
  {| Admin.import_nodes := None;
     Admin.import_alerts :=
       Some {["alert_1" := Admin.alertData alert_form "alert_1" [] now]};
     Admin.import_contacts := None |}.

(** A node whose stored latitude is out of range. *)
Definition node_out_of_range : Db.Node :=
  Db.mkNode
    (Some (Db.mkMetadata "node9" "node" "Stray" (Js.VNum (Js.of_Z 200))
                         (Js.VNum (Js.of_Z 10)) Js.VUndefined installedDate
                         "Unknown" "" [] "active" now))
    None ∅ ∅.

End Sample.

(** Strings made of decimal digits only. *)
Fixpoint all_digits (s : string) : bool :=
  match s with
  | String c s' => Js.is_digit c && all_digits s'
  | EmptyString => true
  end.

(** ** The dashboard page's own classifier: [src/app/dashboard/page.js] *)

Module DashboardStatus.

(** [getNodeStatus(node)]: the stored [status] string decides first, the
    age of [lastUpdate] only confirms an [online]. *)
Definition getNodeStatus (now : Z) (node : Db.Node) : Status :=
  match Db.realtime node with
  | None => offline
  | Some realtime =>
      let lastUpdate := Db.rt_lastUpdate realtime in
      if negb (Js.truthy lastUpdate) then offline
      else if String.eqb (Db.rt_status realtime) "offline" then offline
      else if String.eqb (Db.rt_status realtime) "online" then
        let fiveMinutesAgo := Js.sub (Js.of_Z now) (Js.of_Z (5 * 60 * 1000)) in
        let lastUpdateMs :=
          match lastUpdate with
          | Js.VStr s => Js.mul (Js.parseInt s) (Js.of_Z 1000)
          | _ => Js.ToNumber lastUpdate
          end in
        if Js.gtb lastUpdateMs fiveMinutesAgo then online else offline
      else offline
  end.

End DashboardStatus.

(** ** Selecting nodes: [toggleNodeSelection], [selectAllNodes] and
    [deselectAllNodes] of the analytical panel, [handleNodeSelection] of
    the contacts page *)

Module Selection.

(** [list.includes(nodeId) ? list.filter(id => id !== nodeId)
                          : [...list, nodeId]] *)
Definition toggle (selected : list string) (nodeId : string) : list string :=
  if Js.includes selected nodeId
  then List.filter (fun id => negb (String.eqb id nodeId)) selected
  else (selected ++ [nodeId])%list.

Definition toggleNodeSelection (alertForm : Admin.AlertForm) (nodeId : string)
  : Admin.AlertForm :=
  {| Admin.message := Admin.message alertForm;
     Admin.severity := Admin.severity alertForm;
     Admin.affectedNodes := toggle (Admin.affectedNodes alertForm) nodeId;
     Admin.sendSMS := Admin.sendSMS alertForm |}.

Definition selectAllNodes (alertForm : Admin.AlertForm)
           (nodes : gmap string Db.Node) : Admin.AlertForm :=
  {| Admin.message := Admin.message alertForm;
     Admin.severity := Admin.severity alertForm;
     Admin.affectedNodes := Js.keys nodes;
     Admin.sendSMS := Admin.sendSMS alertForm |}.

Definition deselectAllNodes (alertForm : Admin.AlertForm) : Admin.AlertForm :=
  {| Admin.message := Admin.message alertForm;
     Admin.severity := Admin.severity alertForm;
     Admin.affectedNodes := [];
     Admin.sendSMS := Admin.sendSMS alertForm |}.

Definition handleNodeSelection (formData : Contacts.FormData) (nodeId : string)
  : Contacts.FormData :=
  {| Contacts.name := Contacts.name formData;
     Contacts.phone := Contacts.phone formData;
     Contacts.email := Contacts.email formData;
     Contacts.associatedNodes := toggle (Contacts.associatedNodes formData) nodeId;
     Contacts.notificationPreference :=
       Contacts.notificationPreference formData |}.

End Selection.

(** ** The lists of the alerts page and the counters of the home page *)

Module AlertsList.

(** [alert.acknowledged] as a condition. *)
Definition is_acknowledged (alert : Db.Alert) : bool :=
  default false (Db.al_acknowledged alert).

(** [filteredAlerts] of [src/app/alerts/page.js] for the page's [alerts]
    array and the selected tab. *)
Definition filteredAlerts (alerts : list Db.Alert) (tab : string)
  : list Db.Alert :=
  List.filter
    (fun alert =>
       if String.eqb tab "active" then negb (is_acknowledged alert)
       else if String.eqb tab "acknowledged" then is_acknowledged alert
       else true)
    alerts.

(** One element of the page's [alerts] array, [{ id, ...alert }]: the key
    is the identifier unless the record carries one. *)
Definition with_id (id : string) (alert : Db.Alert) : Db.Alert :=
  {| Db.al_id := Some (default id (Db.al_id alert));
     Db.al_nodeId := Db.al_nodeId alert;
     Db.al_type := Db.al_type alert;
     Db.al_severity := Db.al_severity alert;
     Db.al_message := Db.al_message alert;
     Db.al_affectedNodes := Db.al_affectedNodes alert;
     Db.al_timestamp := Db.al_timestamp alert;
     Db.al_acknowledged := Db.al_acknowledged alert;
     Db.al_acknowledgedBy := Db.al_acknowledgedBy alert;
     Db.al_acknowledgedAt := Db.al_acknowledgedAt alert;
     Db.al_sentSMS := Db.al_sentSMS alert;
     Db.al_smsSentAt := Db.al_smsSentAt alert;
     Db.al_recipients := Db.al_recipients alert;
     Db.al_createdBy := Db.al_createdBy alert;
     Db.al_source := Db.al_source alert |}.

(** [Object.entries(data).map(([id, alert]) => ({ id, ...alert }))]: the
    array the page then sorts by time stamp. *)
Definition entries (data : gmap string Db.Alert) : list Db.Alert :=
  map (fun '(id, alert) => with_id id alert) (map_to_list data).

End AlertsList.

Module HomeStats.

(** [totalNodes], [activeNodes] and [totalDataPoints] of
    [src/app/page.js], for a snapshot of [nodes]. *)
Definition totalNodes (nodesData : gmap string Db.Node) : nat :=
  length (Js.keys nodesData).

Definition lastUpdate_of (node : Db.Node) : Js.value :=
  match Db.realtime node with
  | Some realtime => Db.rt_lastUpdate realtime
  | None => Js.VUndefined
  end.


Definition totalDataPoints (nodesData : gmap string Db.Node) : nat :=
  foldl (fun total node => (total + size (Db.history node))%nat) 0%nat
        (Js.values nodesData).

(** What one alert adds to [activeAlerts]. *)
Definition counts (a : Db.Alert) : nat :=
  if AlertsList.is_acknowledged a then 0%nat else 1%nat.

(** [activeAlerts], for a snapshot of [alerts]. *)
Definition activeAlerts (data : gmap string Db.Alert) : nat :=
  length
    (List.filter (fun alert => negb (AlertsList.is_acknowledged alert))
                 (Js.values data)).

End HomeStats.

(** ** The SMS status endpoint: [GET] of [src/app/api/sms/route.js] *)

Module SmsStatus.

Record Status : Type := mkStatus {
  enabled : bool;
  configured : bool;
  accountSid : string;
  authToken : string;
  phoneNumber : string;
  sdkInstalled : bool;
  status : string
}.



End SmsStatus.

(** ** The list of taken identifiers: [checkExistingNodes] of
    [src/app/register/page.js] *)

Module ExistingNodes.

Record Entry : Type := mkEntry {
  id : string;
  name : string;
  hasCoordinates : bool
}.

(** One element of [nodeList]. *)
Definition entry (nodeId : string) (node : Db.Node) : Entry :=
  {| id := nodeId;
     name :=
       match Db.metadata node with
       | Some metadata =>
           if String.eqb (Db.md_name metadata) "" then "Unknown"
           else Db.md_name metadata
       | None => "Unknown"
       end;
     hasCoordinates :=
       match Db.metadata node with
       | Some metadata =>
           Js.truthy (Db.md_latitude metadata)
           && Js.truthy (Db.md_longitude metadata)
       | None => false
       end |}.

(** The [existingNodes] the page shows for a snapshot of [nodes]. *)
Definition checkExistingNodes (nodes : gmap string Db.Node) : list Entry :=
  map (fun '(nodeId, node) => entry nodeId node) (map_to_list nodes).

End ExistingNodes.

(** ** Data management on the analytical panel:
    [handleCleanupOldData], [handleExportAllData] and the pagination of
    the node table, [src/app/admin/page.js] *)

Module Cleanup.

(** [cleanupDays] is the initial [30] or the [parseInt] of the number
    field: an integer, or [None] for [NaN]. *)
Definition days_number (cleanupDays : option Z) : Js.number :=
  match cleanupDays with
  | Some d => Js.of_Z d
  | None => Js.NaN
  end.

(** [Date.now() - (cleanupDays * 24 * 60 * 60 * 1000)] *)
Definition cutoffTime (now : Z) (cleanupDays : option Z) : Js.number :=
  Js.sub (Js.of_Z now)
         (Js.mul (Js.mul (Js.mul (Js.mul (days_number cleanupDays)
                                         (Js.of_Z 24))
                                 (Js.of_Z 60))
                         (Js.of_Z 60))
                 (Js.of_Z 1000)).

(** [parseInt(timestamp) < cutoffTime], on a key of [history] *)
Definition old (cutoffTime : Js.number) (timestamp : string) : bool :=
  Js.ltb (Js.parseInt timestamp) cutoffTime.

(** The readings of one node that are removed, counted, and those that
    stay. *)
Definition removed (cutoffTime : Js.number) (history : gmap string Db.Reading)
  : nat :=
  size (filter (fun kv => old cutoffTime kv.1 = true) history).

Definition kept (cutoffTime : Js.number) (history : gmap string Db.Reading)
  : gmap string Db.Reading :=
  filter (fun kv => ~ old cutoffTime kv.1 = true) history.

(** What the inner loop leaves of one node: a node from which nothing is
    removed is not touched; a node that loses all it has is gone, as the
    database keeps no empty subtree. *)
Definition clean_node (cutoffTime : Js.number) (node : Db.Node)
  : option Db.Node :=
  if Nat.eqb (removed cutoffTime (Db.history node)) 0 then Some node
  else
    let node' :=
      Db.mkNode (Db.metadata node) (Db.realtime node)
                (kept cutoffTime (Db.history node)) (Db.node_alerts node) in
    if Db.node_nonempty node' then Some node' else None.

Definition clean (cutoffTime : Js.number) (nodes : gmap string Db.Node)
  : gmap string Db.Node :=
  omap (clean_node cutoffTime) nodes.

(** [deletedCount] when both loops are done. *)
Definition deletedCount (cutoffTime : Js.number) (nodes : gmap string Db.Node)
  : nat :=
  foldl (fun count node => (count + removed cutoffTime (Db.history node))%nat)
        0%nat (Js.values nodes).

Inductive Toast : Type :=
| ToastCleaned (deletedCount : nat)
| ToastFailed.

(** [handleCleanupOldData()]; [now] and [logged] are the two readings of
    [Date.now()].  The log entry carries [cleanupDays] in its metadata,
    and the client refuses to write a [NaN]. *)
Definition handleCleanupOldData (cleanupDays : option Z) (now : Z)
           (log_tick : Utils.Tick) (logged : Z) (s : Db.Store)
  : Db.Store * list Toast :=
  let cutoffTime := cutoffTime now cleanupDays in
  let deletedCount := deletedCount cutoffTime (Db.nodes s) in
  let s1 := Db.set_nodes (clean cutoffTime) s in
  match cleanupDays with
  | None => (s1, [ToastCleaned deletedCount; ToastFailed])
  | Some days =>
      let logId := Utils.generateId "log" log_tick in
      (Db.put_log
         {| Db.log_id := logId;
            Db.log_type := "data_cleanup";
            Db.log_message :=
              "Cleaned up " ++ Js.toString_Z (Z.of_nat deletedCount)
              ++ " data points older than " ++ Js.toString_Z days ++ " days";
            Db.log_timestamp := logged;
            Db.log_metadata :=
              [("deletedCount", Db.MNum (Z.of_nat deletedCount));
               ("cleanupDays", Db.MNum days)] |}
         s1,
       [ToastCleaned deletedCount])
  end.

End Cleanup.

Module Backup.

(** A value after [JSON.stringify] and [JSON.parse], written back to the
    database: [NaN] and the infinities become [null], and a [null] is not
    kept. *)
Definition json (v : Js.value) : Js.value :=
  match v with
  | Js.VNum (Js.Fin _) => v
  | Js.VNum _ => Js.VUndefined
  | Js.VNull => Js.VUndefined
  | _ => v
  end.

Definition json_metadata (m : Db.Metadata) : Db.Metadata :=
  {| Db.md_nodeId := Db.md_nodeId m;
     Db.md_type := Db.md_type m;
     Db.md_name := Db.md_name m;
     Db.md_latitude := json (Db.md_latitude m);
     Db.md_longitude := json (Db.md_longitude m);
     Db.md_altitude := json (Db.md_altitude m);
     Db.md_installedDate := Db.md_installedDate m;
     Db.md_installedBy := Db.md_installedBy m;
     Db.md_description := Db.md_description m;
     Db.md_nearbyNodes := Db.md_nearbyNodes m;
     Db.md_status := Db.md_status m;
     Db.md_createdAt := Db.md_createdAt m |}.

Definition json_realtime (r : Db.Realtime) : Db.Realtime :=
  {| Db.rt_temperature := json (Db.rt_temperature r);
     Db.rt_pressure := json (Db.rt_pressure r);
     Db.rt_altitude := json (Db.rt_altitude r);
     Db.rt_humidity := json (Db.rt_humidity r);
     Db.rt_rssi := json (Db.rt_rssi r);
     Db.rt_status := Db.rt_status r;
     Db.rt_lastUpdate := json (Db.rt_lastUpdate r) |}.

Definition json_reading (r : Db.Reading) : Db.Reading :=
  {| Db.rd_temperature := json (Db.rd_temperature r);
     Db.rd_pressure := json (Db.rd_pressure r);
     Db.rd_altitude := json (Db.rd_altitude r);
     Db.rd_humidity := json (Db.rd_humidity r);
     Db.rd_rainfall := json (Db.rd_rainfall r);
     Db.rd_rssi := json (Db.rd_rssi r);
     Db.rd_timestamp := json (Db.rd_timestamp r) |}.

Definition json_node (n : Db.Node) : Db.Node :=
  Db.mkNode (json_metadata <$> Db.metadata n) (json_realtime <$> Db.realtime n)
            (json_reading <$> Db.history n) (Db.node_alerts n).

(** [alerts.reduce((acc, alert) => ({ ...acc, [alert.id]: alert }), {})]
    on the page's [alerts] array. *)
Definition alerts_by_id (alerts : list Db.Alert) : gmap string Db.Alert :=
  foldl (fun acc alert => <[default "undefined" (Db.al_id alert) := alert]> acc)
        ∅ alerts.

(** The file [handleExportAllData] writes, as [handleImportData] reads it
    back; [logs] and [exportDate], which the import does not look at, are
    left out.  [alerts] is the page's array. *)
Definition handleExportAllData (alerts : list Db.Alert) (s : Db.Store)
  : Admin.ImportPreview :=
  {| Admin.import_nodes := Some (json_node <$> Db.nodes s);
     Admin.import_alerts := Some (alerts_by_id alerts);
     Admin.import_contacts := Some (Db.contacts s) |}.

(** The values the database can hold. *)
Definition storable (v : Js.value) : Prop := json v = v.

Definition storable_node (n : Db.Node) : Prop := json_node n = n.

End Backup.

Module Pagination.

Definition nodesPerPage : Z := 10.

(** [l.slice(start, end)] *)
Definition slice {A} (l : list A) (start end_ : Z) : list A :=
  let len := Z.of_nat (length l) in
  let from := if start <? 0 then Z.max (len + start) 0 else Z.min start len in
  let to := if end_ <? 0 then Z.max (len + end_) 0 else Z.min end_ len in
  take (Z.to_nat (to - from)) (drop (Z.to_nat from) l).

(** [paginatedNodes] *)
Definition paginatedNodes {A} (filteredNodes : list A) (currentPage : Z)
  : list A :=
  slice filteredNodes ((currentPage - 1) * nodesPerPage)
        (currentPage * nodesPerPage).

(** [Math.ceil(filteredNodes.length / nodesPerPage)] *)
Definition totalPages {A} (filteredNodes : list A) : Z :=
  - ((- Z.of_nat (length filteredNodes)) / nodesPerPage).

(** The Previous and Next buttons. *)
Definition previous (currentPage : Z) : Z := Z.max 1 (currentPage - 1).

Definition next (totalPages currentPage : Z) : Z :=
  Z.min totalPages (currentPage + 1).

End Pagination.

(** ** The settings page: [src/app/settings/page.js] *)

Module Settings.

(** [Math.max] and [Math.min] on two numbers. *)
Definition math_max (a b : Js.number) : Js.number :=
  if Js.num_isNaN a || Js.num_isNaN b then Js.NaN
  else if Js.ltb a b then b else a.

Definition math_min (a b : Js.number) : Js.number :=
  if Js.num_isNaN a || Js.num_isNaN b then Js.NaN
  else if Js.ltb b a then b else a.

(** [handleChange] of [NumberInput] for the text [val] of the field: the
    value passed to [onChange], or [None] when [onChange] is not
    called. *)
Definition handleChange (min max : Js.number) (val : string)
  : option Js.value :=
  if String.eqb val "" then Some (Js.VStr "")
  else
    let num := Js.parseFloat val in
    if negb (Js.num_isNaN num)
    then Some (Js.VNum (math_min (math_max num min) max))
    else None.

(** A rule with an amount and a time window ([pressureDrop],
    [temperatureDrop], [rainfall]) and the [humidity] rule.  A field
    holds a number, or the empty string while the input is empty. *)
Record WindowRule : Type := mkWindowRule {
  enabled : bool;
  amount : Js.value;
  timeWindow : Js.value;
  severity : string
}.

Record HumidityRule : Type := mkHumidityRule {
  humidity_enabled : bool;
  threshold : Js.value;
  humidity_severity : string
}.

Record Thresholds : Type := mkThresholds {
  pressureDrop : WindowRule;
  humidity : HumidityRule;
  temperatureDrop : WindowRule;
  rainfall : WindowRule
}.

Inductive ThresholdError : Type :=
| PressureDropRange
| PressureDropWindow
| HumidityRange
| TemperatureDropRange
| TemperatureDropWindow
| RainfallRange
| RainfallWindow.

(** [v <= 0 || v > max] *)
Definition range_invalid (v : Js.value) (max : Z) : bool :=
  Js.leb (Js.ToNumber v) (Js.of_Z 0) || Js.gtb (Js.ToNumber v) (Js.of_Z max).

(** [v < 1 || v > 120] *)
Definition window_invalid (v : Js.value) : bool :=
  Js.ltb (Js.ToNumber v) (Js.of_Z 1) || Js.gtb (Js.ToNumber v) (Js.of_Z 120).

(** [if (c) errors.push(e)] *)
Definition push_if {E} (c : bool) (e : E) : list E := if c then [e] else [].

(** [validateThresholds()] *)
Definition validateThresholds (thresholds : Thresholds)
  : list ThresholdError :=
  ((if enabled (pressureDrop thresholds) then
      push_if (range_invalid (amount (pressureDrop thresholds)) 50)
              PressureDropRange
      ++ push_if (window_invalid (timeWindow (pressureDrop thresholds)))
                 PressureDropWindow
    else [])
   ++ (if humidity_enabled (humidity thresholds) then
         push_if (range_invalid (threshold (humidity thresholds)) 100)
                 HumidityRange
       else [])
   ++ (if enabled (temperatureDrop thresholds) then
         push_if (range_invalid (amount (temperatureDrop thresholds)) 50)
                 TemperatureDropRange
         ++ push_if (window_invalid (timeWindow (temperatureDrop thresholds)))
                    TemperatureDropWindow
       else [])
   ++ (if enabled (rainfall thresholds) then
         push_if (range_invalid (amount (rainfall thresholds)) 500)
                 RainfallRange
         ++ push_if (window_invalid (timeWindow (rainfall thresholds)))
                    RainfallWindow
       else []))%list.

(** The system settings; the two numbers are set by [parseInt] of their
    fields: an integer, or [None] for [NaN]. *)
Record SystemSettings : Type := mkSystemSettings {
  updateInterval : option Z;
  dataRetention : option Z;
  mapProvider : string;
  mapApiKey : string
}.

Inductive SystemError : Type :=
| UpdateIntervalRange
| DataRetentionRange
| ApiKeyRequired (provider : string).

Definition number_of (n : option Z) : Js.number :=
  match n with
  | Some z => Js.of_Z z
  | None => Js.NaN
  end.

(** [validateSystemSettings()] *)
Definition validateSystemSettings (systemSettings : SystemSettings)
  : list SystemError :=
  (push_if (Js.ltb (number_of (updateInterval systemSettings)) (Js.of_Z 5)
            || Js.gtb (number_of (updateInterval systemSettings)) (Js.of_Z 60))
           UpdateIntervalRange
   ++ push_if (Js.ltb (number_of (dataRetention systemSettings)) (Js.of_Z 1)
               || Js.gtb (number_of (dataRetention systemSettings))
                         (Js.of_Z 90))
              DataRetentionRange
   ++ push_if ((String.eqb (mapProvider systemSettings) "google"
                || String.eqb (mapProvider systemSettings) "mapbox")
               && String.eqb (Js.trim (mapApiKey systemSettings)) "")
              (ApiKeyRequired (mapProvider systemSettings)))%list.

(** How [saveSystemSettings] ends. *)
Inductive Outcome : Type :=
| Refused (e : SystemError)
| Cancelled
| Saved
| SaveFailed.

(** [saveSystemSettings()]; [confirmed] is the answer to the
    confirmation dialog, should it be shown.  The client refuses to
    write a [NaN]. *)
Definition saveSystemSettings (systemSettings : SystemSettings)
           (confirmed : bool) : Outcome :=
  match validateSystemSettings systemSettings with
  | e :: _ => Refused e
  | [] =>
      if Js.ltb (number_of (dataRetention systemSettings)) (Js.of_Z 7)
         && negb confirmed
      then Cancelled
      else
        match updateInterval systemSettings, dataRetention systemSettings with
        | Some _, Some _ => Saved
        | _, _ => SaveFailed
        end
  end.

End Settings.

(** ** Editing a node: [handleSaveNode] of [src/app/admin/page.js] *)

Module NodeEdit.

(** The fields of [selectedNode.metadata] that [handleSaveNode] reads.
    The coordinates and the altitude are numbers as loaded or captured,
    or the text of their input fields. *)
Record Edited : Type := mkEdited {
  name : string;
  description : string;
  type : string;
  latitude : Js.value;
  longitude : Js.value;
  altitude : Js.value;
  nearbyNodes : list string
}.

(** [parseFloat(v) || 0] *)
Definition number_or_zero (v : Js.value) : Js.number :=
  let n := Js.parseFloat_value v in
  if Js.num_truthy n then n else Js.of_Z 0.

(** The object passed to [update]. *)
Record Payload : Type := mkPayload {
  p_name : string;
  p_description : string;
  p_type : string;
  p_latitude : Js.number;
  p_longitude : Js.number;
  p_altitude : Js.number;
  p_nearbyNodes : list string
}.

Definition payload (edited : Edited) : Payload :=
  {| p_name := name edited;
     p_description := description edited;
     p_type := if String.eqb (type edited) "" then "sensor" else type edited;
     p_latitude := number_or_zero (latitude edited);
     p_longitude := number_or_zero (longitude edited);
     p_altitude := number_or_zero (altitude edited);
     p_nearbyNodes := nearbyNodes edited |}.

(** The client refuses an infinity. *)
Definition refused (p : Payload) : bool :=
  Db.invalid_number (Js.VNum (p_latitude p))
  || Db.invalid_number (Js.VNum (p_longitude p))
  || Db.invalid_number (Js.VNum (p_altitude p)).

(** [update(ref(database, `nodes/${id}/metadata`), payload)] on a stored
    metadata record: the seven fields are overwritten, the others kept. *)
Definition update (stored : Db.Metadata) (p : Payload) : Db.Metadata :=
  {| Db.md_nodeId := Db.md_nodeId stored;
     Db.md_type := p_type p;
     Db.md_name := p_name p;
     Db.md_latitude := Js.VNum (p_latitude p);
     Db.md_longitude := Js.VNum (p_longitude p);
     Db.md_altitude := Js.VNum (p_altitude p);
     Db.md_installedDate := Db.md_installedDate stored;
     Db.md_installedBy := Db.md_installedBy stored;
     Db.md_description := p_description p;
     Db.md_nearbyNodes := p_nearbyNodes p;
     Db.md_status := Db.md_status stored;
     Db.md_createdAt := Db.md_createdAt stored |}.

(** What the edit leaves of a stored node that has metadata; a refused
    payload leaves it as it is. *)
Definition saved (node : Db.Node) (stored : Db.Metadata) (edited : Edited)
  : Db.Node :=
  if refused (payload edited) then node
  else Db.mkNode (Some (update stored (payload edited))) (Db.realtime node)
                 (Db.history node) (Db.node_alerts node).

End NodeEdit.

(** ** The log panel: [filteredLogs] of [src/app/admin/page.js] *)

Module LogPanel.

(** [s.toLowerCase()] on the letters A to Z. *)
Fixpoint toLowerCase (s : string) : string :=
  match s with
  | EmptyString => EmptyString
  | String c r =>
      let n := Js.code c in
      String (if (65 <=? n) && (n <=? 90)
              then ascii_of_nat (Z.to_nat (n + 32)) else c)
             (toLowerCase r)
  end.

(** [s.includes(sub)] on strings. *)
Fixpoint includes (s sub : string) : bool :=
  String.prefix sub s
  || match s with
     | String _ r => includes r sub
     | EmptyString => false
     end.

(** [typeMap[logFilter]] for the values of the filter menu. *)
Definition typeMap (logFilter : string) : option string :=
  if String.eqb logFilter "registrations" then Some "node_registration"
  else if String.eqb logFilter "alerts" then Some "alert_triggered"
  else if String.eqb logFilter "sms" then Some "sms_sent"
  else if String.eqb logFilter "errors" then Some "system_error"
  else None.

Definition cutoff (now : Z) (logDateRange : string) : Z :=
  if String.eqb logDateRange "24h" then now - 24 * 60 * 60 * 1000
  else if String.eqb logDateRange "7d" then now - 7 * 24 * 60 * 60 * 1000
  else if String.eqb logDateRange "30d" then now - 30 * 24 * 60 * 60 * 1000
  else 0.

(** The predicate of [filteredLogs]. *)
Definition shown (logFilter logDateRange logSearchTerm : string) (now : Z)
           (log : Db.LogEntry) : bool :=
  if negb (String.eqb logFilter "all")
     && negb (bool_decide (Some (Db.log_type log) = typeMap logFilter))
  then false
  else if Db.log_timestamp log <? cutoff now logDateRange then false
  else if negb (String.eqb logSearchTerm "")
          && negb (includes (toLowerCase (Db.log_message log))
                            (toLowerCase logSearchTerm))
  then false
  else true.

Definition filteredLogs (logs : list Db.LogEntry)
           (logFilter logDateRange logSearchTerm : string) (now : Z)
  : list Db.LogEntry :=
  List.filter (shown logFilter logDateRange logSearchTerm now) logs.

(** The types of the entries the pages and the notification library
    write. *)
Definition written_types : list string :=
  ["alert_triggered"; "node_edit"; "node_deletion"; "data_cleanup";
   "data_import"; "sms_pending"; "sms_sent"; "sms_partial"; "sms_failed"].

(** Every entry of the log of [s'] was in the log of [s] or has one of
    these types. *)
Definition adds_only (s s' : Db.Store) : Prop :=
  forall id e,
    Db.logs s' !! id = Some e ->
    Db.logs s !! id = Some e \/ Db.log_type e ∈ written_types.

End LogPanel.

(** ** The lines and the view of the dashboard map:
    [src/components/DashboardMap.js] *)

Module MapLines.

(** [[Number(latitude), Number(longitude)]] *)
Definition position (metadata : Db.Metadata) : Js.number * Js.number :=
  (Js.ToNumber (Db.md_latitude metadata),
   Js.ToNumber (Db.md_longitude metadata)).

(** [validNodes.find(n => n?.metadata?.nodeId === nearbyNodeId)] *)
Definition find_by_id (validNodes : list Db.Node) (nearbyNodeId : string)
  : option Db.Node :=
  List.find
    (fun n =>
       match Db.metadata n with
       | Some metadata => String.eqb (Db.md_nodeId metadata) nearbyNodeId
       | None => false
       end)
    validNodes.

(** The lines drawn from one node: one to each of its nearby nodes that
    is found among the valid nodes. *)
Definition lines_of (validNodes : list Db.Node) (node : Db.Node)
  : list ((Js.number * Js.number) * (Js.number * Js.number)) :=
  match Db.metadata node with
  | Some metadata =>
      omap (fun nearbyNodeId =>
              nearbyNode ← find_by_id validNodes nearbyNodeId;
              nearbyMetadata ← Db.metadata nearbyNode;
              Some (position metadata, position nearbyMetadata))
           (Db.md_nearbyNodes metadata)
  | None => []
  end.

(** All the lines of the map, for the [nodes] the component receives. *)
Definition connections (nodes : list Db.Node)
  : list ((Js.number * Js.number) * (Js.number * Js.number)) :=
  let validNodes := DashboardMap.validNodes nodes in
  concat (map (lines_of validNodes) validNodes).

(** [MapBoundsUpdater]: the points the view is fitted to, or [None] when
    the view is left alone. *)
Definition fitBounds (nodes : list Db.Node)
  : option (list (Js.number * Js.number)) :=
  match DashboardMap.markers nodes with
  | [] => None
  | validBounds => Some validBounds
  end.

End MapLines.


(** ** More sample data *)

Module Fixture.



End Fixture.

(* ================================================================== *)
(** * Properties *)

(** A few readings of the primitives on concrete inputs. *)

Example parseInt_plain : Js.parseInt "1700000000" = Js.of_Z 1700000000.
Proof. reflexivity. Qed.

Example parseInt_prefix : Js.parseInt "  -42px" = Js.of_Z (-42).
Proof. reflexivity. Qed.

Example parseInt_hex : Js.parseInt "0x1F" = Js.of_Z 31.
Proof. reflexivity. Qed.

Example parseInt_none : Js.parseInt "abc" = Js.NaN.
Proof. reflexivity. Qed.

Example parseFloat_decimal : Js.parseFloat "28.6139" = Js.Fin (286139 # 10000).
Proof. reflexivity. Qed.

Example parseFloat_exponent : Js.parseFloat " -1.5e2xyz" = Js.Fin (inject_Z (-150)).
Proof. reflexivity. Qed.

Example parseFloat_bad : Js.parseFloat ".e5" = Js.NaN.
Proof. reflexivity. Qed.

Example number_of_partial : Js.string_to_number "1e" = Js.NaN.
Proof. reflexivity. Qed.

Example number_of_blank : Js.string_to_number "  " = Js.of_Z 0.
Proof. reflexivity. Qed.

Example toString_Z_ex : Js.toString_Z 1700000000 = "1700000000".
Proof. reflexivity. Qed.

(** ** Integers and their decimal strings *)

Section DecimalStrings.

Lemma radix_digit_pretty_char (x : N) :
  (x < 10)%N -> Js.radix_digit 10 (pretty_N_char x) = Some (Z.of_N x).
Proof.
  intros Hx.
  assert (x = 0 \/ x = 1 \/ x = 2 \/ x = 3 \/ x = 4 \/ x = 5 \/ x = 6
          \/ x = 7 \/ x = 8 \/ x = 9)%N as Hcases by lia.
  repeat (destruct Hcases as [-> | Hcases]; [reflexivity |]).
  subst x. reflexivity.
Qed.

(** Reading back the digits that [pretty_N_go] puts in front of [s]. *)
Lemma parse_digits_pretty_go (x : N) :
  forall (s : string) (acc : option Z),
    (0 < x)%N ->
    exists k : Z,
      0 <= k /\
      Js.parse_digits 10 acc (pretty_N_go x s)
      = Js.parse_digits 10 (Some (10 ^ k * default 0 acc + Z.of_N x)) s.
Proof.
  induction (N.lt_wf_0 x) as [x _ IH]; intros s acc Hpos.
  rewrite pretty_N_go_step by done.
  assert (Hmod : (x `mod` 10 < 10)%N) by (apply N.mod_lt; lia).
  assert (Hdm : Z.of_N x = 10 * Z.of_N (x `div` 10) + Z.of_N (x `mod` 10)).
  { rewrite (N.div_mod x 10) at 1 by lia. lia. }
  destruct (decide (x `div` 10 = 0)%N) as [Hz | Hnz].
  - rewrite Hz, pretty_N_go_0. cbn [Js.parse_digits].
    rewrite radix_digit_pretty_char by done.
    exists 1. split; [lia |]. do 2 f_equal. rewrite Hz in Hdm.
    change (10 ^ 1) with 10. change (Z.of_N 0) with 0 in Hdm.
    rewrite Hdm. ring.
  - destruct (IH (x `div` 10)%N) with
      (s := String (pretty_N_char (x `mod` 10)) s) (acc := acc)
      as (k & Hk & ->); [apply N.div_lt; lia | lia |].
    cbn [Js.parse_digits]. rewrite radix_digit_pretty_char by done.
    exists (k + 1). split; [lia |]. do 2 f_equal.
    rewrite Z.pow_add_r by lia. change (10 ^ 1) with 10. rewrite Hdm.
    unfold default at 1. cbn [from_option id]. ring.
Qed.

Lemma parse_digits_pretty (t : Z) :
  0 <= t -> Js.parse_digits 10 None (Js.toString_Z t) = (Some t, "").
Proof.
  intros Ht. unfold Js.toString_Z, pretty, pretty_Z.
  destruct t as [| p | p]; [reflexivity | | lia].
  unfold pretty, pretty_positive, pretty, pretty_N.
  rewrite decide_False by done.
  destruct (parse_digits_pretty_go (N.pos p) "" None) as (k & _ & ->); [lia |].
  cbn. do 2 f_equal. lia.
Qed.

Lemma is_digit_pretty_char (x : N) : Js.is_digit (pretty_N_char x) = true.
Proof.
  unfold pretty_N_char.
  destruct x as [| p]; [reflexivity |].
  do 4 (destruct p as [p | p |]; try reflexivity).
Qed.

Lemma all_digits_pretty_go (x : N) :
  forall s : string, all_digits s = true -> all_digits (pretty_N_go x s) = true.
Proof.
  induction (N.lt_wf_0 x) as [x _ IH]; intros s Hs.
  destruct (decide (0 < x)%N) as [Hpos | Hz].
  - rewrite pretty_N_go_step by done. apply IH; [apply N.div_lt; lia |].
    cbn [all_digits]. now rewrite is_digit_pretty_char.
  - replace x with 0%N by lia. now rewrite pretty_N_go_0.
Qed.

Lemma all_digits_toString (t : Z) :
  0 <= t -> all_digits (Js.toString_Z t) = true.
Proof.
  intros Ht. unfold Js.toString_Z, pretty, pretty_Z.
  destruct t as [| p | p]; [reflexivity | | lia].
  unfold pretty, pretty_positive, pretty, pretty_N.
  rewrite decide_False by done. now apply all_digits_pretty_go.
Qed.

Lemma toString_nonempty (t : Z) : 0 <= t -> Js.toString_Z t <> "".
Proof.
  intros Ht Hempty.
  pose proof (parse_digits_pretty t Ht) as Hp.
  rewrite Hempty in Hp. discriminate Hp.
Qed.

(** On a string of digits [parseInt] reads the whole string in radix
    ten: there is no white space, no sign and no [0x] prefix. *)
Lemma parseInt_all_digits (s : string) :
  all_digits s = true ->
  Js.parseInt s
  = match fst (Js.parse_digits 10 None s) with
    | None => Js.NaN
    | Some n => Js.of_Z n
    end.
Proof.
  intros Hs. unfold Js.parseInt.
  destruct s as [| a r]; [reflexivity |].
  cbn [all_digits] in Hs. apply andb_prop in Hs as [Ha Hr].
  assert (Hws : Js.is_ws a = false).
  { unfold Js.is_digit, Js.is_ws in *. lia. }
  cbn [Js.skip_ws]. rewrite Hws.
  assert (Hsign : Js.split_sign (String a r) = (false, String a r)).
  { unfold Js.split_sign, Js.is_digit in *.
    destruct (Z.eqb_spec (Js.code a) 45); [lia |].
    destruct (Z.eqb_spec (Js.code a) 43); [lia | reflexivity]. }
  rewrite Hsign.
  destruct r as [| b r']; [reflexivity |].
  cbn [all_digits] in Hr. apply andb_prop in Hr as [Hb _].
  assert (Hx : (Js.code a =? 48) && ((Js.code b =? 120) || (Js.code b =? 88))
               = false).
  { unfold Js.is_digit in Hb. lia. }
  rewrite Hx. reflexivity.
Qed.

Lemma parseInt_toString (t : Z) :
  0 <= t -> Js.parseInt (Js.toString_Z t) = Js.of_Z t.
Proof.
  intros Ht. rewrite parseInt_all_digits by now apply all_digits_toString.
  now rewrite parse_digits_pretty.
Qed.

End DecimalStrings.

(** ** The status classifiers *)

Section StatusClassifier.

Lemma num_truthy_of_Z (z : Z) : Js.num_truthy (Js.of_Z z) = negb (z =? 0).
Proof.
  destruct z; reflexivity.
Qed.

(** [now - ms < bound] on integer operands. *)
Lemma ltb_sub_of_Z (now ms bound : Z) :
  Js.ltb (Js.sub (Js.of_Z now) (Js.of_Z ms)) (Js.of_Z bound)
  = (now - ms <? bound).
Proof.
  unfold Js.ltb, Js.sub, Js.add, Js.neg, Js.of_Z, Js.Qlt_bool, Qle_bool.
  unfold inject_Z, Qplus, Qopp. cbn [Qnum Qden].
  rewrite Z.ltb_antisym. f_equal. f_equal; lia.
Qed.

(** [now - sec * 1000 < bound] on integer operands. *)
Lemma ltb_sub_mul_of_Z (now sec bound : Z) :
  Js.ltb (Js.sub (Js.of_Z now) (Js.mul (Js.of_Z sec) (Js.of_Z 1000)))
         (Js.of_Z bound)
  = (now - sec * 1000 <? bound).
Proof.
  unfold Js.ltb, Js.sub, Js.add, Js.neg, Js.mul, Js.of_Z, Js.Qlt_bool, Qle_bool.
  unfold inject_Z, Qplus, Qopp, Qmult. cbn [Qnum Qden].
  rewrite Z.ltb_antisym. f_equal. f_equal; lia.
Qed.

Lemma truthy_toString (t : Z) :
  0 <= t -> Js.truthy (Js.VStr (Js.toString_Z t)) = true.
Proof.
  intros Ht. cbn [Js.truthy].
  destruct (String.eqb_spec (Js.toString_Z t) "") as [He | _]; [| reflexivity].
  now apply toString_nonempty in He.
Qed.

(** The two classifiers on a millisecond number. *)
Lemma utils_status_ms (now ms : Z) :
  Utils.getNodeStatus now (Js.VNum (Js.of_Z ms))
  = if ms =? 0 then offline
    else if now - ms <? minutes 5 then online else offline.
Proof.
  unfold Utils.getNodeStatus. cbn [Js.truthy Js.ToNumber].
  rewrite num_truthy_of_Z, negb_involutive, ltb_sub_of_Z. reflexivity.
Qed.

Lemma home_status_ms (now ms : Z) :
  HomePage.getNodeStatus now (Js.VNum (Js.of_Z ms))
  = if ms =? 0 then offline
    else if now - ms <? minutes 5 then online
    else if now - ms <? minutes 15 then warning else offline.
Proof.
  unfold HomePage.getNodeStatus. cbn [Js.truthy Js.ToNumber].
  rewrite num_truthy_of_Z, negb_involutive, !ltb_sub_of_Z. reflexivity.
Qed.

(** The two classifiers on a seconds string. *)
Lemma utils_status_sec (now t : Z) :
  0 <= t ->
  Utils.getNodeStatus now (Js.VStr (Js.toString_Z t))
  = if now - t * 1000 <? minutes 5 then online else offline.
Proof.
  intros Ht. unfold Utils.getNodeStatus.
  rewrite truthy_toString, parseInt_toString, ltb_sub_mul_of_Z by done.
  reflexivity.
Qed.

Lemma home_status_sec (now t : Z) :
  0 <= t ->
  HomePage.getNodeStatus now (Js.VStr (Js.toString_Z t))
  = if now - t * 1000 <? minutes 5 then online
    else if now - t * 1000 <? minutes 15 then warning else offline.
Proof.
  intros Ht. unfold HomePage.getNodeStatus.
  rewrite truthy_toString, parseInt_toString, !ltb_sub_mul_of_Z by done.
  reflexivity.
Qed.

Lemma utils_status_never_warning (now : Z) (v : Js.value) :
  Utils.getNodeStatus now v <> warning.
Proof.
  unfold Utils.getNodeStatus.
  destruct (negb (Js.truthy v)); [discriminate |].
  match goal with |- context [if ?b then _ else _] => destruct b end;
    discriminate.
Qed.

(** What both classifiers answer for a value [d] milliseconds old. *)
Lemma status_before (now d : Z) (v : Js.value) :
  before now d v ->
  Utils.getNodeStatus now v
    = (if d <? minutes 5 then online else offline)
  /\ HomePage.getNodeStatus now v
    = (if d <? minutes 5 then online
       else if d <? minutes 15 then warning else offline).
Proof.
  intros [Hpos | t Ht Heq].
  - rewrite utils_status_ms, home_status_ms.
    replace (now - (now - d)) with d by lia.
    destruct (Z.eqb_spec (now - d) 0); [lia | done].
  - rewrite utils_status_sec, home_status_sec by done.
    replace (now - t * 1000) with d by lia. done.
Qed.

End StatusClassifier.

(** C4.  The classifier answers [offline] when there is no timestamp,
    [online] for a timestamp four minutes old, [warning] for one ten
    minutes old where that tier exists (the dashboard home page), and
    [offline] for one twenty minutes old.  The shared classifier of
    [lib/utils.js] has no warning tier: it answers [offline] at ten
    minutes and never answers [warning].  A timestamp is a non-zero number
    of epoch milliseconds or the decimal string of a number of epoch
    seconds. *)
Theorem status_classifier_thresholds (now : Z) (v : Js.value) :
  (HomePage.getNodeStatus now Js.VNull = offline
   /\ Utils.getNodeStatus now Js.VNull = offline
   /\ HomePage.getNodeStatus now Js.VUndefined = offline
   /\ Utils.getNodeStatus now Js.VUndefined = offline)
  /\ (before now (minutes 4) v ->
      HomePage.getNodeStatus now v = online
      /\ Utils.getNodeStatus now v = online)
  /\ (before now (minutes 10) v ->
      HomePage.getNodeStatus now v = warning
      /\ Utils.getNodeStatus now v = offline)
  /\ (before now (minutes 20) v ->
      HomePage.getNodeStatus now v = offline
      /\ Utils.getNodeStatus now v = offline)
  /\ (forall u : Js.value, Utils.getNodeStatus now u <> warning).
Proof.
  split; [| split; [| split; [| split]]].
  - repeat split.
  - intros Hb. apply status_before in Hb as [Hu Hh]. now split.
  - intros Hb. apply status_before in Hb as [Hu Hh]. now split.
  - intros Hb. apply status_before in Hb as [Hu Hh]. now split.
  - apply utils_status_never_warning.
Qed.

Lemma status_classifier_thresholds_witness :
  HomePage.getNodeStatus 1700000000000 (Js.VStr "1699999400") = warning
  /\ Utils.getNodeStatus 1700000000000 (Js.VStr "1699999400") = offline.
Proof.
  apply (status_classifier_thresholds 1700000000000 (Js.VStr "1699999400")).
  apply (before_sec 1700000000000 (minutes 10) 1699999400);
    [lia | reflexivity].
Defined.

(** C10, as stated, fails at the epoch itself: the string ["0"] is a
    non-empty string and is classified by its age, the number [0] is
    falsy and is classified as absent.  One second after the epoch the
    first is [online] and the second [offline]. *)
Lemma status_representations_counterexample :
  ~ (forall t now : Z,
        0 <= t ->
        Utils.getNodeStatus now (Js.VStr (Js.toString_Z t))
        = Utils.getNodeStatus now (Js.VNum (Js.of_Z (t * 1000)))).
Proof.
  intros H. specialize (H 0 1000 (Z.le_refl 0)).
  vm_compute in H. discriminate H.
Qed.

(** C10, amended.  For every positive number [t] of epoch seconds and
    every reading of the clock, the shared classifier gives the decimal
    string of [t] the same status as the number [t * 1000]; for [t = 0]
    the two agree once the clock reads five minutes or more. *)
Theorem status_representations_agree (t now : Z) :
  0 <= t ->
  0 < t \/ minutes 5 <= now ->
  Utils.getNodeStatus now (Js.VStr (Js.toString_Z t))
  = Utils.getNodeStatus now (Js.VNum (Js.of_Z (t * 1000))).
Proof.
  intros Ht Hcase.
  rewrite utils_status_sec, utils_status_ms by done.
  destruct (Z.eqb_spec (t * 1000) 0) as [Hz | Hnz]; [| reflexivity].
  destruct Hcase as [Hpos | Hnow]; [lia |].
  replace (now - t * 1000) with now by lia.
  destruct (Z.ltb_spec now (minutes 5)); [lia | reflexivity].
Qed.

Lemma status_representations_agree_witness :
  Utils.getNodeStatus 1700000000000 (Js.VStr (Js.toString_Z 1699999900))
  = Utils.getNodeStatus 1700000000000 (Js.VNum (Js.of_Z (1699999900 * 1000))).
Proof.
  apply (status_representations_agree 1699999900 1700000000000);
    [lia | left; lia].
Defined.

(** The home page classifier agrees on the two representations of every
    positive number of seconds as well. *)
Lemma home_status_representations_agree (t now : Z) :
  0 < t ->
  HomePage.getNodeStatus now (Js.VStr (Js.toString_Z t))
  = HomePage.getNodeStatus now (Js.VNum (Js.of_Z (t * 1000))).
Proof.
  intros Ht. rewrite home_status_sec, home_status_ms by lia.
  destruct (Z.eqb_spec (t * 1000) 0); [lia | reflexivity].
Qed.

(** ** Node registration *)

Ltac run_action :=
  unfold Db.bind, Db.throw_if, Db.read, Db.write, Db.ret, Db.throw.

Section Registration.

Variables (installedDate : string) (createdAt lastUpdateNow : Z).

(** The duplicate check comes first and nothing is written before it. *)
Lemma validateForm_duplicate (f : Register.FormData) (s : Db.Store) :
  Db.node_exists s (Register.nodeId f) = true ->
  Register.validateForm f s = (s, inl Register.NodeIdExists).
Proof.
  intros Hex. unfold Register.validateForm. run_action. now rewrite Hex.
Qed.

(** [validateForm] never writes. *)
Lemma validateForm_store (f : Register.FormData) (s : Db.Store) :
  fst (Register.validateForm f s) = s.
Proof.
  unfold Register.validateForm. run_action.
  repeat match goal with
         | |- context [if ?b then _ else _] => destruct b; cbn [fst]; try done
         end.
Qed.

(** What [validateForm] answers on a fresh identifier, by the parsed
    coordinates. *)
Lemma validateForm_fresh (f : Register.FormData) (s : Db.Store) :
  Db.node_exists s (Register.nodeId f) = false ->
  Register.nodeId f <> "" -> Register.name f <> "" ->
  Register.latitude f <> "" -> Register.longitude f <> "" ->
  Register.validateForm f s
  = (s,
     let lat := Js.parseFloat (Register.latitude f) in
     let lon := Js.parseFloat (Register.longitude f) in
     if Js.num_isNaN lat then inl Register.InvalidLatitude
     else if Js.num_isNaN lon then inl Register.InvalidLongitude
     else if negb (Utils.isValidLatitude (Js.VNum lat))
          then inl Register.LatitudeOutOfRange
     else if negb (Utils.isValidLongitude (Js.VNum lon))
          then inl Register.LongitudeOutOfRange
     else inr tt).
Proof.
  intros Hfresh Hid Hname Hlat Hlon.
  unfold Register.validateForm, Register.falsy_string. run_action.
  rewrite Hfresh.
  apply String.eqb_neq in Hid, Hname, Hlat, Hlon.
  rewrite Hid, Hname, Hlat, Hlon. cbn [orb].
  repeat match goal with
         | |- context [if ?b then _ else _] => destruct b; try done
         end.
Qed.

Lemma isValidLatitude_Fin (q : Q) :
  Utils.isValidLatitude (Js.VNum (Js.Fin q)) = true
  <-> (inject_Z (-90) <= q /\ q <= inject_Z 90)%Q.
Proof.
  unfold Utils.isValidLatitude, Js.geb, Js.leb, Js.of_Z.
  cbn [Js.parseFloat_value Js.num_isNaN negb andb].
  rewrite andb_true_iff, !Qle_bool_iff. reflexivity.
Qed.

Lemma isValidLongitude_Fin (q : Q) :
  Utils.isValidLongitude (Js.VNum (Js.Fin q)) = true
  <-> (inject_Z (-180) <= q /\ q <= inject_Z 180)%Q.
Proof.
  unfold Utils.isValidLongitude, Js.geb, Js.leb, Js.of_Z.
  cbn [Js.parseFloat_value Js.num_isNaN negb andb].
  rewrite andb_true_iff, !Qle_bool_iff. reflexivity.
Qed.

Lemma num_truthy_Fin (q : Q) :
  Js.num_truthy (Js.Fin q) = true <-> ~ (q == 0)%Q.
Proof.
  cbn [Js.num_truthy]. rewrite negb_true_iff, <- Qeq_bool_iff.
  destruct (Qeq_bool q 0); split; congruence.
Qed.

(** The subtree just written exists. *)
Lemma node_exists_insert (s : Db.Store) (id : string) (n : Db.Node) :
  id <> "" -> Db.node_nonempty n = true ->
  Db.node_exists (Db.set_nodes (insert id n) s) id = true.
Proof.
  intros Hid Hn. unfold Db.node_exists.
  apply String.eqb_neq in Hid. rewrite Hid.
  cbn [Db.set_nodes Db.nodes]. now rewrite lookup_insert_eq.
Qed.

(** A coordinate out of range, or not a number at all, is refused
    before anything is written. *)
Lemma register_invalid_coordinates (f : Register.FormData) (s : Db.Store) :
  Db.node_exists s (Register.nodeId f) = false ->
  Utils.isValidLatitude (Js.VNum (Js.parseFloat (Register.latitude f))) = false
  \/ Utils.isValidLongitude (Js.VNum (Js.parseFloat (Register.longitude f)))
     = false ->
  exists e : Register.Error,
    Register.handleSubmit f installedDate createdAt lastUpdateNow s
    = (s, Register.MsgError e)
    /\ Register.classify e = ValidationError.
Proof.
  intros Hfresh Hbad.
  assert (Hv : exists e, Register.validateForm f s = (s, inl e)
                         /\ Register.classify e = ValidationError).
  { unfold Register.validateForm. run_action. rewrite Hfresh.
    repeat match goal with
           | |- context [if ?b then _ else _] =>
               destruct b eqn:?; [solve [eexists; split; reflexivity] |]
           end.
    exfalso.
    repeat match goal with
           | H : negb _ = false |- _ => apply negb_false_iff in H
           end.
    destruct Hbad as [Hbad | Hbad]; congruence. }
  destruct Hv as (e & Hv & Hclass). exists e. split; [| exact Hclass].
  unfold Register.handleSubmit, Register.submit. unfold Db.bind at 1.
  now rewrite Hv.
Qed.

(** With a fresh identifier, a name, and coordinates that parse to
    non-zero numbers within range, the node is written with exactly the
    parsed coordinates and the handler reports success. *)
Lemma register_valid_nonzero (f : Register.FormData) (s : Db.Store)
      (lat lon : Q) :
  Db.node_exists s (Register.nodeId f) = false ->
  Register.nodeId f <> "" -> Register.name f <> "" ->
  Js.parseFloat (Register.latitude f) = Js.Fin lat ->
  Js.parseFloat (Register.longitude f) = Js.Fin lon ->
  (inject_Z (-90) <= lat /\ lat <= inject_Z 90)%Q ->
  (inject_Z (-180) <= lon /\ lon <= inject_Z 180)%Q ->
  ~ (lat == 0)%Q -> ~ (lon == 0)%Q ->
  Register.altitude f = ""
  \/ (exists a, Js.parseFloat (Register.altitude f) = Js.Fin a) ->
  let n := Register.nodeData f (Js.Fin lat) (Js.Fin lon)
                             (Register.parsed_altitude f)
                             installedDate createdAt lastUpdateNow in
  Register.handleSubmit f installedDate createdAt lastUpdateNow s
  = (Db.set_nodes (insert (Register.nodeId f) n) s, Register.MsgSuccess)
  /\ Db.md_latitude <$> Db.metadata n = Some (Js.VNum (Js.Fin lat))
  /\ Db.md_longitude <$> Db.metadata n = Some (Js.VNum (Js.Fin lon)).
Proof.
  intros Hfresh Hid Hname Hlat Hlon Hrlat Hrlon Hzlat Hzlon Halt.
  assert (Hlat_ne : Register.latitude f <> "").
  { intros He. rewrite He in Hlat. discriminate Hlat. }
  assert (Hlon_ne : Register.longitude f <> "").
  { intros He. rewrite He in Hlon. discriminate Hlon. }
  apply isValidLatitude_Fin in Hrlat. apply isValidLongitude_Fin in Hrlon.
  apply num_truthy_Fin in Hzlat, Hzlon.
  split; [| split; reflexivity].
  unfold Register.handleSubmit, Register.submit. unfold Db.bind at 1.
  rewrite validateForm_fresh by done. cbv zeta.
  rewrite Hlat, Hlon, Hrlat, Hrlon. cbn [Js.num_isNaN negb orb].
  run_action.
  assert (Hvalid : Db.invalid_number (Register.parsed_altitude f) = false).
  { unfold Register.parsed_altitude.
    destruct Halt as [-> | [a ->]]; [reflexivity |].
    now destruct (Register.falsy_string _). }
  rewrite Hvalid.
  rewrite node_exists_insert by done.
  cbn [Db.set_nodes Db.nodes]. rewrite lookup_insert_eq.
  cbn [mbind option_bind Register.nodeData Db.metadata Db.md_latitude
       Db.md_longitude Js.truthy Js.is_number negb orb].
  rewrite Hzlat, Hzlon. cbn [negb orb]. reflexivity.
Qed.

End Registration.

(** C3.  When a subtree already exists under [nodes/{id}], registration
    stops at the duplicate check: the handler shows the "already exists"
    error, which the specification calls [DuplicateIdError], and the store
    it leaves is the store it found, so the existing metadata, realtime
    and history are untouched. *)
Theorem register_duplicate_rejected
        (f : Register.FormData) (installedDate : string)
        (createdAt lastUpdateNow : Z) (s : Db.Store) :
  Db.node_exists s (Register.nodeId f) = true ->
  Register.handleSubmit f installedDate createdAt lastUpdateNow s
  = (s, Register.MsgError Register.NodeIdExists)
  /\ Register.classify Register.NodeIdExists = DuplicateIdError.
Proof.
  intros Hex. split; [| reflexivity].
  unfold Register.handleSubmit, Register.submit. unfold Db.bind at 1.
  now rewrite validateForm_duplicate.
Qed.

Lemma register_duplicate_rejected_witness :
  Register.handleSubmit Sample.form1 Sample.installedDate Sample.now Sample.now
                        Sample.store1
  = (Sample.store1, Register.MsgError Register.NodeIdExists)
  /\ Register.classify Register.NodeIdExists = DuplicateIdError.
Proof.
  apply (register_duplicate_rejected Sample.form1 Sample.installedDate
                                     Sample.now Sample.now Sample.store1).
  vm_compute. reflexivity.
Defined.

(** C2, on the code.  A latitude of zero is within range and passes
    validation; the node is written with latitude [0], and then the
    read-back check [!savedData.metadata.latitude] takes the zero for a
    missing value and the handler reports "coordinates are missing". *)
Theorem register_equator_reported_missing :
  Utils.isValidLatitude (Js.VNum (Js.parseFloat "0")) = true
  /\ Register.handleSubmit Sample.form_equator Sample.installedDate
                           Sample.now Sample.now Db.empty
     = (Db.set_nodes
          (insert "node1"
             (Register.nodeData Sample.form_equator (Js.of_Z 0)
                (Js.Fin (772090 # 10000)) Js.VNull Sample.installedDate
                Sample.now Sample.now))
          Db.empty,
        Register.MsgError Register.CoordinatesMissing)
  /\ Register.classify Register.CoordinatesMissing = VerificationError.
Proof.
  split; [reflexivity |]. split; [| reflexivity].
  vm_compute. reflexivity.
Qed.

(** The same registration away from the equator succeeds. *)
Example register_form1_succeeds :
  snd (Register.handleSubmit Sample.form1 Sample.installedDate Sample.now
                             Sample.now Db.empty)
  = Register.MsgSuccess.
Proof. vm_compute. reflexivity. Qed.

(** ** Contact phone numbers *)

Section PhoneNumbers.

Lemma length_cleaned (s : string) :
  String.length (Utils.cleaned s) = digit_count s.
Proof.
  unfold Utils.cleaned.
  induction s as [| c r IH]; [reflexivity |].
  cbn [Js.filter_string digit_count].
  destruct (Js.is_digit c); cbn [String.length]; now rewrite IH.
Qed.

Lemma all_digits_cleaned (s : string) : all_digits (Utils.cleaned s) = true.
Proof.
  unfold Utils.cleaned.
  induction s as [| c r IH]; [reflexivity |].
  cbn [Js.filter_string]. destruct (Js.is_digit c) eqn:Hc; [| exact IH].
  cbn [all_digits]. now rewrite Hc, IH.
Qed.

Lemma prefix_91 (s : string) :
  String.prefix "91" s = true <-> exists rest, s = "91" ++ rest.
Proof.
  split.
  - destruct s as [| a [| b r]]; cbn [String.prefix]; try discriminate.
    + destruct (ascii_dec "9" a); discriminate.
    + destruct (ascii_dec "9" a) as [<- |]; [| discriminate].
      destruct (ascii_dec "1" b) as [<- |]; [| discriminate].
      intros _. now exists r.
  - intros [rest ->]. cbn [append String.prefix].
    destruct (ascii_dec "9" "9"); [| congruence].
    destruct (ascii_dec "1" "1"); [| congruence].
    now destruct rest.
Qed.

Lemma isValidPhoneNumber_spec (phone : string) :
  Utils.isValidPhoneNumber phone = true
  <-> digit_count phone = 10%nat
      \/ (digit_count phone = 12%nat
          /\ exists rest, Utils.cleaned phone = "91" ++ rest).
Proof.
  unfold Utils.isValidPhoneNumber.
  rewrite orb_true_iff, andb_true_iff, !Nat.eqb_eq, length_cleaned, prefix_91.
  reflexivity.
Qed.

(** A valid number is stored as [+91] followed by ten digits. *)
Lemma formatPhoneNumber_valid (phone : string) :
  Utils.isValidPhoneNumber phone = true ->
  exists digits : string,
    Utils.formatPhoneNumber phone = "+91" ++ digits
    /\ String.length digits = 10%nat
    /\ all_digits digits = true.
Proof.
  intros Hvalid. pose proof (all_digits_cleaned phone) as Hall.
  apply isValidPhoneNumber_spec in Hvalid.
  unfold Utils.formatPhoneNumber. rewrite length_cleaned.
  destruct Hvalid as [H10 | [H12 [rest Hrest]]].
  - rewrite H10. cbn [Nat.eqb]. exists (Utils.cleaned phone).
    now rewrite length_cleaned.
  - rewrite H12. cbn [Nat.eqb andb].
    assert (Hp : String.prefix "91" (Utils.cleaned phone) = true).
    { apply prefix_91. now exists rest. }
    rewrite Hp. exists rest.
    rewrite <- length_cleaned in H12. rewrite Hrest in Hall, H12 |- *.
    change ("91" ++ rest) with (String "9" (String "1" rest)) in Hall, H12.
    split; [reflexivity |]. split.
    + cbn [String.length] in H12. lia.
    + cbn [all_digits] in Hall.
      apply andb_prop in Hall as [_ Hall].
      now apply andb_prop in Hall as [_ Hall].
Qed.

End PhoneNumbers.

(** C6.  A phone number is accepted exactly when, once everything but its
    digits is stripped, ten digits remain, or twelve that begin with 91.
    ["9876543210"] and ["919876543210"] are both stored as
    ["+919876543210"]; an accepted number is always stored as [+91] and
    ten digits.  A number that is not accepted makes the handler show the
    validation error and write nothing. *)
Theorem phone_validation_and_normalization :
  (forall phone : string,
      Utils.isValidPhoneNumber phone = true
      <-> digit_count phone = 10%nat
          \/ (digit_count phone = 12%nat
              /\ exists rest, Utils.cleaned phone = "91" ++ rest))
  /\ Utils.formatPhoneNumber "9876543210" = "+919876543210"
  /\ Utils.formatPhoneNumber "919876543210" = "+919876543210"
  /\ (forall (f : Contacts.FormData) (tick : Utils.Tick) (createdAt lastUpdated : Z)
             (s : Db.Store),
         Utils.isValidPhoneNumber (Contacts.phone f) = false ->
         Contacts.handleSubmit f tick createdAt lastUpdated s
         = (s, Contacts.MsgError Contacts.InvalidPhone)
         /\ Contacts.classify Contacts.InvalidPhone = ValidationError)
  /\ (forall (f : Contacts.FormData) (tick : Utils.Tick) (createdAt lastUpdated : Z)
             (s : Db.Store),
         Utils.isValidPhoneNumber (Contacts.phone f) = true ->
         exists (c : Db.Contact) (digits : string),
           Contacts.handleSubmit f tick createdAt lastUpdated s
           = (Db.set_contacts (insert (Utils.generateId "contact" tick) c) s,
              Contacts.MsgSuccess)
           /\ Db.ct_phone c = "+91" ++ digits
           /\ String.length digits = 10%nat
           /\ all_digits digits = true).
Proof.
  split; [exact isValidPhoneNumber_spec |].
  split; [reflexivity |]. split; [reflexivity |]. split.
  - intros f tick createdAt lastUpdated s Hbad. split; [| reflexivity].
    unfold Contacts.handleSubmit, Contacts.submit. run_action.
    now rewrite Hbad.
  - intros f tick createdAt lastUpdated s Hok.
    destruct (formatPhoneNumber_valid _ Hok) as (digits & Hfmt & Hlen & Hall).
    exists (Contacts.contactData f (Utils.generateId "contact" tick)
                                 createdAt lastUpdated), digits.
    split; [| now split].
    unfold Contacts.handleSubmit, Contacts.submit. run_action.
    now rewrite Hok.
Qed.

Lemma phone_validation_and_normalization_witness :
  Contacts.handleSubmit
    (Contacts.mkForm "Asha" "98765" "" ["node1"] "sms")
    (Utils.mkTick Sample.now "k3x9q2m1z") Sample.now Sample.now Db.empty
  = (Db.empty, Contacts.MsgError Contacts.InvalidPhone)
  /\ Contacts.classify Contacts.InvalidPhone = ValidationError.
Proof.
  destruct phone_validation_and_normalization as (_ & _ & _ & Hreject & _).
  apply Hreject. reflexivity.
Defined.

(** ** Alert recipients *)

Section Recipients.

Lemma includes_spec (l : list string) (x : string) :
  Js.includes l x = true <-> x ∈ l.
Proof.
  unfold Js.includes. rewrite existsb_exists, list_elem_of_In.
  split.
  - intros (y & Hy & Heq). apply String.eqb_eq in Heq. now subst.
  - intros Hx. exists x. split; [done | apply String.eqb_refl].
Qed.

Lemma some_includes_spec (assoc affected : list string) :
  Js.some (fun nodeId => Js.includes affected nodeId) assoc = true
  <-> intersects assoc affected.
Proof.
  unfold Js.some, intersects. rewrite existsb_exists, Exists_exists.
  split; intros (n & Hn & Hin); exists n.
  - split; [now apply list_elem_of_In | now apply includes_spec].
  - split; [now apply list_elem_of_In | now apply includes_spec].
Qed.

Lemma intersects_nil_r (l : list string) : ~ intersects l [].
Proof.
  unfold intersects. rewrite Exists_exists.
  intros (n & _ & Hn). inversion Hn.
Qed.

(** The boolean filter of the code is the filter by [intersects]. *)
Lemma filter_intersects (affected : list string) (l : list Db.Contact) :
  List.filter
    (fun contact =>
       Js.some (fun nodeId => Js.includes affected nodeId)
               (Db.ct_associatedNodes contact)) l
  = filter (fun c => intersects (Db.ct_associatedNodes c) affected) l.
Proof.
  induction l as [| c l IH]; [reflexivity |].
  cbn [List.filter]. rewrite filter_cons, IH.
  destruct (Js.some _ _) eqn:Hsome.
  - apply some_includes_spec in Hsome. now rewrite decide_True.
  - rewrite decide_False; [done |].
    intros Hi. apply some_includes_spec in Hi. congruence.
Qed.

Lemma computeRecipients_filter (contacts : gmap string Db.Contact)
      (affected : list string) :
  Admin.computeRecipients contacts affected
  = filter (fun c => intersects (Db.ct_associatedNodes c) affected)
           (Js.values contacts).
Proof.
  unfold Admin.computeRecipients.
  destruct affected as [| a affected]; cbn [length Nat.eqb].
  - induction (Js.values contacts) as [| c l IH]; [reflexivity |].
    rewrite filter_cons, decide_False by apply intersects_nil_r. exact IH.
  - apply filter_intersects.
Qed.

Lemma elem_of_values (contacts : gmap string Db.Contact) (c : Db.Contact) :
  c ∈ Js.values contacts <-> exists id, contacts !! id = Some c.
Proof.
  unfold Js.values. rewrite list_elem_of_fmap. split.
  - intros ([id c'] & -> & Hin). exists id. now apply elem_of_map_to_list.
  - intros [id Hid]. exists (id, c). split; [done |].
    now apply elem_of_map_to_list.
Qed.

End Recipients.

(** C5.  The recipients computed for an alert are exactly the stored
    contacts whose associated nodes have a node in common with the
    affected nodes, each contact once, and the recipient phone list is
    the list of their phone numbers.  With the affected nodes [node1] and
    [node2] and a single stored contact associated to [node1], the phone
    list is that contact's phone number and nothing else. *)
Theorem recipients_are_intersecting_contacts
        (contacts : gmap string Db.Contact) (affected : list string) :
  Admin.computeRecipients contacts affected
  = filter (fun c => intersects (Db.ct_associatedNodes c) affected)
           (Js.values contacts)
  /\ (forall c : Db.Contact,
         c ∈ Admin.computeRecipients contacts affected
         <-> (exists id, contacts !! id = Some c)
             /\ intersects (Db.ct_associatedNodes c) affected)
  /\ (forall phone : string,
         phone ∈ map Db.ct_phone (Admin.computeRecipients contacts affected)
         <-> exists id c, contacts !! id = Some c
                          /\ intersects (Db.ct_associatedNodes c) affected
                          /\ Db.ct_phone c = phone)
  /\ (forall (id : string) (c : Db.Contact),
         Db.ct_associatedNodes c = ["node1"] ->
         map Db.ct_phone
             (Admin.computeRecipients {[id := c]} ["node1"; "node2"])
         = [Db.ct_phone c]).
Proof.
  split; [apply computeRecipients_filter |].
  assert (Hmem : forall c : Db.Contact,
             c ∈ Admin.computeRecipients contacts affected
             <-> (exists id, contacts !! id = Some c)
                 /\ intersects (Db.ct_associatedNodes c) affected).
  { intros c. rewrite computeRecipients_filter, list_elem_of_filter.
    rewrite elem_of_values. tauto. }
  split; [exact Hmem |]. split.
  - intros phone. rewrite list_elem_of_fmap. split.
    + intros (c & -> & Hc). apply Hmem in Hc as [[id Hid] Hi].
      now exists id, c.
    + intros (id & c & Hid & Hi & <-). exists c. split; [done |].
      apply Hmem. split; [now exists id | done].
  - intros id c Hassoc. rewrite computeRecipients_filter.
    unfold Js.values. rewrite map_to_list_singleton. cbn [fmap list_fmap snd].
    rewrite filter_cons, decide_True, filter_nil; [reflexivity |].
    rewrite Hassoc. apply Exists_cons_hd. constructor.
Qed.

Lemma recipients_are_intersecting_contacts_witness :
  map Db.ct_phone
      (Admin.computeRecipients
         {["contact_1" :=
             Db.mkContact "contact_1" "Asha" "+919876543210" "" ["node1"]
                          "sms" Sample.now Sample.now]}
         ["node1"; "node2"])
  = ["+919876543210"].
Proof.
  destruct (recipients_are_intersecting_contacts ∅ []) as (_ & _ & _ & Hone).
  apply (Hone "contact_1"
              (Db.mkContact "contact_1" "Asha" "+919876543210" "" ["node1"]
                            "sms" Sample.now Sample.now)).
  reflexivity.
Defined.

(** ** Alert creation *)

Section AlertCreation.

Lemma set_nodes_compose (f g : gmap string Db.Node -> gmap string Db.Node)
      (s : Db.Store) :
  Db.set_nodes f (Db.set_nodes g s) = Db.set_nodes (fun ns => f (g ns)) s.
Proof. reflexivity. Qed.

Lemma link_establishes alertId r ns nodeId :
  linked alertId r nodeId (Db.link alertId r ns nodeId).
Proof.
  unfold linked, Db.link. eexists. rewrite lookup_insert_eq.
  split; [reflexivity |]. cbn [Db.node_alerts]. apply lookup_insert_eq.
Qed.

Lemma link_preserves alertId r ns nodeId other :
  linked alertId r nodeId ns -> linked alertId r nodeId (Db.link alertId r ns other).
Proof.
  intros (n & Hn & Hr).
  destruct (decide (other = nodeId)) as [-> | Hne].
  - apply link_establishes.
  - exists n. unfold Db.link. now rewrite lookup_insert_ne.
Qed.

Lemma foldl_link_preserves alertId r nodeId (l : list string) :
  forall ns, linked alertId r nodeId ns ->
             linked alertId r nodeId (foldl (Db.link alertId r) ns l).
Proof.
  induction l as [| x l IH]; intros ns Hns; [exact Hns |].
  cbn [foldl]. apply IH. now apply link_preserves.
Qed.

Lemma foldl_link_elem alertId r nodeId (l : list string) :
  forall ns, nodeId ∈ l -> linked alertId r nodeId (foldl (Db.link alertId r) ns l).
Proof.
  induction l as [| x l IH]; intros ns Hin; [inversion Hin |].
  cbn [foldl]. apply elem_of_cons in Hin as [-> | Hin].
  - apply foldl_link_preserves, link_establishes.
  - now apply IH.
Qed.

(** The loop over the affected nodes is a fold of back-reference writes
    and never throws. *)
Lemma for_each_link {E} alertId r (l : list string) :
  forall s : Db.Store,
    Db.for_each (E := E) l
      (fun nodeId => Db.write (Db.put_node_alert nodeId alertId r)) s
    = (Db.set_nodes (fun ns => foldl (Db.link alertId r) ns l) s, inr tt).
Proof.
  induction l as [| x l IH]; intros s.
  - now destruct s.
  - cbn [Db.for_each foldl]. unfold Db.bind, Db.write at 1.
    rewrite IH. unfold Db.put_node_alert. now rewrite set_nodes_compose.
Qed.

(** The SMS and in-app notification calls complete and leave the
    [nodes], [alerts] and [contacts] subtrees alone. *)
Lemma sendSMSNotification_frame {E} env rcpts msg alertId sev ticks
      (s : Db.Store) :
  exists s' r,
    Notifications.sendSMSNotification (E := E) env rcpts msg alertId sev ticks s
    = (s', inr r)
    /\ Db.nodes s' = Db.nodes s /\ Db.alerts s' = Db.alerts s
    /\ Db.contacts s' = Db.contacts s.
Proof.
  unfold Notifications.sendSMSNotification.
  destruct (SmsRoute.POST env _) as [result attempted].
  destruct (negb _); run_action; eexists _, _; repeat split.
Qed.

Lemma sendInAppNotification_frame {E} alertId msg sev nodes ticks
      (s : Db.Store) :
  exists s' r,
    Notifications.sendInAppNotification (E := E) alertId msg sev nodes ticks s
    = (s', inr r)
    /\ Db.nodes s' = Db.nodes s /\ Db.alerts s' = Db.alerts s
    /\ Db.contacts s' = Db.contacts s.
Proof.
  unfold Notifications.sendInAppNotification. run_action.
  eexists _, _; repeat split.
Qed.

(** What the [try] block leaves in the [alerts] and [nodes] subtrees. *)
Lemma createAlert_writes env (f : Admin.AlertForm) recipients ticks
      (s : Db.Store) :
  let alertId := Utils.generateId "alert" (Admin.alert_tick ticks) in
  let now := Admin.now ticks in
  exists s' out,
    Admin.createAlert env f recipients ticks s = (s', inr out)
    /\ Db.alerts s'
       = <[alertId := Admin.alertData f alertId (map Db.ct_phone recipients) now]>
           (Db.alerts s)
    /\ Db.nodes s'
       = foldl (Db.link alertId (Admin.nodeAlert f alertId now)) (Db.nodes s)
               (Admin.affectedNodes f)
    /\ Db.contacts s' = Db.contacts s.
Proof.
  intros alertId now. unfold Admin.createAlert.
  fold alertId. fold now.
  set (phones := map Db.ct_phone recipients).
  unfold Db.bind at 1. unfold Db.write at 1.
  unfold Db.bind at 1. unfold Db.read at 1.
  cbn [Db.set_alerts Db.alerts].
  rewrite bool_decide_eq_true_2 by (rewrite lookup_insert_eq; eauto).
  unfold Db.bind at 1. cbn [negb Db.throw_if]. unfold Db.ret at 1.
  unfold Db.bind at 1. rewrite for_each_link.
  unfold Db.bind at 1. unfold Db.write at 1.
  set (s1 := Db.put_log _ _).
  assert (Hs1 : Db.alerts s1
                = <[alertId := Admin.alertData f alertId phones now]> (Db.alerts s)
                /\ Db.nodes s1
                   = foldl (Db.link alertId (Admin.nodeAlert f alertId now))
                           (Db.nodes s) (Admin.affectedNodes f)
                /\ Db.contacts s1 = Db.contacts s) by (repeat split).
  clearbody s1. destruct Hs1 as (Ha & Hn & Hc).
  unfold Db.bind at 1.
  destruct (Admin.sendSMS f && Nat.ltb 0 (length phones)).
  - unfold Db.bind at 1.
    destruct (sendSMSNotification_frame (E := Admin.Error) env phones
                ("[" ++ Js.toUpperCase (Admin.severity f) ++ "] "
                 ++ Admin.message f)
                alertId (Admin.severity f) (Admin.sms_ticks ticks) s1)
      as (s2 & [smsResult attempted] & -> & Hn2 & Ha2 & Hc2).
    unfold Db.ret at 1. unfold Db.bind at 1.
    destruct (sendInAppNotification_frame (E := Admin.Error) alertId
                (Admin.message f) (Admin.severity f) (Admin.affectedNodes f)
                (Admin.inapp_ticks ticks) s2)
      as (s3 & ok & -> & Hn3 & Ha3 & Hc3).
    unfold Db.ret. eexists _, _. split; [reflexivity |].
    repeat split; congruence.
  - unfold Db.ret at 1. unfold Db.bind at 1.
    destruct (sendInAppNotification_frame (E := Admin.Error) alertId
                (Admin.message f) (Admin.severity f) (Admin.affectedNodes f)
                (Admin.inapp_ticks ticks) s1)
      as (s3 & ok & -> & Hn3 & Ha3 & Hc3).
    unfold Db.ret. eexists _, _. split; [reflexivity |].
    repeat split; congruence.
Qed.

End AlertCreation.

(** C1.  [handleCreateAlert] refuses a message of more than 500
    characters and an empty list of affected nodes: it shows the
    validation error and writes nothing.  Otherwise the record stored
    under [alerts/{alertId}] carries the affected nodes exactly as given,
    and every node of the list holds, under its [alerts/{alertId}], a
    back-reference with the alert's identifier and severity. *)
Theorem create_alert_validates_and_links
        (env : SmsRoute.Env) (f : Admin.AlertForm) (ticks : Admin.Ticks)
        (s : Db.Store) :
  let alertId := Utils.generateId "alert" (Admin.alert_tick ticks) in
  let s' := fst (Admin.handleCreateAlert env f ticks s) in
  ((500 < String.length (Admin.message f))%nat \/ Admin.affectedNodes f = [] ->
   exists e : Admin.Error,
     Admin.handleCreateAlert env f ticks s = (s, ([Admin.ToastError e], []))
     /\ Admin.classify e = ValidationError)
  /\ ((String.length (Admin.message f) <= 500)%nat ->
      Admin.affectedNodes f <> [] ->
      (exists a : Db.Alert,
          Db.alerts s' !! alertId = Some a
          /\ Db.al_id a = Some alertId
          /\ Db.al_affectedNodes a = Admin.affectedNodes f
          /\ Db.al_severity a = Some (Admin.severity f))
      /\ (forall nodeId : string,
             nodeId ∈ Admin.affectedNodes f ->
             exists (n : Db.Node) (r : Db.AlertRef),
               Db.nodes s' !! nodeId = Some n
               /\ Db.node_alerts n !! alertId = Some r
               /\ Db.ref_alertId r = alertId
               /\ Db.ref_severity r = Admin.severity f)).
Proof.
  intros alertId s'. split.
  - intros Hbad. unfold Admin.handleCreateAlert.
    destruct (Nat.ltb_spec 500 (String.length (Admin.message f))) as [Hlong | Hshort].
    + now exists Admin.MessageTooLong.
    + destruct Hbad as [Hlong | Hnone]; [lia |].
      rewrite Hnone. now exists Admin.NoNodeSelected.
  - intros Hshort Hsome. subst s'. unfold Admin.handleCreateAlert.
    destruct (Nat.ltb_spec 500 (String.length (Admin.message f))) as [Hlong | _];
      [lia |].
    destruct (Admin.affectedNodes f) as [| n0 rest] eqn:Hnodes; [done |].
    cbn [length Nat.eqb]. rewrite <- Hnodes.
    destruct (createAlert_writes env f
                (Admin.computeRecipients (Db.contacts s) (Admin.affectedNodes f))
                ticks s) as (s1 & out & Hrun & Ha & Hn & _).
    rewrite Hrun. cbn [fst]. split.
    + eexists. rewrite Ha, lookup_insert_eq. repeat split.
    + intros nodeId Hin. rewrite Hn.
      destruct (foldl_link_elem
                  (Utils.generateId "alert" (Admin.alert_tick ticks))
                  (Admin.nodeAlert f (Utils.generateId "alert" (Admin.alert_tick ticks))
                                   (Admin.now ticks))
                  nodeId (Admin.affectedNodes f) (Db.nodes s) Hin)
        as (n & Hlookup & Hr).
      exists n, (Admin.nodeAlert f alertId (Admin.now ticks)). repeat split; done.
Qed.

Lemma create_alert_validates_and_links_witness :
  exists (n : Db.Node) (r : Db.AlertRef),
    Db.nodes (fst (Admin.handleCreateAlert Sample.env_unconfigured
                     Sample.alert_form Sample.ticks Sample.store2))
    !! "node2" = Some n
    /\ Db.node_alerts n
       !! Utils.generateId "alert" (Admin.alert_tick Sample.ticks) = Some r
    /\ Db.ref_alertId r = Utils.generateId "alert" (Admin.alert_tick Sample.ticks)
    /\ Db.ref_severity r = "critical".
Proof.
  destruct (create_alert_validates_and_links Sample.env_unconfigured
              Sample.alert_form Sample.ticks Sample.store2) as [_ Hok].
  destruct Hok as [_ Hlinks].
  - cbn. lia.
  - discriminate.
  - apply (Hlinks "node2"). cbn. apply list_elem_of_further, list_elem_of_here.
Defined.

(** The stored alert lists the phone numbers of the recipients computed
    from the contacts as they are when the alert is created. *)
Lemma create_alert_recipients
      (env : SmsRoute.Env) (f : Admin.AlertForm) (ticks : Admin.Ticks)
      (s : Db.Store) :
  (String.length (Admin.message f) <= 500)%nat ->
  Admin.affectedNodes f <> [] ->
  Db.al_recipients
    <$> Db.alerts (fst (Admin.handleCreateAlert env f ticks s))
        !! Utils.generateId "alert" (Admin.alert_tick ticks)
  = Some (map Db.ct_phone
              (Admin.computeRecipients (Db.contacts s) (Admin.affectedNodes f))).
Proof.
  intros Hshort Hsome. unfold Admin.handleCreateAlert.
  destruct (Nat.ltb_spec 500 (String.length (Admin.message f))) as [Hlong | _];
    [lia |].
  destruct (Admin.affectedNodes f) as [| n0 rest] eqn:Hnodes; [done |].
  cbn [length Nat.eqb]. rewrite <- Hnodes.
  destruct (createAlert_writes env f
              (Admin.computeRecipients (Db.contacts s) (Admin.affectedNodes f))
              ticks s) as (s1 & out & -> & Ha & _).
  cbn [fst]. now rewrite Ha, lookup_insert_eq.
Qed.

(** ** SMS dispatch without a provider *)

Section SmsUnconfigured.

Lemma unconfigured_test (env : SmsRoute.Env) :
  SmsRoute.unconfigured env ->
  negb (bool_decide (SmsRoute.NEXT_PUBLIC_TWILIO_ENABLED env = Some "true"))
  || negb (SmsRoute.env_truthy (SmsRoute.NEXT_PUBLIC_TWILIO_ACCOUNT_SID env))
  || negb (SmsRoute.env_truthy (SmsRoute.TWILIO_AUTH_TOKEN env))
  || negb (SmsRoute.env_truthy (SmsRoute.NEXT_PUBLIC_TWILIO_PHONE_NUMBER env))
  = true.
Proof.
  intros [H | [H | [H | H]]].
  - now rewrite bool_decide_eq_false_2.
  - rewrite H. cbn [negb]. now rewrite !orb_true_r.
  - rewrite H. cbn [negb]. now rewrite !orb_true_r.
  - rewrite H. cbn [negb]. now rewrite !orb_true_r.
Qed.

(** The endpoint on a well-formed request when the provider is
    unconfigured. *)
Lemma POST_unconfigured (env : SmsRoute.Env) (rcpts : list string)
      (msg alertId sev : string) :
  SmsRoute.unconfigured env -> rcpts <> [] -> msg <> "" ->
  SmsRoute.POST env (SmsRoute.mkRequest (Some rcpts) (Some msg) alertId sev)
  = (SmsRoute.mkResponse 200 false (Some false) None
       (Some (Z.of_nat (length rcpts))) None None
       (Some "SMS service not configured. Please set up Twilio credentials.")
       None [] [],
     []).
Proof.
  intros Hun Hr Hm. unfold SmsRoute.POST.
  cbn [SmsRoute.recipients SmsRoute.message].
  destruct rcpts as [| r rs]; [done |].
  apply String.eqb_neq in Hm. rewrite Hm.
  now rewrite (unconfigured_test env Hun).
Qed.

(** Whatever the request, an unconfigured endpoint attempts no delivery
    and does not answer [configured: true]. *)
Lemma POST_unconfigured_any (env : SmsRoute.Env) (req : SmsRoute.Request) :
  SmsRoute.unconfigured env ->
  Notifications.option_truthy (SmsRoute.configured (fst (SmsRoute.POST env req)))
  = false
  /\ snd (SmsRoute.POST env req) = [].
Proof.
  intros Hun. unfold SmsRoute.POST.
  destruct (SmsRoute.recipients req) as [[| r rs] |]; [done | | done].
  destruct (SmsRoute.message req) as [msg |]; [| done].
  destruct (String.eqb msg ""); [done |].
  now rewrite (unconfigured_test env Hun).
Qed.

End SmsUnconfigured.

(** C9, as stated, fails on a request with no recipients: the endpoint
    answers 400 before it looks at the configuration, and that answer has
    no [configured] field. *)
Lemma sms_unconfigured_counterexample :
  ~ (forall (env : SmsRoute.Env) (req : SmsRoute.Request),
        SmsRoute.unconfigured env ->
        SmsRoute.configured (fst (SmsRoute.POST env req)) = Some false).
Proof.
  intros H.
  specialize (H Sample.env_unconfigured
                (SmsRoute.mkRequest (Some []) (Some "Cloudburst risk upstream")
                                    "alert_1" "critical")).
  cbn in H. discriminate H. now left.
Qed.

(** C9, amended.  When the provider is unconfigured and the request
    carries at least one recipient and a non-empty message, the endpoint
    answers [success: false, configured: false] and attempts no delivery.
    The caller then only logs: it writes the notification record with
    delivery status [not_configured] and a log entry, touches nothing
    else in the store, and returns [success: false, configured: false]
    without raising an error. *)
Theorem sms_unconfigured_logs_only
        (E : Type) (env : SmsRoute.Env) (rcpts : list string)
        (msg alertId sev : string) (ticks : Notifications.SmsTicks)
        (s : Db.Store) :
  SmsRoute.unconfigured env -> rcpts <> [] -> msg <> "" ->
  let response :=
    SmsRoute.POST env (SmsRoute.mkRequest (Some rcpts) (Some msg) alertId sev) in
  let notificationId :=
    Utils.generateId "notification" (Notifications.notification_tick ticks) in
  let logId := Utils.generateId "log" (Notifications.log_tick ticks) in
  (SmsRoute.success (fst response) = false
   /\ SmsRoute.configured (fst response) = Some false
   /\ snd response = [])
  /\ exists (s' : Db.Store) (r : Notifications.SmsResult)
            (n : Db.Notification) (l : Db.LogEntry),
      Notifications.sendSMSNotification (E := E) env rcpts msg alertId sev ticks s
      = (s', inr (r, []))
      /\ Notifications.success r = false
      /\ Notifications.configured r = false
      /\ Db.notifications s' = <[notificationId := n]> (Db.notifications s)
      /\ Db.nt_deliveryStatus n = Some "not_configured"
      /\ Db.nt_recipients n = rcpts
      /\ Db.logs s' = <[logId := l]> (Db.logs s)
      /\ Db.log_type l = "sms_pending"
      /\ Db.nodes s' = Db.nodes s
      /\ Db.alerts s' = Db.alerts s
      /\ Db.contacts s' = Db.contacts s.
Proof.
  intros Hun Hr Hm response notificationId logId.
  subst response. rewrite POST_unconfigured by done.
  split; [repeat split |].
  unfold Notifications.sendSMSNotification.
  rewrite POST_unconfigured by done.
  cbn [SmsRoute.configured Notifications.option_truthy default negb
       SmsRoute.response_message].
  run_action. eexists _, _, _, _. split; [reflexivity |].
  repeat split.
Qed.

Lemma sms_unconfigured_logs_only_witness :
  SmsRoute.configured
    (fst (SmsRoute.POST Sample.env_unconfigured
            (SmsRoute.mkRequest (Some ["+919876543210"])
               (Some "[CRITICAL] Cloudburst risk upstream") "alert_1" "critical")))
  = Some false.
Proof.
  assert (Hun : SmsRoute.unconfigured Sample.env_unconfigured) by now left.
  destruct (sms_unconfigured_logs_only Admin.Error Sample.env_unconfigured
              ["+919876543210"] "[CRITICAL] Cloudburst risk upstream"
              "alert_1" "critical" (Admin.sms_ticks Sample.ticks) Db.empty Hun)
    as [(_ & Hconf & _) _]; [discriminate | discriminate |].
  exact Hconf.
Defined.

(** The caller logs only for every request, also one the endpoint
    rejects: an absent [configured] field is treated like [false]. *)
Lemma sms_unconfigured_caller_any_request
      (E : Type) (env : SmsRoute.Env) (rcpts : list string)
      (msg alertId sev : string) (ticks : Notifications.SmsTicks)
      (s : Db.Store) :
  SmsRoute.unconfigured env ->
  exists (s' : Db.Store) (r : Notifications.SmsResult) (n : Db.Notification),
    Notifications.sendSMSNotification (E := E) env rcpts msg alertId sev ticks s
    = (s', inr (r, []))
    /\ Notifications.success r = false
    /\ Notifications.configured r = false
    /\ Db.notifications s'
       !! Utils.generateId "notification" (Notifications.notification_tick ticks)
       = Some n
    /\ Db.nt_deliveryStatus n = Some "not_configured".
Proof.
  intros Hun. unfold Notifications.sendSMSNotification.
  destruct (POST_unconfigured_any env
              (SmsRoute.mkRequest (Some rcpts) (Some msg) alertId sev) Hun)
    as [Hconf Hnone].
  destruct (SmsRoute.POST env _) as [result attempted].
  cbn [fst snd] in Hconf, Hnone. subst attempted. rewrite Hconf. cbn [negb].
  run_action. eexists _, _, _. split; [reflexivity |].
  cbn [Db.set_notifications Db.put_log Db.set_logs Db.notifications].
  rewrite lookup_insert_eq. repeat split.
Qed.

(** ** Acknowledgement *)

Section Acknowledgement.

Lemma register_alerts (f : Register.FormData) installedDate createdAt
      lastUpdateNow (s : Db.Store) :
  Db.alerts (fst (Register.handleSubmit f installedDate createdAt
                                        lastUpdateNow s))
  = Db.alerts s.
Proof.
  unfold Register.handleSubmit, Register.submit, Register.validateForm.
  run_action.
  repeat match goal with
         | |- context [if ?b then _ else _] => destruct b
         | |- context [match ?o ≫= Db.metadata with _ => _ end] =>
             destruct (o ≫= Db.metadata)
         end; reflexivity.
Qed.

Lemma create_alert_alerts env (f : Admin.AlertForm) ticks (s : Db.Store)
      (id : string) :
  Utils.generateId "alert" (Admin.alert_tick ticks) <> id ->
  Db.alerts (fst (Admin.handleCreateAlert env f ticks s)) !! id
  = Db.alerts s !! id.
Proof.
  intros Hne. unfold Admin.handleCreateAlert.
  destruct (Nat.ltb _ _); [reflexivity |].
  destruct (Nat.eqb _ _); [reflexivity |].
  destruct (createAlert_writes env f
              (Admin.computeRecipients (Db.contacts s) (Admin.affectedNodes f))
              ticks s) as (s1 & out & -> & Ha & _).
  cbn [fst]. rewrite Ha. now rewrite lookup_insert_ne.
Qed.

Lemma acknowledge_same (id : string) (now : Z) (s : Db.Store) :
  exists a : Db.Alert,
    Db.alerts (AlertsPage.handleAcknowledge id now s) !! id = Some a
    /\ Db.al_acknowledged a = Some true
    /\ Db.al_acknowledgedBy a = Some "analytical"
    /\ Db.al_acknowledgedAt a = Some now.
Proof.
  unfold AlertsPage.handleAcknowledge, AlertsPage.acknowledge.
  cbn [Db.set_alerts Db.alerts]. eexists. rewrite lookup_insert_eq.
  repeat split.
Qed.

Lemma acknowledge_other (id other : string) (now : Z) (s : Db.Store) :
  other <> id ->
  Db.alerts (AlertsPage.handleAcknowledge other now s) !! id
  = Db.alerts s !! id.
Proof.
  intros Hne. unfold AlertsPage.handleAcknowledge, AlertsPage.acknowledge.
  cbn [Db.set_alerts Db.alerts]. now rewrite lookup_insert_ne.
Qed.

Lemma acknowledged_after_acknowledge (id : string) (now : Z) (s : Db.Store) :
  System.acknowledged (AlertsPage.handleAcknowledge id now s) id = Some true.
Proof.
  unfold System.acknowledged.
  destruct (acknowledge_same id now s) as (a & -> & Hack & _). exact Hack.
Qed.

(** A step that neither overwrites the record nor resets the system
    leaves the alert record as it is, unless it acknowledges it. *)
Lemma step_keeps_alert (id : string) (op : System.Op) (s : Db.Store) :
  System.no_overwrite id op -> System.no_reset op ->
  Db.alerts (System.step s op) !! id = Db.alerts s !! id
  \/ System.acknowledged (System.step s op) id = Some true.
Proof.
  intros Hover Hreset. destruct op; cbn [System.step System.no_overwrite
                                        System.no_reset] in *.
  - left. now rewrite register_alerts.
  - left. now apply create_alert_alerts.
  - left. unfold AlertsPage.handleSendManualAlert.
    cbn [Db.set_alerts Db.alerts]. now rewrite lookup_insert_ne.
  - destruct (decide (alertId = id)) as [-> | Hne].
    + right. apply acknowledged_after_acknowledge.
    + left. now apply acknowledge_other.
  - left. unfold Contacts.handleSubmit, Contacts.submit. run_action.
    now destruct (negb _).
  - now left.
  - now left.
  - left. unfold Admin.confirmImportData. cbn. now rewrite Hover.
  - left. unfold Admin.handleResetSystem.
    apply String.eqb_neq in Hreset. now rewrite Hreset.
  - now left.
Qed.

(** A step that does not overwrite the record never leaves its flag at
    [false] when it was not [false] before; a reset deletes the record. *)
Lemma step_never_unacknowledges (id : string) (op : System.Op) (s : Db.Store) :
  System.no_overwrite id op ->
  System.acknowledged s id <> Some false ->
  System.acknowledged (System.step s op) id <> Some false.
Proof.
  intros Hover Hack.
  assert (Hkeep : System.no_reset op ->
                  System.acknowledged (System.step s op) id <> Some false).
  { intros Hreset.
    destruct (step_keeps_alert id op s Hover Hreset) as [Heq | Htrue].
    - unfold System.acknowledged in *. now rewrite Heq.
    - now rewrite Htrue. }
  destruct op; try (apply Hkeep; exact I).
  destruct (String.eqb_spec resetConfirmText "DELETE") as [-> | Hne];
    [| now apply Hkeep].
  cbn. discriminate.
Qed.

End Acknowledgement.

(** C8, as stated, fails on a bulk import: restoring a backup taken
    before the acknowledgement replaces the [alerts] subtree and the
    alert is unacknowledged again. *)
Lemma acknowledgement_counterexample :
  ~ (forall (ops : list System.Op) (s : Db.Store) (alertId : string),
        System.acknowledged s alertId = Some true ->
        System.acknowledged (System.exec ops s) alertId = Some true).
Proof.
  intros H.
  specialize (H [System.ImportData Sample.backup
                   (Utils.mkTick Sample.now "z1y2x3w4v") Sample.now]
                Sample.store_acknowledged "alert_1").
  assert (Hbefore : System.acknowledged Sample.store_acknowledged "alert_1"
                    = Some true) by (vm_compute; reflexivity).
  specialize (H Hbefore).
  assert (Hafter : System.acknowledged
                     (System.exec
                        [System.ImportData Sample.backup
                           (Utils.mkTick Sample.now "z1y2x3w4v") Sample.now]
                        Sample.store_acknowledged) "alert_1"
                   = Some false) by (vm_compute; reflexivity).
  rewrite Hafter in H. discriminate H.
Qed.

(** C8, amended.  [handleAcknowledge] sets [acknowledged] to [true]
    together with the acknowledger and the time, and doing it again
    leaves the flag [true].  Along every sequence of operations in which
    no bulk import replaces the [alerts] subtree and no new alert is
    given the identifier of the acknowledged one, the flag is never
    [false] again; if the sequence has no system reset either (a reset
    deletes every alert), the alert stays acknowledged. *)
Theorem acknowledgement_monotonic_without_import :
  (forall (alertId : string) (now : Z) (s : Db.Store),
      exists a : Db.Alert,
        Db.alerts (AlertsPage.handleAcknowledge alertId now s) !! alertId = Some a
        /\ Db.al_acknowledged a = Some true
        /\ Db.al_acknowledgedBy a = Some "analytical"
        /\ Db.al_acknowledgedAt a = Some now)
  /\ (forall (alertId : string) (now now' : Z) (s : Db.Store),
         System.acknowledged
           (AlertsPage.handleAcknowledge alertId now'
              (AlertsPage.handleAcknowledge alertId now s)) alertId
         = Some true)
  /\ (forall (ops : list System.Op) (s : Db.Store) (alertId : string),
         Forall (System.no_overwrite alertId) ops ->
         Forall System.no_reset ops ->
         System.acknowledged s alertId = Some true ->
         System.acknowledged (System.exec ops s) alertId = Some true)
  /\ (forall (ops : list System.Op) (s : Db.Store) (alertId : string),
         Forall (System.no_overwrite alertId) ops ->
         System.acknowledged s alertId = Some true ->
         System.acknowledged (System.exec ops s) alertId <> Some false).
Proof.
  split; [exact acknowledge_same |].
  split; [intros; apply acknowledged_after_acknowledge |].
  split.
  - intros ops. induction ops as [| op ops IH]; intros s id Hover Hreset Hack;
      [exact Hack |].
    apply Forall_cons in Hover as [Hop Hover].
    apply Forall_cons in Hreset as [Hnr Hreset].
    cbn [System.exec foldl]. apply IH; [done | done |].
    destruct (step_keeps_alert id op s Hop Hnr) as [Heq | Htrue]; [| exact Htrue].
    unfold System.acknowledged in *. now rewrite Heq.
  - intros ops s id Hover Hack.
    assert (Hstart : System.acknowledged s id <> Some false) by congruence.
    clear Hack. revert s Hstart.
    induction ops as [| op ops IH]; intros s Hstart; [exact Hstart |].
    apply Forall_cons in Hover as [Hop Hover].
    cbn [System.exec foldl]. apply IH; [done |].
    now apply step_never_unacknowledges.
Qed.

Lemma acknowledgement_monotonic_without_import_witness :
  System.acknowledged
    (System.exec
       [System.CreateAlert Sample.env_unconfigured Sample.alert_form Sample.ticks;
        System.Acknowledge "alert_2" Sample.now;
        System.DeleteNode "node1" (Utils.mkTick Sample.now "z1y2x3w4v") Sample.now]
       Sample.store_acknowledged)
    "alert_1"
  = Some true.
Proof.
  destruct acknowledgement_monotonic_without_import as (_ & _ & Hstay & _).
  apply Hstay.
  - repeat constructor. cbn. discriminate.
  - repeat constructor.
  - vm_compute. reflexivity.
Defined.

(** ** Nodes on the map *)

Section MapVisibility.

Lemma Qle_bool_false (x y : Q) : Qle_bool x y = false <-> ~ (x <= y)%Q.
Proof.
  rewrite <- Qle_bool_iff. destruct (Qle_bool x y); split; congruence.
Qed.

(** The page's range check on two finite numbers. *)
Lemma check_finite (node : Db.Node) (metadata : Db.Metadata) (lat lon : Q) :
  Db.metadata node = Some metadata ->
  Db.md_latitude metadata = Js.VNum (Js.Fin lat) ->
  Db.md_longitude metadata = Js.VNum (Js.Fin lon) ->
  DashboardPage.check node = None
  <-> (inject_Z (-90) <= lat /\ lat <= inject_Z 90)%Q
      /\ (inject_Z (-180) <= lon /\ lon <= inject_Z 180)%Q.
Proof.
  intros Hmd Hlat Hlon. unfold DashboardPage.check.
  rewrite Hmd, Hlat, Hlon.
  cbn [Js.truthy Js.num_truthy Js.not_strictly_zero Js.is_number negb
       Js.ToNumber].
  destruct (Qeq_bool lat 0); cbn [negb andb];
    destruct (Qeq_bool lon 0); cbn [negb andb];
    unfold Js.gtb, Js.ltb, Js.of_Z, Js.Qlt_bool;
    destruct (Qle_bool (inject_Z (-90)) lat) eqn:H1;
    destruct (Qle_bool lat (inject_Z 90)) eqn:H2;
    destruct (Qle_bool (inject_Z (-180)) lon) eqn:H3;
    destruct (Qle_bool lon (inject_Z 180)) eqn:H4;
    cbn [negb orb];
    repeat match goal with
           | H : Qle_bool _ _ = true |- _ => apply Qle_bool_iff in H
           | H : Qle_bool _ _ = false |- _ => apply Qle_bool_false in H
           end;
    split; try discriminate; try tauto.
Qed.

(** The page keeps exactly the nodes that satisfy the invariant. *)
Lemma check_none_iff (node : Db.Node) :
  DashboardPage.check node = None <-> coordinates_valid node.
Proof.
  unfold coordinates_valid, coordinates.
  destruct (Db.metadata node) as [metadata |] eqn:Hmd.
  - destruct (Db.md_latitude metadata) as [| | b | [| | | lat] | str] eqn:Hlat;
      destruct (Db.md_longitude metadata) as [| | b' | [| | | lon] | str']
        eqn:Hlon;
      try (rewrite (check_finite node metadata lat lon Hmd Hlat Hlon);
           split;
           [ intros [Ha Hb]; exists lat, lon; now repeat split
           | intros (lat' & lon' & [= <- <-] & Ha & Hb); now split ]);
      (split;
       [ unfold DashboardPage.check; rewrite Hmd, Hlat, Hlon; cbn;
         repeat match goal with
                | |- context [if ?c then _ else _] => destruct c
                end; discriminate
       | intros (lat' & lon' & [=] & _) ]).
  - split; [unfold DashboardPage.check; rewrite Hmd; discriminate |].
    intros (lat & lon & [=] & _).
Qed.

(** The map component's filter on two finite numbers: both non-zero. *)
Lemma validNode_finite (node : Db.Node) (lat lon : Q) :
  coordinates node = Some (lat, lon) ->
  DashboardMap.validNode node = true <-> ~ (lat == 0)%Q /\ ~ (lon == 0)%Q.
Proof.
  unfold coordinates, DashboardMap.validNode.
  destruct (Db.metadata node) as [metadata |]; [| discriminate].
  destruct (Db.md_latitude metadata) as [| | b | [| | | lat'] | str];
    try discriminate.
  destruct (Db.md_longitude metadata) as [| | b' | [| | | lon'] | str'];
    try discriminate.
  intros [= -> ->]. cbn [Js.truthy Js.isNaN Js.ToNumber Js.num_isNaN negb].
  rewrite !andb_true_r, andb_true_iff, !num_truthy_Fin. reflexivity.
Qed.

Lemma elem_of_node_values (data : gmap string Db.Node) (node : Db.Node) :
  node ∈ Js.values data <-> exists id, data !! id = Some node.
Proof.
  unfold Js.values. rewrite list_elem_of_fmap. split.
  - intros ([id n] & -> & Hin). exists id. now apply elem_of_map_to_list.
  - intros [id Hid]. exists (id, node). split; [done |].
    now apply elem_of_map_to_list.
Qed.

Lemma elem_of_visible_nodes (data : gmap string Db.Node) (node : Db.Node) :
  node ∈ visible_nodes data
  <-> (exists id, data !! id = Some node)
      /\ DashboardPage.check node = None
      /\ DashboardMap.validNode node = true.
Proof.
  unfold visible_nodes, DashboardMap.validNodes, DashboardPage.nodeArray.
  rewrite list_elem_of_In, !filter_In, <- list_elem_of_In.
  rewrite elem_of_node_values, bool_decide_eq_true. tauto.
Qed.

End MapVisibility.

(** C7, as stated, fails for the map component's filter: it admits a node
    stored with latitude 200, which the invariant excludes. *)
Lemma map_filter_counterexample :
  ~ (forall node : Db.Node,
        DashboardMap.validNode node = true <-> coordinates_valid node).
Proof.
  intros H.
  assert (Hadmit : DashboardMap.validNode Sample.node_out_of_range = true)
    by reflexivity.
  apply H in Hadmit. destruct Hadmit as (lat & lon & Hc & [_ Hle] & _).
  injection Hc as <- <-. apply Qle_bool_iff in Hle. discriminate Hle.
Qed.

(** C7, amended.  A node drawn on the dashboard map is a stored node,
    unchanged, whose latitude and longitude are both present as numbers
    within range: a node whose latitude or longitude is absent, of another
    type or out of range is left out by the dashboard page.  Every stored
    node with numeric coordinates within range and different from zero is
    drawn.  The range and type checks are the page's; the map
    component's own filter only asks for two truthy coordinates that are
    not [NaN], which the nodes it receives from the page satisfy as soon
    as their coordinates are not zero. *)
Theorem map_shows_valid_nodes (data : gmap string Db.Node) (node : Db.Node) :
  (node ∈ visible_nodes data ->
   (exists id, data !! id = Some node) /\ coordinates_valid node)
  /\ (forall (id : string) (lat lon : Q),
         data !! id = Some node ->
         coordinates node = Some (lat, lon) ->
         (inject_Z (-90) <= lat /\ lat <= inject_Z 90)%Q ->
         (inject_Z (-180) <= lon /\ lon <= inject_Z 180)%Q ->
         ~ (lat == 0)%Q -> ~ (lon == 0)%Q ->
         node ∈ visible_nodes data)
  /\ (node ∈ DashboardPage.nodeArray data <->
      (exists id, data !! id = Some node) /\ coordinates_valid node).
Proof.
  split; [| split].
  - intros Hvis. apply elem_of_visible_nodes in Hvis as (Hid & Hcheck & _).
    split; [exact Hid | now apply check_none_iff].
  - intros id lat lon Hid Hc Hlat Hlon Hzlat Hzlon.
    apply elem_of_visible_nodes. split; [now exists id |]. split.
    + apply check_none_iff. now exists lat, lon.
    + now apply (validNode_finite node lat lon Hc).
  - unfold DashboardPage.nodeArray.
    rewrite list_elem_of_In, filter_In, <- list_elem_of_In.
    rewrite elem_of_node_values, bool_decide_eq_true, check_none_iff.
    tauto.
Qed.

Lemma map_shows_valid_nodes_witness :
  Sample.node1 ∈ visible_nodes (Db.nodes Sample.store1).
Proof.
  destruct (map_shows_valid_nodes (Db.nodes Sample.store1) Sample.node1)
    as (_ & Hshow & _).
  apply (Hshow "node1" (286139 # 10000) (772090 # 10000)).
  - vm_compute. reflexivity.
  - reflexivity.
  - split; vm_compute; discriminate.
  - split; vm_compute; discriminate.
  - vm_compute. discriminate.
  - vm_compute. discriminate.
Defined.

(** A node stored on the equator passes the page's validation and is
    dropped by the map component's filter. *)
Example equator_node_not_drawn :
  let node :=
    Register.nodeData Sample.form_equator (Js.of_Z 0) (Js.Fin (772090 # 10000))
                      Js.VNull Sample.installedDate Sample.now Sample.now in
  DashboardPage.check node = None /\ DashboardMap.validNode node = false.
Proof. split; reflexivity. Qed.

(* ================================================================== *)
(** * Further properties of the handlers *)

(** ** The dashboard page's classifier *)

Section DashboardClassifier.

(** [x > now - c] and [now - x < c] are the same test on every number. *)
Lemma gtb_sub_swap (now c : Z) (x : Js.number) :
  Js.gtb x (Js.sub (Js.of_Z now) (Js.of_Z c))
  = Js.ltb (Js.sub (Js.of_Z now) x) (Js.of_Z c).
Proof.
  destruct x as [| | | q]; try reflexivity.
  unfold Js.gtb, Js.ltb, Js.sub, Js.add, Js.neg, Js.of_Z, Js.Qlt_bool.
  f_equal.
  destruct (Qle_bool q (inject_Z now + - inject_Z c)) eqn:H1;
    destruct (Qle_bool (inject_Z c) (inject_Z now + - q)) eqn:H2;
    try reflexivity;
    repeat match goal with
           | H : Qle_bool _ _ = true |- _ => apply Qle_bool_iff in H
           | H : Qle_bool _ _ = false |- _ => apply Qle_bool_false in H
           end;
    exfalso; lra.
Qed.

(** With a stored status of [online] the dashboard classifier is the
    shared classifier. *)
Lemma dashboard_status_online_field (now : Z) (node : Db.Node)
      (realtime : Db.Realtime) :
  Db.realtime node = Some realtime ->
  Db.rt_status realtime = "online" ->
  DashboardStatus.getNodeStatus now node
  = Utils.getNodeStatus now (Db.rt_lastUpdate realtime).
Proof.
  intros Hrt Hst. unfold DashboardStatus.getNodeStatus, Utils.getNodeStatus.
  rewrite Hrt, Hst. cbn [String.eqb Ascii.eqb Bool.eqb andb].
  destruct (negb (Js.truthy (Db.rt_lastUpdate realtime))); [reflexivity |].
  change (5 * 60 * 1000) with 300000.
  now rewrite gtb_sub_swap.
Qed.

End DashboardClassifier.

(** X1.  The dashboard page never shows [warning].  It shows a node
    [online] only when the node's stored status is the string [online]
    and the shared classifier and the home page classifier call its last
    update online too; with any other stored status it shows [offline],
    however recent the last update. *)
Theorem dashboard_status_agrees_with_shared (now : Z) (node : Db.Node) :
  DashboardStatus.getNodeStatus now node <> warning
  /\ (DashboardStatus.getNodeStatus now node = online ->
      exists realtime : Db.Realtime,
        Db.realtime node = Some realtime
        /\ Db.rt_status realtime = "online"
        /\ Utils.getNodeStatus now (Db.rt_lastUpdate realtime) = online
        /\ HomePage.getNodeStatus now (Db.rt_lastUpdate realtime) = online)
  /\ (forall realtime : Db.Realtime,
         Db.realtime node = Some realtime ->
         Db.rt_status realtime <> "online" ->
         DashboardStatus.getNodeStatus now node = offline).
Proof.
  split; [| split].
  - unfold DashboardStatus.getNodeStatus.
    repeat match goal with
           | |- context [match ?o with Some _ => _ | None => _ end] =>
               destruct o
           | |- context [if ?b then _ else _] => destruct b
           end; discriminate.
  - intros Hon. destruct (Db.realtime node) as [realtime |] eqn:Hrt.
    + destruct (String.eqb_spec (Db.rt_status realtime) "online") as [Hst | Hst].
      * exists realtime. repeat split; try done.
        -- now rewrite <- (dashboard_status_online_field now node realtime).
        -- rewrite (dashboard_status_online_field now node realtime) in Hon
             by done.
           revert Hon. unfold Utils.getNodeStatus, HomePage.getNodeStatus.
           destruct (negb _); [discriminate |].
           now destruct (Js.ltb _ _).
      * exfalso. revert Hon. unfold DashboardStatus.getNodeStatus. rewrite Hrt.
        apply String.eqb_neq in Hst. rewrite Hst.
        destruct (negb _); [discriminate |].
        destruct (String.eqb _ "offline"); discriminate.
    + exfalso. revert Hon. unfold DashboardStatus.getNodeStatus.
      now rewrite Hrt.
  - intros realtime Hrt Hst. unfold DashboardStatus.getNodeStatus. rewrite Hrt.
    apply String.eqb_neq in Hst. rewrite Hst.
    destruct (negb _); [reflexivity |].
    destruct (String.eqb _ "offline"); reflexivity.
Qed.

Lemma dashboard_status_agrees_with_shared_witness :
  DashboardStatus.getNodeStatus (Sample.now + 600000) Sample.node1 = offline.
Proof.
  destruct (dashboard_status_agrees_with_shared (Sample.now + 600000)
              Sample.node1) as (_ & _ & Hoff).
  eapply Hoff; [reflexivity | discriminate].
Defined.

(** ** Phone numbers, once more *)

Section PhoneFormat.

Lemma cleaned_app (s1 s2 : string) :
  Utils.cleaned (s1 ++ s2) = Utils.cleaned s1 ++ Utils.cleaned s2.
Proof.
  unfold Utils.cleaned.
  induction s1 as [| c r IH]; [reflexivity |].
  change (String c r ++ s2) with (String c (r ++ s2)).
  cbn [Js.filter_string]. rewrite IH. now destruct (Js.is_digit c).
Qed.

Lemma cleaned_all_digits (s : string) :
  all_digits s = true -> Utils.cleaned s = s.
Proof.
  unfold Utils.cleaned.
  induction s as [| c r IH]; [reflexivity |].
  cbn [all_digits Js.filter_string]. intros [Hc Hr]%andb_prop.
  now rewrite Hc, IH.
Qed.

Lemma cleaned_cleaned (s : string) :
  Utils.cleaned (Utils.cleaned s) = Utils.cleaned s.
Proof. apply cleaned_all_digits, all_digits_cleaned. Qed.

(** The digits of a formatted number. *)
Lemma cleaned_formatPhoneNumber (phone : string) :
  Utils.cleaned (Utils.formatPhoneNumber phone)
  = if Nat.eqb (String.length (Utils.cleaned phone)) 10
    then "91" ++ Utils.cleaned phone
    else Utils.cleaned phone.
Proof.
  unfold Utils.formatPhoneNumber.
  destruct (Nat.eqb (String.length (Utils.cleaned phone)) 10).
  - rewrite cleaned_app, cleaned_cleaned. reflexivity.
  - destruct (_ && _); [| reflexivity].
    rewrite cleaned_app, cleaned_cleaned. reflexivity.
Qed.

End PhoneFormat.

(** X2.  Formatting a phone number twice is formatting it once; the
    formatted number is accepted exactly when the raw one is, and a
    number that is not accepted comes back unchanged. *)
Theorem formatPhoneNumber_idempotent (phone : string) :
  Utils.formatPhoneNumber (Utils.formatPhoneNumber phone)
  = Utils.formatPhoneNumber phone
  /\ Utils.isValidPhoneNumber (Utils.formatPhoneNumber phone)
     = Utils.isValidPhoneNumber phone
  /\ (Utils.isValidPhoneNumber phone = false ->
      Utils.formatPhoneNumber phone = phone).
Proof.
  pose proof (cleaned_formatPhoneNumber phone) as Hc.
  assert (H91 : forall s, String.length ("91" ++ s) = S (S (String.length s))).
  { intros s. reflexivity. }
  assert (Hp : forall s, String.prefix "91" ("91" ++ s) = true).
  { intros s. apply prefix_91. now exists s. }
  destruct (Nat.eqb (String.length (Utils.cleaned phone)) 10) eqn:H10;
    cbv iota in Hc.
  - assert (Hf : Utils.formatPhoneNumber phone = "+91" ++ Utils.cleaned phone).
    { unfold Utils.formatPhoneNumber. now rewrite H10. }
    apply Nat.eqb_eq in H10.
    split; [| split].
    + unfold Utils.formatPhoneNumber at 1. rewrite Hc, H91, H10, Hp.
      now rewrite Hf.
    + unfold Utils.isValidPhoneNumber. rewrite Hc, H91, H10, Hp. reflexivity.
    + unfold Utils.isValidPhoneNumber. rewrite H10. discriminate.
  - split; [| split].
    + unfold Utils.formatPhoneNumber at 1. rewrite Hc, H10.
      unfold Utils.formatPhoneNumber.
      destruct (Nat.eqb (String.length (Utils.cleaned phone)) 12
                && String.prefix "91" (Utils.cleaned phone)) eqn:H12;
        rewrite ?H10; reflexivity.
    + unfold Utils.isValidPhoneNumber. now rewrite Hc.
    + unfold Utils.isValidPhoneNumber, Utils.formatPhoneNumber.
      rewrite H10. cbn [orb]. now intros ->.
Qed.

(** ** Selecting nodes *)

Section SelectionLists.

Lemma elem_of_toggle (selected : list string) (nodeId x : string) :
  x ∈ Selection.toggle selected nodeId
  <-> (x = nodeId /\ nodeId ∉ selected) \/ (x <> nodeId /\ x ∈ selected).
Proof.
  unfold Selection.toggle.
  destruct (Js.includes selected nodeId) eqn:Hin.
  - apply includes_spec in Hin.
    rewrite list_elem_of_In, filter_In, <- list_elem_of_In, negb_true_iff,
      String.eqb_neq.
    split.
    + intros [Hx Hne]. right. done.
    + intros [[-> Hn] | [Hne Hx]]; done.
  - assert (Hn : nodeId ∉ selected).
    { intros Hx. apply includes_spec in Hx. congruence. }
    rewrite elem_of_app, list_elem_of_singleton. split.
    + intros [Hx | ->]; [right | left]; [| done].
      split; [| done]. intros ->. done.
    + intros [[-> _] | [_ Hx]]; [right | left]; done.
Qed.

Lemma NoDup_list_filter {A} (p : A -> bool) (l : list A) :
  NoDup l -> NoDup (List.filter p l).
Proof.
  induction 1 as [| x l Hx Hl IH]; cbn [List.filter]; [constructor |].
  destruct (p x); [| exact IH].
  constructor; [| exact IH].
  rewrite list_elem_of_In, filter_In, <- list_elem_of_In. tauto.
Qed.

Lemma NoDup_toggle (selected : list string) (nodeId : string) :
  NoDup selected -> NoDup (Selection.toggle selected nodeId).
Proof.
  intros Hnd. unfold Selection.toggle.
  destruct (Js.includes selected nodeId) eqn:Hin.
  - now apply NoDup_list_filter.
  - apply NoDup_app. split; [done |]. split; [| apply NoDup_singleton].
    intros x Hx ->%list_elem_of_singleton.
    apply includes_spec in Hx. congruence.
Qed.

Lemma filter_not_in (selected : list string) (nodeId : string) :
  nodeId ∉ selected ->
  List.filter (fun id => negb (String.eqb id nodeId)) selected = selected.
Proof.
  induction selected as [| y l IH]; [reflexivity |].
  intros Hn. apply not_elem_of_cons in Hn as [Hne Hn].
  cbn [List.filter]. apply not_eq_sym, String.eqb_neq in Hne.
  rewrite Hne. cbn [negb]. now rewrite IH.
Qed.

End SelectionLists.

(** X3.  Ticking a node's box puts it in the selection when it was not
    there and takes it out when it was, and touches no other node; a
    selection without duplicates stays without duplicates; ticking twice
    a node that was not selected gives the selection back; and Select All
    selects every node of the database once. *)
Theorem toggle_selection_spec (selected : list string) (nodeId : string)
        (nodes : gmap string Db.Node) (alertForm : Admin.AlertForm) :
  (forall x, x ∈ Selection.toggle selected nodeId
             <-> (x = nodeId /\ nodeId ∉ selected)
                 \/ (x <> nodeId /\ x ∈ selected))
  /\ (NoDup selected -> NoDup (Selection.toggle selected nodeId))
  /\ (nodeId ∉ selected ->
      Selection.toggle (Selection.toggle selected nodeId) nodeId = selected)
  /\ NoDup (Admin.affectedNodes (Selection.selectAllNodes alertForm nodes))
  /\ (forall x, x ∈ Admin.affectedNodes (Selection.selectAllNodes alertForm nodes)
                <-> is_Some (nodes !! x)).
Proof.
  split; [intros x; apply elem_of_toggle |].
  split; [apply NoDup_toggle |].
  split; [| split].
  - intros Hn. unfold Selection.toggle at 2.
    assert (Hf : Js.includes selected nodeId = false).
    { destruct (Js.includes selected nodeId) eqn:Hin; [| done].
      now apply includes_spec in Hin. }
    rewrite Hf. unfold Selection.toggle.
    assert (Ht : Js.includes (selected ++ [nodeId])%list nodeId = true).
    { apply includes_spec, elem_of_app. right. constructor. }
    rewrite Ht, List.filter_app, filter_not_in by done.
    cbn [List.filter]. rewrite String.eqb_refl. cbn [negb].
    apply app_nil_r.
  - cbn [Selection.selectAllNodes Admin.affectedNodes]. unfold Js.keys.
    apply NoDup_fst_map_to_list.
  - intros x. cbn [Selection.selectAllNodes Admin.affectedNodes].
    unfold Js.keys. rewrite list_elem_of_fmap. split.
    + intros ([k n] & -> & Hin). apply elem_of_map_to_list in Hin.
      now exists n.
    + intros [n Hn]. exists (x, n). split; [done |].
      now apply elem_of_map_to_list.
Qed.

Lemma toggle_selection_spec_witness :
  NoDup (Selection.toggle ["node1"; "node2"] "node1")
  /\ Selection.toggle (Selection.toggle ["node2"] "node1") "node1" = ["node2"].
Proof.
  destruct (toggle_selection_spec ["node1"; "node2"] "node1" ∅
              Sample.alert_form) as (_ & Hnd & _).
  destruct (toggle_selection_spec ["node2"] "node1" ∅
              Sample.alert_form) as (_ & _ & Hrt & _).
  split.
  - apply Hnd. apply (bool_decide_unpack _). vm_compute. exact I.
  - apply Hrt. apply (bool_decide_unpack _). vm_compute. exact I.
Defined.

(** ** What a registration leaves behind *)

Section RegistrationOutcomes.

Variables (installedDate : string) (createdAt lastUpdateNow : Z).

(** The errors of [validateForm] are validation errors or the duplicate
    error. *)
Lemma validateForm_errors (f : Register.FormData) (s s' : Db.Store)
      (e : Register.Error) :
  Register.validateForm f s = (s', inl e) ->
  Register.classify e = ValidationError
  \/ Register.classify e = DuplicateIdError.
Proof.
  unfold Register.validateForm. run_action.
  repeat match goal with
         | |- context [if ?b then _ else _] => destruct b
         end;
    intros [= <- <-]; cbn [Register.classify]; tauto.
Qed.

(** What is known once [validateForm] has passed. *)
Lemma validateForm_passes (f : Register.FormData) (s s' : Db.Store) :
  Register.validateForm f s = (s', inr tt) ->
  s' = s
  /\ Register.nodeId f <> ""
  /\ Js.num_isNaN (Js.parseFloat (Register.latitude f)) = false
  /\ Js.num_isNaN (Js.parseFloat (Register.longitude f)) = false.
Proof.
  unfold Register.validateForm, Register.falsy_string. run_action.
  destruct (Db.node_exists s (Register.nodeId f)); [discriminate |].
  destruct (String.eqb_spec (Register.nodeId f) "") as [| Hid];
    [discriminate |].
  cbn [orb].
  repeat match goal with
         | |- context [if ?b then _ else _] =>
             destruct b eqn:?; [discriminate |]
         end.
  intros [= <-]. done.
Qed.

(** The three ways [submit] can end. *)
Lemma submit_cases (f : Register.FormData) (s : Db.Store) :
  let lat := Js.parseFloat (Register.latitude f) in
  let lon := Js.parseFloat (Register.longitude f) in
  let written :=
    Db.set_nodes
      (insert (Register.nodeId f)
         (Register.nodeData f lat lon (Register.parsed_altitude f)
                            installedDate createdAt lastUpdateNow)) s in
  (exists e,
      Register.submit f installedDate createdAt lastUpdateNow s = (s, inl e)
      /\ (Register.classify e = ValidationError
          \/ Register.classify e = DuplicateIdError
          \/ e = Register.SetRejected))
  \/ (Register.submit f installedDate createdAt lastUpdateNow s
      = (written, inr tt)
      /\ Js.num_truthy lat = true /\ Js.num_truthy lon = true)
  \/ (Register.submit f installedDate createdAt lastUpdateNow s
      = (written, inl Register.CoordinatesMissing)
      /\ (Js.num_truthy lat = false \/ Js.num_truthy lon = false)).
Proof.
  intros lat lon written. subst lat lon written.
  destruct (Register.validateForm f s) as [s0 [e | []]] eqn:Hv.
  - left. exists e.
    pose proof (validateForm_store f s) as Hs. rewrite Hv in Hs.
    cbn [fst] in Hs. subst s0.
    split.
    + unfold Register.submit. unfold Db.bind at 1. now rewrite Hv.
    + apply validateForm_errors in Hv. tauto.
  - destruct (validateForm_passes f s s0 Hv) as (-> & Hid & Hlat & Hlon).
    assert (Hsub :
      Register.submit f installedDate createdAt lastUpdateNow s
      = let written :=
          Db.set_nodes
            (insert (Register.nodeId f)
               (Register.nodeData f (Js.parseFloat (Register.latitude f))
                  (Js.parseFloat (Register.longitude f))
                  (Register.parsed_altitude f)
                  installedDate createdAt lastUpdateNow)) s in
        if Db.invalid_number (Register.parsed_altitude f)
        then (s, inl Register.SetRejected)
        else if negb (Js.num_truthy (Js.parseFloat (Register.latitude f)))
                || negb (Js.num_truthy (Js.parseFloat (Register.longitude f)))
        then (written, inl Register.CoordinatesMissing)
        else (written, inr tt)).
    { unfold Register.submit. unfold Db.bind at 1. rewrite Hv. cbv zeta.
      rewrite Hlat, Hlon. cbn [orb]. run_action.
      destruct (Db.invalid_number (Register.parsed_altitude f));
        [reflexivity |].
      rewrite node_exists_insert by done.
      cbn [Db.set_nodes Db.nodes]. rewrite lookup_insert_eq.
      cbn [mbind option_bind Register.nodeData Db.metadata Db.md_latitude
           Db.md_longitude Js.truthy Js.is_number negb orb].
      destruct (Js.num_truthy (Js.parseFloat (Register.latitude f)));
        destruct (Js.num_truthy (Js.parseFloat (Register.longitude f)));
        reflexivity. }
    rewrite Hsub. cbv zeta.
    destruct (Db.invalid_number (Register.parsed_altitude f)).
    { left. exists Register.SetRejected. split; [reflexivity | tauto]. }
    right.
    destruct (Js.num_truthy (Js.parseFloat (Register.latitude f)));
      destruct (Js.num_truthy (Js.parseFloat (Register.longitude f)));
      cbn [negb orb]; [left | right | right | right];
      (split; [reflexivity | tauto]).
Qed.

End RegistrationOutcomes.


(** X5.  A verification error does not undo the write: when a
    registration ends with one, a second attempt for the same identifier,
    whatever its other fields, is refused as a duplicate and changes
    nothing. *)
Theorem register_retry_after_verification_error
        (f f' : Register.FormData) (installedDate installedDate' : string)
        (createdAt lastUpdateNow createdAt' lastUpdateNow' : Z)
        (s s' : Db.Store) (e : Register.Error) :
  Register.handleSubmit f installedDate createdAt lastUpdateNow s
  = (s', Register.MsgError e) ->
  Register.classify e = VerificationError ->
  Register.nodeId f' = Register.nodeId f ->
  Register.handleSubmit f' installedDate' createdAt' lastUpdateNow' s'
  = (s', Register.MsgError Register.NodeIdExists).
Proof.
  intros Hfirst Hclass Hid. unfold Register.handleSubmit in Hfirst.
  destruct (Register.validateForm f s) as [s0 [e0 | []]] eqn:Hv.
  - exfalso.
    destruct (submit_cases installedDate createdAt lastUpdateNow f s)
      as [(e1 & He1 & Hc1) | [(He1 & _) | (He1 & _)]];
      rewrite He1 in Hfirst; simplify_eq.
    + destruct Hc1 as [Hc1 | [Hc1 | ->]]; [congruence | congruence |].
      cbn in Hclass. discriminate Hclass.
    + unfold Register.submit in He1. unfold Db.bind at 1 in He1.
      rewrite Hv in He1. simplify_eq.
      apply validateForm_errors in Hv. cbn in Hv. destruct Hv; discriminate.
  - destruct (validateForm_passes f s s0 Hv) as (-> & Hne & _ & _).
    destruct (submit_cases installedDate createdAt lastUpdateNow f s)
      as [(e1 & He1 & Hc1) | [(He1 & _) | (He1 & _)]];
      rewrite He1 in Hfirst.
    + simplify_eq.
      destruct Hc1 as [Hc1 | [Hc1 | ->]]; [congruence | congruence |].
      cbn in Hclass. discriminate Hclass.
    + discriminate Hfirst.
    + simplify_eq.
      unfold Register.handleSubmit, Register.submit. unfold Db.bind at 1.
      rewrite validateForm_duplicate; [reflexivity |].
      rewrite Hid. now apply node_exists_insert.
Qed.

Lemma register_retry_after_verification_error_witness :
  Register.handleSubmit Sample.form1 Sample.installedDate Sample.now Sample.now
    (fst (Register.handleSubmit Sample.form_equator Sample.installedDate
            Sample.now Sample.now Db.empty))
  = (fst (Register.handleSubmit Sample.form_equator Sample.installedDate
            Sample.now Sample.now Db.empty),
     Register.MsgError Register.NodeIdExists).
Proof.
  apply (register_retry_after_verification_error
           Sample.form_equator Sample.form1 Sample.installedDate
           Sample.installedDate Sample.now Sample.now Sample.now Sample.now
           Db.empty _ Register.CoordinatesMissing).
  - vm_compute. reflexivity.
  - reflexivity.
  - reflexivity.
Defined.

(** X6.  A node that has just been registered has never reported, yet its
    record carries the registration time as last update and [offline] as
    status.  Until that time is five minutes old the shared classifier
    and the home page classifier call the node online; the dashboard
    page, which looks at the stored status first, calls it offline at
    any time. *)
Theorem fresh_node_status (f : Register.FormData) (lat lon : Js.number)
        (alt : Js.value) (installedDate : string)
        (createdAt lastUpdateNow now : Z) :
  0 <= lastUpdateNow ->
  now - 1000 * (lastUpdateNow / 1000) < minutes 5 ->
  let node := Register.nodeData f lat lon alt installedDate createdAt
                                lastUpdateNow in
  Utils.getNodeStatus now (HomeStats.lastUpdate_of node) = online
  /\ HomePage.getNodeStatus now (HomeStats.lastUpdate_of node) = online
  /\ forall later : Z, DashboardStatus.getNodeStatus later node = offline.
Proof.
  intros Hpos Hrecent node. subst node.
  assert (Hsec : 0 <= lastUpdateNow / 1000) by (apply Z.div_pos; lia).
  cbn [Register.nodeData HomeStats.lastUpdate_of Db.realtime Db.rt_lastUpdate].
  rewrite utils_status_sec, home_status_sec by done.
  assert (Hlt : (now - lastUpdateNow / 1000 * 1000 <? minutes 5) = true).
  { apply Z.ltb_lt. lia. }
  rewrite Hlt. split; [reflexivity |]. split; [reflexivity |].
  intros later. unfold DashboardStatus.getNodeStatus.
  cbn [Register.nodeData Db.realtime Db.rt_lastUpdate Db.rt_status].
  rewrite truthy_toString by done. reflexivity.
Qed.

Lemma fresh_node_status_witness :
  Utils.getNodeStatus (Sample.now + 1000)
                      (HomeStats.lastUpdate_of Sample.node1) = online
  /\ DashboardStatus.getNodeStatus (Sample.now + 1000) Sample.node1 = offline.
Proof.
  destruct (fresh_node_status Sample.form1 (Js.Fin (286139 # 10000))
              (Js.Fin (772090 # 10000)) Js.VNull Sample.installedDate
              Sample.now Sample.now (Sample.now + 1000))
    as (Hu & _ & Hd).
  - vm_compute. discriminate.
  - vm_compute. reflexivity.
  - split; [exact Hu | apply Hd].
Defined.

(** ** The list of taken identifiers and the map *)

Section TakenIdentifiers.

Lemma validNode_hasCoordinates (nodeId : string) (node : Db.Node) :
  DashboardMap.validNode node = true ->
  ExistingNodes.hasCoordinates (ExistingNodes.entry nodeId node) = true.
Proof.
  unfold DashboardMap.validNode, ExistingNodes.entry.
  cbn [ExistingNodes.hasCoordinates].
  destruct (Db.metadata node) as [metadata |]; [| done].
  intros H. apply andb_prop in H as [H _]. now apply andb_prop in H as [H _].
Qed.

End TakenIdentifiers.

(** X7.  The registration page lists every stored node once, under its
    identifier, and a node it flags as lacking coordinates is never drawn
    on the dashboard map: a drawn node is always flagged as having
    them. *)
Theorem existing_nodes_list (nodes : gmap string Db.Node) :
  map ExistingNodes.id (ExistingNodes.checkExistingNodes nodes) = Js.keys nodes
  /\ NoDup (map ExistingNodes.id (ExistingNodes.checkExistingNodes nodes))
  /\ (forall e, e ∈ ExistingNodes.checkExistingNodes nodes
                <-> exists node, nodes !! ExistingNodes.id e = Some node
                                 /\ e = ExistingNodes.entry (ExistingNodes.id e) node)
  /\ (forall nodeId node,
         nodes !! nodeId = Some node ->
         ExistingNodes.hasCoordinates (ExistingNodes.entry nodeId node) = false ->
         node ∉ visible_nodes nodes).
Proof.
  assert (Hids : map ExistingNodes.id (ExistingNodes.checkExistingNodes nodes)
                 = Js.keys nodes).
  { unfold ExistingNodes.checkExistingNodes, Js.keys.
    rewrite map_map. apply map_ext. now intros [nodeId node]. }
  split; [exact Hids |]. split; [| split].
  - rewrite Hids. apply NoDup_fst_map_to_list.
  - intros e. unfold ExistingNodes.checkExistingNodes.
    rewrite list_elem_of_In, in_map_iff. split.
    + intros ([nodeId node] & <- & Hin).
      apply list_elem_of_In, elem_of_map_to_list in Hin.
      exists node. done.
    + intros (node & Hnode & He). exists (ExistingNodes.id e, node).
      split; [now rewrite He |].
      now apply list_elem_of_In, elem_of_map_to_list.
  - intros nodeId node _ Hflag Hvis.
    apply elem_of_visible_nodes in Hvis as (_ & _ & Hvalid).
    apply (validNode_hasCoordinates nodeId) in Hvalid. congruence.
Qed.

Lemma existing_nodes_list_witness :
  Register.nodeData Sample.form_equator (Js.of_Z 0) (Js.Fin (772090 # 10000))
                    Js.VNull Sample.installedDate Sample.now Sample.now
  ∉ visible_nodes
      (Db.nodes (fst (Register.handleSubmit Sample.form_equator
                        Sample.installedDate Sample.now Sample.now Db.empty))).
Proof.
  destruct (existing_nodes_list
              (Db.nodes (fst (Register.handleSubmit Sample.form_equator
                                Sample.installedDate Sample.now Sample.now
                                Db.empty)))) as (_ & _ & _ & Hflag).
  apply (Hflag "node1").
  - vm_compute. reflexivity.
  - reflexivity.
Defined.

(** ** Markers *)

Section Markers.

Lemma elem_of_markers (nodes : list Db.Node) (p : Js.number * Js.number) :
  p ∈ DashboardMap.markers nodes
  <-> exists node metadata,
      node ∈ nodes /\ DashboardMap.validNode node = true
      /\ Db.metadata node = Some metadata
      /\ p = (Js.ToNumber (Db.md_latitude metadata),
              Js.ToNumber (Db.md_longitude metadata)).
Proof.
  unfold DashboardMap.markers, DashboardMap.validNodes.
  rewrite list_elem_of_omap. split.
  - intros (node & Hin & Hp).
    apply list_elem_of_In, filter_In in Hin as [Hin Hvalid].
    apply list_elem_of_In in Hin.
    destruct (Db.metadata node) as [metadata |] eqn:Hmd; [| discriminate Hp].
    cbn in Hp. injection Hp as <-. now exists node, metadata.
  - intros (node & metadata & Hin & Hvalid & Hmd & ->). exists node. split.
    + apply list_elem_of_In, filter_In. split; [| done].
      now apply list_elem_of_In.
    + now rewrite Hmd.
Qed.

Lemma length_markers (nodes : list Db.Node) :
  length (DashboardMap.markers nodes)
  = length (DashboardMap.validNodes nodes).
Proof.
  unfold DashboardMap.markers, DashboardMap.validNodes.
  induction nodes as [| node nodes IH]; [reflexivity |].
  cbn [List.filter]. destruct (DashboardMap.validNode node) eqn:Hvalid;
    [| exact IH].
  unfold DashboardMap.validNode in Hvalid.
  destruct (Db.metadata node) as [metadata |] eqn:Hmd; [| discriminate].
  cbn [omap list_omap]. rewrite Hmd. cbn [mbind option_bind length].
  f_equal. exact IH.
Qed.

End Markers.

(** X8.  The map component draws one marker for each node that passes
    its filter, and no marker has a [NaN] coordinate, whatever list the
    component is given.  On the list the dashboard page hands over, every
    marker lies at a finite, non-zero latitude in [-90, 90] and a finite,
    non-zero longitude in [-180, 180]. *)
Theorem markers_positions (nodes : list Db.Node) (data : gmap string Db.Node)
        (p : Js.number * Js.number) :
  length (DashboardMap.markers nodes) = length (DashboardMap.validNodes nodes)
  /\ (p ∈ DashboardMap.markers nodes ->
      Js.num_isNaN (fst p) = false /\ Js.num_isNaN (snd p) = false)
  /\ (p ∈ DashboardMap.markers (DashboardPage.nodeArray data) ->
      exists lat lon : Q,
        p = (Js.Fin lat, Js.Fin lon)
        /\ (inject_Z (-90) <= lat /\ lat <= inject_Z 90)%Q
        /\ (inject_Z (-180) <= lon /\ lon <= inject_Z 180)%Q
        /\ ~ (lat == 0)%Q /\ ~ (lon == 0)%Q).
Proof.
  split; [apply length_markers |]. split.
  - intros (node & metadata & _ & Hvalid & Hmd & ->)%elem_of_markers.
    unfold DashboardMap.validNode in Hvalid. rewrite Hmd in Hvalid.
    apply andb_prop in Hvalid as [Hvalid Hn2].
    apply andb_prop in Hvalid as [Hvalid Hn1].
    apply negb_true_iff in Hn1, Hn2. unfold Js.isNaN in Hn1, Hn2.
    cbn [fst snd]. done.
  - intros (node & metadata & Hin & Hvalid & Hmd & ->)%elem_of_markers.
    unfold DashboardPage.nodeArray in Hin.
    apply list_elem_of_In, filter_In in Hin as [_ Hcheck].
    apply bool_decide_eq_true, check_none_iff in Hcheck
      as (lat & lon & Hc & Hlat & Hlon).
    apply (validNode_finite node lat lon Hc) in Hvalid as [Hz1 Hz2].
    exists lat, lon. repeat split; try tauto.
    unfold coordinates in Hc. rewrite Hmd in Hc.
    destruct (Db.md_latitude metadata) as [| | b | [| | | lat'] | str];
      try discriminate.
    destruct (Db.md_longitude metadata) as [| | b' | [| | | lon'] | str'];
      try discriminate.
    injection Hc as -> ->. reflexivity.
Qed.

Lemma markers_positions_witness :
  Js.num_isNaN (Js.Fin (286139 # 10000)) = false
  /\ Js.num_isNaN (Js.Fin (772090 # 10000)) = false.
Proof.
  destruct (markers_positions [Sample.node1] ∅
              (Js.Fin (286139 # 10000), Js.Fin (772090 # 10000)))
    as (_ & Hnan & _).
  apply Hnan. vm_compute. constructor.
Defined.

(** ** The SMS endpoint: status and dispatch *)

Section SmsDispatch.

Variable env : SmsRoute.Env.




End SmsDispatch.





(** ** Deleting a node *)

(** X11.  Deleting a node removes its whole subtree, the back-references
    to alerts included, and nothing else under [nodes/]; the identifier is
    free again, so a registration under it is not refused as a duplicate.
    The alerts and the contacts are left as they are: an alert that names
    the node among its affected nodes still names it, and a contact
    associated with it is still a recipient for it.  One [node_deletion]
    entry is logged. *)
Theorem delete_node_leaves_references
        (nodeToDelete : string) (log_tick : Utils.Tick) (now : Z)
        (s : Db.Store) :
  nodeToDelete <> "" ->
  let s' := Admin.handleDeleteNode nodeToDelete log_tick now s in
  Db.nodes s' = delete nodeToDelete (Db.nodes s)
  /\ Db.node_exists s' nodeToDelete = false
  /\ (forall (f : Register.FormData) (installedDate : string)
             (createdAt lastUpdateNow : Z),
         Register.nodeId f = nodeToDelete ->
         snd (Register.handleSubmit f installedDate createdAt lastUpdateNow s')
         <> Register.MsgError Register.NodeIdExists)
  /\ Db.alerts s' = Db.alerts s
  /\ (forall affected : list string,
         Admin.computeRecipients (Db.contacts s') affected
         = Admin.computeRecipients (Db.contacts s) affected)
  /\ (exists entry,
         Db.logs s' !! Utils.generateId "log" log_tick = Some entry
         /\ Db.log_type entry = "node_deletion"
         /\ Db.log_timestamp entry = now).
Proof.
  intros Hid s'. subst s'.
  assert (Hgone :
    Db.node_exists (Admin.handleDeleteNode nodeToDelete log_tick now s)
                   nodeToDelete = false).
  { unfold Db.node_exists. apply String.eqb_neq in Hid. rewrite Hid.
    cbn [Admin.handleDeleteNode Db.put_log Db.set_logs Db.set_nodes Db.nodes].
    now rewrite lookup_delete_eq. }
  split; [reflexivity |]. split; [exact Hgone |]. split; [| split; [| split]].
  - intros f installedDate createdAt lastUpdateNow Hf.
    unfold Register.handleSubmit, Register.submit. unfold Db.bind at 1.
    destruct (Register.validateForm f _) as [s0 [e | []]] eqn:Hv.
    + cbn [snd]. intros [= ->].
      revert Hv. unfold Register.validateForm. run_action.
      rewrite Hf, Hgone.
      repeat match goal with
             | |- context [if ?b then _ else _] => destruct b
             end; discriminate.
    + match goal with
      | |- snd (let (_, _) := ?x in _) <> _ =>
          destruct x as [s1 [e | []]] eqn:Hrest
      end; cbn [snd]; [| discriminate].
      intros [= ->]. revert Hrest. run_action.
      repeat match goal with
             | |- context [if ?b then _ else _] => destruct b
             | |- context [match ?o with Some _ => _ | None => _ end] =>
                 destruct o
             end; discriminate.
  - reflexivity.
  - reflexivity.
  - cbn [Admin.handleDeleteNode Db.put_log Db.set_logs Db.set_nodes Db.logs
         Db.log_id].
    eexists. split; [apply lookup_insert_eq |]. split; reflexivity.
Qed.

Lemma delete_node_leaves_references_witness :
  Db.node_exists
    (Admin.handleDeleteNode "node1" (Utils.mkTick Sample.now "z1y2x3w4v")
                            Sample.now Sample.store2) "node1" = false
  /\ Admin.computeRecipients
       (Db.contacts
          (Admin.handleDeleteNode "node1" (Utils.mkTick Sample.now "z1y2x3w4v")
                                  Sample.now Sample.store2)) ["node1"]
     = Admin.computeRecipients (Db.contacts Sample.store2) ["node1"].
Proof.
  destruct (delete_node_leaves_references "node1"
              (Utils.mkTick Sample.now "z1y2x3w4v") Sample.now Sample.store2)
    as (_ & Hgone & _ & _ & Hrec & _); [discriminate |].
  split; [exact Hgone | apply Hrec].
Defined.

(** ** Acknowledging, counting and listing alerts *)

(** X12.  An acknowledgement is an update of three fields of one alert.
    The other alerts, the alert's own message, severity, time stamp,
    affected nodes and recipients, and everything under [nodes/] stay as
    they are, so the back-references the nodes hold still say
    [acknowledged: false].  Acknowledging an identifier under which there
    is no alert creates a record that has the three fields and no others.
    A second acknowledgement only moves the time of acknowledgement. *)
Theorem acknowledge_is_an_update
        (alertId : string) (now later : Z) (s : Db.Store) :
  let s' := AlertsPage.handleAcknowledge alertId now s in
  (forall other, other <> alertId ->
                 Db.alerts s' !! other = Db.alerts s !! other)
  /\ (forall r nodeId, linked alertId r nodeId (Db.nodes s) ->
                       linked alertId r nodeId (Db.nodes s'))
  /\ (forall a, Db.alerts s !! alertId = Some a ->
        exists a', Db.alerts s' !! alertId = Some a'
          /\ Db.al_message a' = Db.al_message a
          /\ Db.al_severity a' = Db.al_severity a
          /\ Db.al_timestamp a' = Db.al_timestamp a
          /\ Db.al_affectedNodes a' = Db.al_affectedNodes a
          /\ Db.al_recipients a' = Db.al_recipients a
          /\ Db.al_acknowledged a' = Some true
          /\ Db.al_acknowledgedAt a' = Some now)
  /\ (Db.alerts s !! alertId = None ->
        exists a', Db.alerts s' !! alertId = Some a'
          /\ Db.al_message a' = None /\ Db.al_severity a' = None
          /\ Db.al_timestamp a' = None /\ Db.al_affectedNodes a' = []
          /\ Db.al_acknowledged a' = Some true)
  /\ AlertsPage.handleAcknowledge alertId later s'
     = AlertsPage.handleAcknowledge alertId later s.
Proof.
  intros s'. subst s'.
  unfold AlertsPage.handleAcknowledge, AlertsPage.acknowledge.
  cbn [Db.set_alerts Db.alerts Db.nodes].
  split; [| split; [| split; [| split]]].
  - intros other Hne. now rewrite lookup_insert_ne.
  - intros r nodeId Hl. exact Hl.
  - intros a Ha. rewrite Ha. eexists. rewrite lookup_insert_eq.
    split; [reflexivity |]. cbn. repeat split.
  - intros Ha. rewrite Ha. eexists. rewrite lookup_insert_eq.
    split; [reflexivity |]. cbn. repeat split.
  - unfold Db.set_alerts.
    cbn [Db.alerts Db.nodes Db.contacts Db.logs Db.notifications].
    rewrite lookup_insert_eq, insert_insert_eq. reflexivity.
Qed.

Lemma acknowledge_is_an_update_witness :
  exists a',
    Db.alerts (AlertsPage.handleAcknowledge "alert_9" Sample.now Db.empty)
    !! "alert_9" = Some a'
    /\ Db.al_message a' = None /\ Db.al_severity a' = None
    /\ Db.al_timestamp a' = None /\ Db.al_affectedNodes a' = []
    /\ Db.al_acknowledged a' = Some true.
Proof.
  destruct (acknowledge_is_an_update "alert_9" Sample.now Sample.now Db.empty)
    as (_ & _ & _ & Hnew & _).
  apply Hnew. reflexivity.
Defined.

Section Counting.

Lemma length_filter_Permutation {A} (p : A -> bool) (l l' : list A) :
  l ≡ₚ l' -> length (List.filter p l) = length (List.filter p l').
Proof.
  induction 1 as [| x l l' _ IH | x y l | l l' l'' _ IH1 _ IH2];
    cbn [List.filter].
  - reflexivity.
  - destruct (p x); cbn [length]; now rewrite IH.
  - destruct (p x), (p y); reflexivity.
  - now rewrite IH1.
Qed.

Lemma activeAlerts_insert_fresh (data : gmap string Db.Alert) (id : string)
      (a : Db.Alert) :
  data !! id = None ->
  HomeStats.activeAlerts (<[id := a]> data)
  = (HomeStats.counts a + HomeStats.activeAlerts data)%nat.
Proof.
  intros Hfresh. unfold HomeStats.activeAlerts, Js.values, HomeStats.counts.
  rewrite (length_filter_Permutation _ _ ((id, a) :: map_to_list data).*2).
  - cbn [fmap list_fmap snd List.filter].
    now destruct (AlertsList.is_acknowledged a).
  - now rewrite map_to_list_insert.
Qed.

Lemma activeAlerts_insert (data : gmap string Db.Alert) (id : string)
      (a : Db.Alert) :
  HomeStats.activeAlerts (<[id := a]> data)
  = (HomeStats.counts a + HomeStats.activeAlerts (delete id data))%nat.
Proof.
  rewrite <- insert_delete_eq. apply activeAlerts_insert_fresh.
  apply lookup_delete_eq.
Qed.

Lemma activeAlerts_lookup (data : gmap string Db.Alert) (id : string)
      (a : Db.Alert) :
  data !! id = Some a ->
  HomeStats.activeAlerts data
  = (HomeStats.counts a + HomeStats.activeAlerts (delete id data))%nat.
Proof.
  intros Ha. rewrite <- (insert_delete_id data id a Ha) at 1.
  apply activeAlerts_insert_fresh, lookup_delete_eq.
Qed.

End Counting.

(** X13.  The home page's count of active alerts goes down by one when an
    alert that was not acknowledged is acknowledged, stays the same when
    the alert had been acknowledged already or does not exist, and goes
    up by one when a manual alert is sent under a fresh identifier. *)
Theorem active_alert_counter
        (alertId : string) (now : Z) (s : Db.Store)
        (f : AlertsPage.ManualAlertForm) (id_tick : Utils.Tick) (sent : Z) :
  let count := HomeStats.activeAlerts (Db.alerts s) in
  let acknowledged :=
    HomeStats.activeAlerts
      (Db.alerts (AlertsPage.handleAcknowledge alertId now s)) in
  (forall a, Db.alerts s !! alertId = Some a ->
             AlertsList.is_acknowledged a = false ->
             S acknowledged = count)
  /\ ((forall a, Db.alerts s !! alertId = Some a ->
                 AlertsList.is_acknowledged a = true) ->
      acknowledged = count)
  /\ (Db.alerts s !! Utils.generateId "alert" id_tick = None ->
      HomeStats.activeAlerts
        (Db.alerts (AlertsPage.handleSendManualAlert f id_tick sent s))
      = S count).
Proof.
  intros count acknowledged. subst count acknowledged.
  unfold AlertsPage.handleAcknowledge, AlertsPage.acknowledge,
    AlertsPage.handleSendManualAlert.
  cbn [Db.set_alerts Db.alerts].
  split; [| split].
  - intros a Ha Hack. rewrite activeAlerts_insert.
    rewrite (activeAlerts_lookup (Db.alerts s) alertId a Ha).
    unfold HomeStats.counts. rewrite Hack. reflexivity.
  - intros Hack. rewrite activeAlerts_insert.
    destruct (Db.alerts s !! alertId) as [a |] eqn:Ha.
    + rewrite (activeAlerts_lookup (Db.alerts s) alertId a Ha).
      unfold HomeStats.counts. rewrite (Hack a eq_refl). reflexivity.
    + now rewrite delete_id.
  - intros Hfresh. now rewrite activeAlerts_insert_fresh.
Qed.

Lemma active_alert_counter_witness :
  HomeStats.activeAlerts
    (Db.alerts (AlertsPage.handleSendManualAlert
                  (AlertsPage.mkManualForm "node1" "warning" "Rising water")
                  (Utils.mkTick Sample.now "m4n5o6p7q") Sample.now
                  Sample.store_acknowledged))
  = S (HomeStats.activeAlerts (Db.alerts Sample.store_acknowledged)).
Proof.
  destruct (active_alert_counter "alert_1" Sample.now Sample.store_acknowledged
              (AlertsPage.mkManualForm "node1" "warning" "Rising water")
              (Utils.mkTick Sample.now "m4n5o6p7q") Sample.now)
    as (_ & _ & Hsent).
  apply Hsent. vm_compute. reflexivity.
Defined.

Section Tabs.

Lemma is_acknowledged_with_id (id : string) (a : Db.Alert) :
  AlertsList.is_acknowledged (AlertsList.with_id id a)
  = AlertsList.is_acknowledged a.
Proof. reflexivity. Qed.

Lemma length_filter_entries (p : Db.Alert -> bool)
      (l : list (string * Db.Alert)) :
  (forall id a, p (AlertsList.with_id id a) = p a) ->
  length (List.filter p (map (fun '(id, alert) => AlertsList.with_id id alert) l))
  = length (List.filter p l.*2).
Proof.
  intros Hp. induction l as [| [id a] l IH]; [reflexivity |].
  cbn [map fmap list_fmap List.filter snd]. rewrite Hp.
  destruct (p a); cbn [length]; now rewrite IH.
Qed.

Lemma length_filter_split {A} (p : A -> bool) (l : list A) :
  (length (List.filter (fun x => negb (p x)) l) + length (List.filter p l)
   = length l)%nat.
Proof.
  induction l as [| x l IH]; [reflexivity |].
  cbn [List.filter]. destruct (p x); cbn [negb length]; lia.
Qed.

Lemma filter_true {A} (l : list A) : List.filter (fun _ => true) l = l.
Proof.
  induction l as [| x l IH]; [reflexivity |]. cbn. now rewrite IH.
Qed.

End Tabs.

(** X14.  On the alerts page, whatever order the page has sorted its
    array into, the Active tab holds as many alerts as the home page
    counts as active; the Active and the Acknowledged tab share no alert
    and together hold every alert; any other tab value shows them all. *)
Theorem alert_tabs (data : gmap string Db.Alert) (shown : list Db.Alert)
        (tab : string) :
  shown ≡ₚ AlertsList.entries data ->
  length (AlertsList.filteredAlerts shown "active")
  = HomeStats.activeAlerts data
  /\ (length (AlertsList.filteredAlerts shown "active")
      + length (AlertsList.filteredAlerts shown "acknowledged")
      = length shown)%nat
  /\ (forall a, a ∈ AlertsList.filteredAlerts shown "active" ->
                a ∉ AlertsList.filteredAlerts shown "acknowledged")
  /\ (tab <> "active" -> tab <> "acknowledged" ->
      AlertsList.filteredAlerts shown tab = shown).
Proof.
  intros Hperm. unfold AlertsList.filteredAlerts.
  cbn [String.eqb Ascii.eqb Bool.eqb andb].
  split; [| split; [| split]].
  - rewrite (length_filter_Permutation _ _ _ Hperm).
    unfold AlertsList.entries, HomeStats.activeAlerts, Js.values.
    now apply length_filter_entries.
  - apply length_filter_split.
  - intros a Ha Hb.
    apply list_elem_of_In, filter_In in Ha as [_ Ha].
    apply list_elem_of_In, filter_In in Hb as [_ Hb].
    rewrite Hb in Ha. discriminate Ha.
  - intros H1 H2. apply String.eqb_neq in H1, H2. rewrite H1, H2.
    apply filter_true.
Qed.

Lemma alert_tabs_witness :
  length (AlertsList.filteredAlerts
            (AlertsList.entries (Db.alerts Sample.store_acknowledged))
            "active")
  = HomeStats.activeAlerts (Db.alerts Sample.store_acknowledged).
Proof.
  destruct (alert_tabs (Db.alerts Sample.store_acknowledged)
              (AlertsList.entries (Db.alerts Sample.store_acknowledged))
              "all") as (Hcount & _); [reflexivity |].
  exact Hcount.
Defined.

(** ** Manual alerts and contacts *)

Section ManualAlerts.

(** The alerts page's contact test for one node is the panel's test for
    the selection that holds just that node. *)
Lemma includes_singleton (assoc : list string) (nodeId : string) :
  Js.includes assoc nodeId
  = Js.some (fun n => Js.includes [nodeId] n) assoc.
Proof.
  unfold Js.includes, Js.some.
  induction assoc as [| n assoc IH]; [reflexivity |].
  cbn [existsb]. rewrite IH, orb_false_r. f_equal. apply String.eqb_sym.
Qed.

Lemma filter_ext_bool {A} (p q : A -> bool) (l : list A) :
  (forall x, p x = q x) -> List.filter p l = List.filter q l.
Proof.
  intros H. induction l as [| x l IH]; [reflexivity |].
  cbn [List.filter]. now rewrite H, IH.
Qed.

Lemma elem_of_computeRecipients (contacts : gmap string Db.Contact)
      (affected : list string) (c : Db.Contact) :
  c ∈ Admin.computeRecipients contacts affected
  <-> (exists id, contacts !! id = Some c)
      /\ intersects (Db.ct_associatedNodes c) affected.
Proof.
  rewrite computeRecipients_filter, list_elem_of_filter, elem_of_values.
  tauto.
Qed.

End ManualAlerts.

(** X15.  A manual alert sent from the alerts page is recorded under a
    generated identifier, unacknowledged and marked as not sent by SMS.
    Its recipients are the phone numbers the analytical panel would
    compute for a selection that holds just the alert's node.  Nothing
    else is written: no back-reference under [nodes/], no log entry, no
    notification, and no other alert changes. *)
Theorem manual_alert_is_recorded_only
        (f : AlertsPage.ManualAlertForm) (id_tick : Utils.Tick) (now : Z)
        (s : Db.Store) :
  let s' := AlertsPage.handleSendManualAlert f id_tick now s in
  let alertId := Utils.generateId "alert" id_tick in
  (exists a,
      Db.alerts s' !! alertId = Some a
      /\ Db.al_nodeId a = Some (AlertsPage.nodeId f)
      /\ Db.al_recipients a
         = map Db.ct_phone
               (Admin.computeRecipients (Db.contacts s) [AlertsPage.nodeId f])
      /\ Db.al_acknowledged a = Some false
      /\ Db.al_sentSMS a = Some false)
  /\ (forall other, other <> alertId ->
                    Db.alerts s' !! other = Db.alerts s !! other)
  /\ Db.nodes s' = Db.nodes s
  /\ Db.logs s' = Db.logs s
  /\ Db.notifications s' = Db.notifications s.
Proof.
  intros s' alertId. subst s' alertId.
  unfold AlertsPage.handleSendManualAlert.
  cbn [Db.set_alerts Db.alerts Db.nodes Db.logs Db.notifications].
  split; [| split; [| done]].
  - eexists. rewrite lookup_insert_eq. split; [reflexivity |].
    cbn [Db.al_nodeId Db.al_recipients Db.al_acknowledged Db.al_sentSMS].
    split; [reflexivity |]. split; [| done].
    unfold Admin.computeRecipients. cbn [length Nat.eqb].
    f_equal. apply filter_ext_bool. intros c. apply includes_singleton.
  - intros other Hne. now rewrite lookup_insert_ne.
Qed.

(** X16.  A contact added with a valid phone number and associated with a
    node becomes a recipient of every alert whose affected nodes include
    one of its nodes, under its formatted phone number; the other
    contacts are left as they are. *)
Theorem added_contact_becomes_recipient
        (f : Contacts.FormData) (id_tick : Utils.Tick)
        (createdAt lastUpdated : Z) (s : Db.Store) (affected : list string) :
  Utils.isValidPhoneNumber (Contacts.phone f) = true ->
  intersects (Contacts.associatedNodes f) affected ->
  let contactId := Utils.generateId "contact" id_tick in
  let s' := fst (Contacts.handleSubmit f id_tick createdAt lastUpdated s) in
  Contacts.contactData f contactId createdAt lastUpdated
    ∈ Admin.computeRecipients (Db.contacts s') affected
  /\ Utils.formatPhoneNumber (Contacts.phone f)
       ∈ map Db.ct_phone (Admin.computeRecipients (Db.contacts s') affected)
  /\ (forall other, other <> contactId ->
                    Db.contacts s' !! other = Db.contacts s !! other).
Proof.
  intros Hvalid Hint contactId s'. subst contactId s'.
  unfold Contacts.handleSubmit, Contacts.submit. run_action.
  rewrite Hvalid. cbn [negb fst Db.set_contacts Db.contacts].
  assert (Hin :
    Contacts.contactData f (Utils.generateId "contact" id_tick) createdAt
                         lastUpdated
    ∈ Admin.computeRecipients
        (<[Utils.generateId "contact" id_tick :=
             Contacts.contactData f (Utils.generateId "contact" id_tick)
                                  createdAt lastUpdated]> (Db.contacts s))
        affected).
  { apply elem_of_computeRecipients. split; [| exact Hint].
    eexists. apply lookup_insert_eq. }
  split; [exact Hin |]. split.
  - apply list_elem_of_In, in_map_iff. eexists. split; [| apply list_elem_of_In, Hin].
    reflexivity.
  - intros other Hne. now rewrite lookup_insert_ne.
Qed.

Lemma added_contact_becomes_recipient_witness :
  "+919876543210"
    ∈ map Db.ct_phone
          (Admin.computeRecipients
             (Db.contacts
                (fst (Contacts.handleSubmit
                        (Contacts.mkForm "Asha" "98765 43210" "" ["node1"] "sms")
                        (Utils.mkTick Sample.now "c1d2e3f4g") Sample.now
                        Sample.now Sample.store1)))
             ["node1"; "node2"]).
Proof.
  destruct (added_contact_becomes_recipient
              (Contacts.mkForm "Asha" "98765 43210" "" ["node1"] "sms")
              (Utils.mkTick Sample.now "c1d2e3f4g") Sample.now Sample.now
              Sample.store1 ["node1"; "node2"]) as (_ & Hphone & _).
  - reflexivity.
  - apply (bool_decide_unpack _). vm_compute. exact I.
  - exact Hphone.
Defined.

(** X17.  Deleting a contact removes it from the recipients of every
    alert and adds nobody; deleting a contact that has just been added
    under a fresh identifier gives back the store as it was. *)
Theorem contact_add_delete_round_trip
        (f : Contacts.FormData) (id_tick : Utils.Tick)
        (createdAt lastUpdated : Z) (s : Db.Store) (contactId : string) :
  (forall affected c,
      c ∈ Admin.computeRecipients
            (Db.contacts (fst (Contacts.handleDelete contactId s))) affected ->
      c ∈ Admin.computeRecipients (Db.contacts s) affected)
  /\ Db.contacts (fst (Contacts.handleDelete contactId s)) !! contactId = None
  /\ (Db.contacts s !! Utils.generateId "contact" id_tick = None ->
      fst (Contacts.handleDelete (Utils.generateId "contact" id_tick)
             (fst (Contacts.handleSubmit f id_tick createdAt lastUpdated s)))
      = s).
Proof.
  cbn [Contacts.handleDelete fst Db.set_contacts Db.contacts].
  split; [| split].
  - intros affected c [[id Hid] Hint]%elem_of_computeRecipients.
    apply elem_of_computeRecipients. split; [| exact Hint].
    apply lookup_delete_Some in Hid as [_ Hid]. now exists id.
  - apply lookup_delete_eq.
  - intros Hfresh. unfold Contacts.handleSubmit, Contacts.submit. run_action.
    destruct (negb _); unfold Db.set_contacts;
      cbn [fst Db.contacts Db.nodes Db.alerts Db.logs Db.notifications].
    + rewrite delete_id by done. now destruct s.
    + rewrite delete_insert_id by done. now destruct s.
Qed.

Lemma contact_add_delete_round_trip_witness :
  fst (Contacts.handleDelete
         (Utils.generateId "contact" (Utils.mkTick Sample.now "c1d2e3f4g"))
         (fst (Contacts.handleSubmit
                 (Contacts.mkForm "Asha" "98765 43210" "" ["node1"] "sms")
                 (Utils.mkTick Sample.now "c1d2e3f4g") Sample.now Sample.now
                 Sample.store1)))
  = Sample.store1.
Proof.
  destruct (contact_add_delete_round_trip
              (Contacts.mkForm "Asha" "98765 43210" "" ["node1"] "sms")
              (Utils.mkTick Sample.now "c1d2e3f4g") Sample.now Sample.now
              Sample.store1 "contact_0") as (_ & _ & Hround).
  apply Hround. vm_compute. reflexivity.
Defined.

(** ** Cleaning up old readings *)

Section CleaningUp.

Variable cutoff : Js.number.

Lemma size_kept_removed (h : gmap string Db.Reading) :
  size h = (size (Cleanup.kept cutoff h) + Cleanup.removed cutoff h)%nat.
Proof.
  unfold Cleanup.kept, Cleanup.removed.
  rewrite <- (map_filter_union_complement
                (fun kv : string * Db.Reading => Cleanup.old cutoff kv.1 = true) h)
    at 1.
  rewrite map_size_disj_union by apply map_disjoint_filter_complement. lia.
Qed.

Lemma removed_zero (h : gmap string Db.Reading) :
  Cleanup.removed cutoff h = 0%nat
  <-> forall k r, h !! k = Some r -> Cleanup.old cutoff k = false.
Proof.
  unfold Cleanup.removed. rewrite map_size_empty_iff, map_empty_filter.
  unfold map_Forall. cbn [fst]. split; intros H k r Hk.
  - apply not_true_is_false. now apply (H k r).
  - rewrite (H k r Hk). discriminate.
Qed.

Lemma lookup_kept (h : gmap string Db.Reading) (k : string) (r : Db.Reading) :
  Cleanup.kept cutoff h !! k = Some r
  <-> h !! k = Some r /\ Cleanup.old cutoff k = false.
Proof.
  unfold Cleanup.kept. rewrite map_lookup_filter_Some. cbn [fst].
  rewrite not_true_iff_false. reflexivity.
Qed.

Lemma kept_all (h : gmap string Db.Reading) :
  Cleanup.removed cutoff h = 0%nat -> Cleanup.kept cutoff h = h.
Proof.
  intros H. apply map_filter_id. intros k r Hk. cbn [fst].
  rewrite (proj1 (removed_zero h) H k r Hk). discriminate.
Qed.

(** What is left of a node that survives. *)
Lemma clean_node_Some (node node' : Db.Node) :
  Cleanup.clean_node cutoff node = Some node' ->
  Db.metadata node' = Db.metadata node
  /\ Db.realtime node' = Db.realtime node
  /\ Db.node_alerts node' = Db.node_alerts node
  /\ Db.history node' = Cleanup.kept cutoff (Db.history node).
Proof.
  unfold Cleanup.clean_node.
  destruct (Nat.eqb_spec (Cleanup.removed cutoff (Db.history node)) 0)
    as [Hz | Hnz].
  - intros [= <-]. now rewrite kept_all.
  - destruct (Db.node_nonempty _); [| discriminate].
    intros [= <-]. done.
Qed.

(** A node that goes had nothing but old readings. *)
Lemma clean_node_None (node : Db.Node) :
  Cleanup.clean_node cutoff node = None ->
  Cleanup.kept cutoff (Db.history node) = ∅.
Proof.
  unfold Cleanup.clean_node.
  destruct (Nat.eqb _ 0); [discriminate |].
  destruct (Db.node_nonempty _) eqn:Hne; [discriminate |]. intros _.
  unfold Db.node_nonempty in Hne. cbn [Db.history] in Hne.
  apply orb_false_elim in Hne as [Hne _].
  apply orb_false_elim in Hne as [_ Hne].
  apply negb_false_iff, bool_decide_eq_true in Hne. exact Hne.
Qed.

Lemma foldl_sum {A} (f : A -> nat) (l : list A) (a : nat) :
  foldl (fun total x => (total + f x)%nat) a l = (a + sum_list_with f l)%nat.
Proof.
  revert a. induction l as [| x l IH]; intros a; cbn [foldl sum_list_with].
  - lia.
  - rewrite IH. lia.
Qed.

Lemma sum_values_insert {A} (f : A -> nat) (m : gmap string A) (i : string)
      (x : A) :
  m !! i = None ->
  sum_list_with f (Js.values (<[i := x]> m))
  = (f x + sum_list_with f (Js.values m))%nat.
Proof.
  intros Hi. unfold Js.values. now rewrite map_to_list_insert.
Qed.

(** The readings before are the readings after and the readings
    removed. *)
Lemma data_points_split (nodes : gmap string Db.Node) :
  HomeStats.totalDataPoints nodes
  = (HomeStats.totalDataPoints (Cleanup.clean cutoff nodes)
     + Cleanup.deletedCount cutoff nodes)%nat.
Proof.
  unfold HomeStats.totalDataPoints, Cleanup.deletedCount.
  rewrite !foldl_sum. cbn [Nat.add].
  induction nodes as [| i x m Hi IH] using map_ind.
  - reflexivity.
  - rewrite !sum_values_insert by done. unfold Cleanup.clean in *.
    assert (Hci : omap (Cleanup.clean_node cutoff) m !! i = None).
    { now rewrite lookup_omap, Hi. }
    rewrite omap_insert.
    pose proof (size_kept_removed (Db.history x)) as Hsplit.
    destruct (Cleanup.clean_node cutoff x) as [y |] eqn:Hx.
    + apply clean_node_Some in Hx as (_ & _ & _ & Hh).
      rewrite sum_values_insert by done. rewrite Hh. lia.
    + apply clean_node_None in Hx. rewrite Hx, map_size_empty in Hsplit.
      rewrite delete_id by done. lia.
Qed.

End CleaningUp.

Section CleaningUpCutoff.

Lemma old_decimal_key (now days t : Z) :
  0 <= t ->
  Cleanup.old (Cleanup.cutoffTime now (Some days)) (Js.toString_Z t)
  = (t <? now - days * 86400000).
Proof.
  intros Ht. unfold Cleanup.old, Cleanup.cutoffTime, Cleanup.days_number.
  rewrite parseInt_toString by done.
  unfold Js.ltb, Js.sub, Js.add, Js.neg, Js.mul, Js.of_Z, Js.Qlt_bool, Qle_bool.
  unfold inject_Z, Qplus, Qopp, Qmult. cbn [Qnum Qden].
  rewrite Z.ltb_antisym. f_equal. f_equal; lia.
Qed.

Lemma old_NaN (now : Z) (key : string) :
  Cleanup.old (Cleanup.cutoffTime now None) key = false.
Proof.
  unfold Cleanup.old, Cleanup.cutoffTime, Cleanup.days_number.
  cbn [Js.mul Js.sub Js.add Js.neg Js.of_Z].
  now destruct (Js.parseInt key).
Qed.

Lemma omap_Some_id {A} (f : A -> option A) (m : gmap string A) :
  (forall x, f x = Some x) -> omap f m = m.
Proof.
  intros Hf. apply map_eq. intros i. rewrite lookup_omap.
  destruct (m !! i) as [x |]; [| reflexivity]. cbn. apply Hf.
Qed.

End CleaningUpCutoff.

(** X18.  The clean-up removes a reading exactly when the [parseInt] of
    its key is below the cut-off, keeps every other reading as it is, and
    leaves the metadata, the realtime record and the back-references of
    every surviving node alone; the count it reports is the drop of the
    home page's data point counter.  A reading keyed by the decimal
    string of [t] goes exactly when [t] is less than [now] minus the
    given number of days in milliseconds, whatever unit the key was
    meant in.  When the number of days is [NaN] nothing is removed, the
    success toast reports 0, and the log entry is refused. *)
Theorem cleanup_old_data (cleanupDays : option Z) (now : Z)
        (log_tick : Utils.Tick) (logged : Z) (s : Db.Store) :
  let cutoff := Cleanup.cutoffTime now cleanupDays in
  let result := Cleanup.handleCleanupOldData cleanupDays now log_tick logged s in
  (forall id node key reading,
      Db.nodes s !! id = Some node ->
      Db.history node !! key = Some reading ->
      (Cleanup.old cutoff key = false
       <-> exists node', Db.nodes (fst result) !! id = Some node'
                         /\ Db.history node' !! key = Some reading))
  /\ (forall id node',
         Db.nodes (fst result) !! id = Some node' ->
         exists node, Db.nodes s !! id = Some node
                      /\ Db.metadata node' = Db.metadata node
                      /\ Db.realtime node' = Db.realtime node
                      /\ Db.node_alerts node' = Db.node_alerts node
                      /\ Db.history node' ⊆ Db.history node)
  /\ HomeStats.totalDataPoints (Db.nodes s)
     = (HomeStats.totalDataPoints (Db.nodes (fst result))
        + Cleanup.deletedCount cutoff (Db.nodes s))%nat
  /\ (forall days t, cleanupDays = Some days -> 0 <= t ->
                     Cleanup.old cutoff (Js.toString_Z t)
                     = (t <? now - days * 86400000))
  /\ (forall days, cleanupDays = Some days ->
        snd result = [Cleanup.ToastCleaned
                        (Cleanup.deletedCount cutoff (Db.nodes s))]
        /\ exists entry,
             Db.logs (fst result) !! Utils.generateId "log" log_tick
             = Some entry
             /\ Db.log_type entry = "data_cleanup")
  /\ (cleanupDays = None ->
      Db.nodes (fst result) = Db.nodes s
      /\ Db.logs (fst result) = Db.logs s
      /\ snd result = [Cleanup.ToastCleaned 0; Cleanup.ToastFailed]).
Proof.
  intros cutoff result.
  assert (Hnodes : Db.nodes (fst result) = Cleanup.clean cutoff (Db.nodes s)).
  { subst result. unfold Cleanup.handleCleanupOldData.
    now destruct cleanupDays. }
  rewrite Hnodes.
  split; [| split; [| split; [| split; [| split]]]].
  - intros id node key reading Hid Hkey. unfold Cleanup.clean.
    setoid_rewrite lookup_omap. rewrite Hid. cbn [mbind option_bind].
    destruct (Cleanup.clean_node cutoff node) as [node' |] eqn:Hc.
    + apply clean_node_Some in Hc as (_ & _ & _ & Hh). split.
      * intros Hold. exists node'. split; [reflexivity |].
        rewrite Hh. now apply lookup_kept.
      * intros (n & [= <-] & Hk). rewrite Hh in Hk.
        now apply lookup_kept in Hk.
    + apply clean_node_None in Hc. split.
      * intros Hold. exfalso.
        assert (Hk : Cleanup.kept cutoff (Db.history node) !! key
                     = Some reading) by now apply lookup_kept.
        rewrite Hc in Hk. now rewrite lookup_empty in Hk.
      * intros (n & [=] & _).
  - intros id node' Hid. unfold Cleanup.clean in Hid.
    apply lookup_omap_Some in Hid as (node & Hc & Hid).
    apply clean_node_Some in Hc as (Hm & Hr & Ha & Hh).
    exists node. repeat split; try done.
    rewrite Hh. apply map_filter_subseteq.
  - apply data_points_split.
  - intros days t -> Ht. now apply old_decimal_key.
  - intros days ->. subst result. cbn [Cleanup.handleCleanupOldData snd fst].
    split; [reflexivity |].
    eexists. split; [apply lookup_insert_eq | reflexivity].
  - intros ->. subst result cutoff.
    cbn [Cleanup.handleCleanupOldData snd fst Db.set_nodes Db.logs].
    assert (Hz : forall h, Cleanup.removed (Cleanup.cutoffTime now None) h
                           = 0%nat).
    { intros h. apply removed_zero. intros k r _. apply old_NaN. }
    split; [| split; [reflexivity |]].
    + apply omap_Some_id. intros node. unfold Cleanup.clean_node.
      now rewrite Hz.
    + do 2 f_equal. unfold Cleanup.deletedCount. rewrite foldl_sum.
      cbn [Nat.add]. induction (Js.values (Db.nodes s)) as [| n l IH];
        [reflexivity |].
      cbn [sum_list_with]. now rewrite Hz, IH.
Qed.

Lemma cleanup_old_data_witness :
  Cleanup.old (Cleanup.cutoffTime Sample.now (Some 30))
              (Js.toString_Z (Sample.now / 1000))
  = true.
Proof.
  destruct (cleanup_old_data (Some 30) Sample.now
              (Utils.mkTick Sample.now "h1i2j3k4l") Sample.now Sample.store1)
    as (_ & _ & _ & Hkey & _).
  rewrite (Hkey 30 (Sample.now / 1000)); [reflexivity | reflexivity |].
  vm_compute. discriminate.
Defined.

(** ** The pages of the node table *)

Section Pages.

Context {A : Type}.

Lemma paginatedNodes_take_drop (l : list A) (p : Z) :
  1 <= p ->
  Pagination.paginatedNodes l p
  = take 10 (drop (10 * Z.to_nat (p - 1)) l).
Proof.
  intros Hp. unfold Pagination.paginatedNodes, Pagination.slice,
    Pagination.nodesPerPage.
  destruct (Z.ltb_spec ((p - 1) * 10) 0) as [? | _]; [lia |].
  destruct (Z.ltb_spec (p * 10) 0) as [? | _]; [lia |].
  destruct (decide (Z.of_nat (length l) <= (p - 1) * 10)) as [Hout | Hin].
  - rewrite !drop_ge by lia. now rewrite !take_nil.
  - replace (Z.to_nat (Z.min ((p - 1) * 10) (Z.of_nat (length l))))
      with (10 * Z.to_nat (p - 1))%nat by lia.
    destruct (decide (p * 10 <= Z.of_nat (length l))) as [Hfull | Hlast].
    + f_equal. lia.
    + rewrite !take_ge; [reflexivity | |]; rewrite length_drop; lia.
Qed.

Lemma chunks_concat (n : nat) :
  forall l : list A,
    (length l <= 10 * n)%nat ->
    concat (map (fun k => take 10 (drop (10 * k) l)) (seq 0 n)) = l.
Proof.
  induction n as [| n IH]; intros l Hl.
  - destruct l; [reflexivity | cbn in Hl; lia].
  - cbn [seq map concat]. rewrite <- seq_shift, map_map.
    rewrite Nat.mul_0_r, drop_0.
    transitivity (take 10 l ++ drop 10 l)%list; [| apply take_drop]. f_equal.
    transitivity
      (concat (map (fun k => take 10 (drop (10 * k) (drop 10 l))) (seq 0 n)));
      [| apply IH; rewrite length_drop; lia].
    f_equal. apply map_ext. intros k. rewrite drop_drop. do 2 f_equal. lia.
Qed.

Lemma totalPages_bounds (l : list A) :
  Z.of_nat (length l) <= 10 * Pagination.totalPages l
  /\ 10 * Pagination.totalPages l < Z.of_nat (length l) + 10.
Proof.
  unfold Pagination.totalPages, Pagination.nodesPerPage.
  pose proof (Z.div_mod (- Z.of_nat (length l)) 10).
  pose proof (Z.mod_pos_bound (- Z.of_nat (length l)) 10). lia.
Qed.

End Pages.

(** X19.  The pages of the node table, taken from the first to the last,
    give back the filtered list: every node is on exactly one page, in
    order.  No page holds more than ten nodes, none of the pages from 1
    to [totalPages] is empty, every page after the last is empty, and the
    Previous and Next buttons keep the current page between 1 and
    [totalPages]. *)
Theorem pagination_covers {A} (filteredNodes : list A) (currentPage : Z) :
  let total := Pagination.totalPages filteredNodes in
  concat (map (fun k => Pagination.paginatedNodes filteredNodes (Z.of_nat k))
              (seq 1 (Z.to_nat total)))
  = filteredNodes
  /\ (length (Pagination.paginatedNodes filteredNodes currentPage) <= 10)%nat
  /\ (1 <= currentPage <= total ->
      Pagination.paginatedNodes filteredNodes currentPage <> []
      /\ 1 <= Pagination.previous currentPage <= total
      /\ 1 <= Pagination.next total currentPage <= total)
  /\ (total < currentPage ->
      Pagination.paginatedNodes filteredNodes currentPage = []).
Proof.
  intros total. subst total.
  pose proof (totalPages_bounds filteredNodes) as [Hlo Hhi].
  split; [| split; [| split]].
  - rewrite <- seq_shift, map_map.
    transitivity
      (concat (map (fun k => take 10 (drop (10 * k) filteredNodes))
                   (seq 0 (Z.to_nat (Pagination.totalPages filteredNodes)))));
      [| apply chunks_concat; lia].
    f_equal. apply map_ext. intros k.
    rewrite paginatedNodes_take_drop by lia. do 3 f_equal. lia.
  - unfold Pagination.paginatedNodes, Pagination.slice,
      Pagination.nodesPerPage.
    rewrite length_take.
    destruct (Z.ltb_spec ((currentPage - 1) * 10) 0);
      destruct (Z.ltb_spec (currentPage * 10) 0); lia.
  - intros Hp. split; [| unfold Pagination.previous, Pagination.next; lia].
    rewrite paginatedNodes_take_drop by lia. intros Hnil.
    apply (f_equal length) in Hnil.
    rewrite length_take, length_drop in Hnil. cbn [length] in Hnil. lia.
  - intros Hp.
    rewrite paginatedNodes_take_drop by lia.
    rewrite drop_ge by lia. apply take_nil.
Qed.

Lemma pagination_covers_witness :
  Pagination.paginatedNodes (seq 0 25) 3 <> []
  /\ Pagination.paginatedNodes (seq 0 25) 4 = [].
Proof.
  destruct (pagination_covers (seq 0 25) 3) as (_ & _ & Hin & _).
  destruct (pagination_covers (seq 0 25) 4) as (_ & _ & _ & Hout).
  split.
  - apply Hin. vm_compute. split; discriminate.
  - apply Hout. reflexivity.
Defined.

(** ** Export, import and reset *)

Section ExportImport.

Lemma with_id_same (key : string) (a : Db.Alert) :
  Db.al_id a = Some key -> AlertsList.with_id key a = a.
Proof.
  destruct a. cbn. intros ->. reflexivity.
Qed.

(** The object built by [reduce] is the map of the pairs, last one
    first. *)
Lemma alerts_by_id_list_to_map (l : list Db.Alert) :
  Backup.alerts_by_id l
  = list_to_map
      (reverse (map (fun a => (default "undefined" (Db.al_id a), a)) l)).
Proof.
  unfold Backup.alerts_by_id.
  induction l as [| x l IH] using rev_ind; [reflexivity |].
  rewrite foldl_app, map_app, reverse_app. cbn [foldl map reverse].
  rewrite IH. reflexivity.
Qed.

(** When every alert carries its key as [id], the page's array, in any
    order, is rebuilt into the [alerts] subtree. *)
Lemma alerts_by_id_entries (data : gmap string Db.Alert)
      (shown : list Db.Alert) :
  shown ≡ₚ AlertsList.entries data ->
  map_Forall (fun key a => Db.al_id a = Some key) data ->
  Backup.alerts_by_id shown = data.
Proof.
  intros Hperm Hid. rewrite alerts_by_id_list_to_map.
  transitivity (list_to_map (map_to_list data) : gmap string Db.Alert);
    [| apply list_to_map_to_list].
  symmetry. apply list_to_map_proper; [apply NoDup_fst_map_to_list |].
  rewrite reverse_Permutation, Hperm. unfold AlertsList.entries.
  rewrite map_map.
  assert (Hsame :
    map (fun x => (default "undefined"
                     (Db.al_id (let '(id, alert) := x in
                                AlertsList.with_id id alert)),
                   let '(id, alert) := x in AlertsList.with_id id alert))
        (map_to_list data)
    = map_to_list data).
  { rewrite <- (map_id (map_to_list data)) at 2.
    apply map_ext_in. intros [key a] Hin.
    apply list_elem_of_In, elem_of_map_to_list in Hin.
    rewrite (with_id_same key a (Hid key a Hin)).
    now rewrite (Hid key a Hin). }
  now rewrite Hsame.
Qed.

End ExportImport.

(** X20.  Importing a file written by the export restores the [nodes],
    [alerts] and [contacts] subtrees as they were at the export, whatever
    the database holds at the import, provided the database held only
    values it can hold and every alert carried its key as [id], as the
    alerts the two alert handlers write do.  The log is not restored:
    apart from the new [data_import] entry it is the log found at the
    import; and the notifications are those found at the import. *)
Theorem export_import_round_trip
        (s current : Db.Store) (shown : list Db.Alert)
        (log_tick : Utils.Tick) (now : Z) :
  shown ≡ₚ AlertsList.entries (Db.alerts s) ->
  map_Forall (fun key a => Db.al_id a = Some key) (Db.alerts s) ->
  map_Forall (fun _ node => Backup.storable_node node) (Db.nodes s) ->
  let restored :=
    Admin.confirmImportData (Backup.handleExportAllData shown s)
                            log_tick now current in
  Db.nodes restored = Db.nodes s
  /\ Db.alerts restored = Db.alerts s
  /\ Db.contacts restored = Db.contacts s
  /\ Db.notifications restored = Db.notifications current
  /\ (forall id, id <> Utils.generateId "log" log_tick ->
                 Db.logs restored !! id = Db.logs current !! id)
  /\ (exists entry,
         Db.logs restored !! Utils.generateId "log" log_tick = Some entry
         /\ Db.log_type entry = "data_import").
Proof.
  intros Hperm Hid Hstorable restored. subst restored.
  unfold Admin.confirmImportData, Backup.handleExportAllData,
    Admin.replace_with.
  cbn [Admin.import_nodes Admin.import_alerts Admin.import_contacts default
       from_option id Db.put_log Db.set_logs Db.set_nodes Db.set_alerts
       Db.set_contacts Db.nodes Db.alerts Db.contacts Db.logs
       Db.notifications Db.log_id].
  split; [| split; [| split; [| split; [| split]]]].
  - apply map_eq. intros id. rewrite lookup_fmap.
    destruct (Db.nodes s !! id) as [node |] eqn:Hnode; [| reflexivity].
    cbn. f_equal. exact (Hstorable id node Hnode).
  - now apply alerts_by_id_entries.
  - reflexivity.
  - reflexivity.
  - intros id Hne. now rewrite lookup_insert_ne.
  - eexists. split; [apply lookup_insert_eq | reflexivity].
Qed.

Lemma export_import_round_trip_witness :
  let s :=
    Db.mkStore (<["node1" := Sample.node1]> ∅)
               (<["alert_1" :=
                    Admin.alertData Sample.alert_form "alert_1" [] Sample.now]> ∅)
               (<["contact_1" := Sample.contact1]> ∅) ∅ ∅ in
  let restored :=
    Admin.confirmImportData
      (Backup.handleExportAllData (AlertsList.entries (Db.alerts s)) s)
      (Utils.mkTick Sample.now "r1s2t3u4v") Sample.now
      (Admin.handleResetSystem "DELETE" s) in
  Db.nodes restored = Db.nodes s /\ Db.alerts restored = Db.alerts s.
Proof.
  intros s restored.
  destruct (export_import_round_trip s (Admin.handleResetSystem "DELETE" s)
              (AlertsList.entries (Db.alerts s))
              (Utils.mkTick Sample.now "r1s2t3u4v") Sample.now)
    as (Hnodes & Halerts & _).
  - reflexivity.
  - apply map_Forall_insert_2; [reflexivity | apply map_Forall_empty].
  - apply map_Forall_insert_2; [| apply map_Forall_empty].
    vm_compute. reflexivity.
  - split; [exact Hnodes | exact Halerts].
Defined.

(** X21.  The reset acts only on the exact confirmation text: with any
    other text, [delete] in lower case included, the store is left as it
    is.  A confirmed reset empties the nodes, the alerts, the contacts
    and the log, so that afterwards every identifier is free, no alert
    is active and no alert has a recipient; the notifications, which
    refer to alerts that are gone, are kept. *)
Theorem reset_system_effect (resetConfirmText : string) (s : Db.Store) :
  let s' := Admin.handleResetSystem resetConfirmText s in
  (resetConfirmText <> "DELETE" -> s' = s)
  /\ (resetConfirmText = "DELETE" ->
      Db.notifications s' = Db.notifications s
      /\ Db.logs s' = ∅
      /\ HomeStats.totalNodes (Db.nodes s') = 0%nat
      /\ HomeStats.activeAlerts (Db.alerts s') = 0%nat
      /\ (forall id, Db.node_exists s' id = false)
      /\ (forall affected,
             Admin.computeRecipients (Db.contacts s') affected = [])
      /\ visible_nodes (Db.nodes s') = []).
Proof.
  intros s'. subst s'. unfold Admin.handleResetSystem. split.
  - intros Hne. apply String.eqb_neq in Hne. now rewrite Hne.
  - intros ->. cbn [String.eqb Ascii.eqb Bool.eqb andb negb Db.notifications
                    Db.logs Db.nodes Db.alerts Db.contacts].
    repeat split.
    + intros id. unfold Db.node_exists. cbn [Db.nodes].
      destruct (String.eqb id ""); [| now rewrite lookup_empty].
      rewrite bool_decide_true; [reflexivity | apply map_Forall_empty].
    + intros affected. unfold Admin.computeRecipients.
      now destruct (Nat.eqb _ _).
Qed.

Lemma reset_system_effect_witness :
  Admin.handleResetSystem "delete" Sample.store2 = Sample.store2
  /\ HomeStats.totalNodes
       (Db.nodes (Admin.handleResetSystem "DELETE" Sample.store2)) = 0%nat.
Proof.
  destruct (reset_system_effect "delete" Sample.store2) as (Hkeep & _).
  destruct (reset_system_effect "DELETE" Sample.store2) as (_ & Hreset).
  split.
  - apply Hkeep. discriminate.
  - now apply Hreset.
Defined.

(** ** Generated identifiers *)

Section Identifiers.

Lemma append_nil_l (s : string) : "" ++ s = s.
Proof. reflexivity. Qed.

Lemma append_cons (c : ascii) (p s : string) :
  String c p ++ s = String c (p ++ s).
Proof. reflexivity. Qed.

Lemma append_inv_head (p a b : string) : p ++ a = p ++ b -> a = b.
Proof.
  induction p as [| c p IH]; [done |].
  rewrite !append_cons. intros [= H]. now apply IH.
Qed.

(** Two strings of digits followed by an underscore and a rest are
    equal only when the digits and the rests are. *)
Lemma digits_underscore_inv (d1 d2 r1 r2 : string) :
  all_digits d1 = true -> all_digits d2 = true ->
  d1 ++ "_" ++ r1 = d2 ++ "_" ++ r2 -> d1 = d2 /\ r1 = r2.
Proof.
  revert d2. induction d1 as [| c d1 IH]; intros [| c' d2] H1 H2 Heq;
    rewrite ?append_cons, ?append_nil_l in Heq.
  - now injection Heq as ->.
  - exfalso. cbn [all_digits] in H2. apply andb_prop in H2 as [Hc _].
    injection Heq as <- _. discriminate Hc.
  - exfalso. cbn [all_digits] in H1. apply andb_prop in H1 as [Hc _].
    injection Heq as -> _. discriminate Hc.
  - injection Heq as -> Heq.
    cbn [all_digits] in H1, H2.
    apply andb_prop in H1 as [_ H1]. apply andb_prop in H2 as [_ H2].
    destruct (IH d2 H1 H2 Heq) as [-> ->]. done.
Qed.

Lemma toString_Z_inj (t1 t2 : Z) :
  0 <= t1 -> 0 <= t2 -> Js.toString_Z t1 = Js.toString_Z t2 -> t1 = t2.
Proof.
  intros H1 H2 Heq.
  pose proof (parse_digits_pretty t1 H1) as P1.
  pose proof (parse_digits_pretty t2 H2) as P2.
  rewrite Heq in P1. rewrite P1 in P2. now injection P2.
Qed.

End Identifiers.

(** X22.  Two identifiers generated with the same prefix are equal only
    when both the clock reading and the random suffix are: a later clock
    reading, or another suffix at the same millisecond, gives another
    identifier. *)
Theorem generateId_injective (prefix : string) (t1 t2 : Utils.Tick) :
  0 <= Utils.tick_now t1 -> 0 <= Utils.tick_now t2 ->
  Utils.generateId prefix t1 = Utils.generateId prefix t2 ->
  t1 = t2.
Proof.
  intros H1 H2 Heq. unfold Utils.generateId in Heq.
  apply append_inv_head in Heq.
  rewrite !append_cons, !append_nil_l in Heq.
  injection Heq as Heq.
  change (String "_" (Utils.tick_rand t1)) with ("_" ++ Utils.tick_rand t1)
    in Heq.
  change (String "_" (Utils.tick_rand t2)) with ("_" ++ Utils.tick_rand t2)
    in Heq.
  apply digits_underscore_inv in Heq as [Hnow Hrand];
    try now apply all_digits_toString.
  apply toString_Z_inj in Hnow; try done.
  destruct t1, t2. cbn in *. now subst.
Qed.

Lemma generateId_injective_witness :
  Utils.generateId "alert" (Utils.mkTick Sample.now "a1b2c3d4e")
  <> Utils.generateId "alert" (Utils.mkTick (Sample.now + 1) "a1b2c3d4e").
Proof.
  intros Heq.
  apply (generateId_injective "alert" (Utils.mkTick Sample.now "a1b2c3d4e")
           (Utils.mkTick (Sample.now + 1) "a1b2c3d4e")) in Heq.
  - discriminate Heq.
  - vm_compute. discriminate.
  - vm_compute. discriminate.
Defined.

(** ** The settings page *)

Section SettingsPage.

Lemma ltb_of_Z (a b : Z) : Js.ltb (Js.of_Z a) (Js.of_Z b) = (a <? b).
Proof.
  unfold Js.ltb, Js.of_Z, Js.Qlt_bool, Qle_bool, inject_Z. cbn [Qnum Qden].
  rewrite Z.ltb_antisym. f_equal. f_equal; lia.
Qed.

Lemma leb_of_Z (a b : Z) : Js.leb (Js.of_Z a) (Js.of_Z b) = (a <=? b).
Proof.
  unfold Js.leb, Js.of_Z, Qle_bool, inject_Z. cbn [Qnum Qden]. f_equal; lia.
Qed.

Lemma Qlt_bool_true (x y : Q) : Js.Qlt_bool x y = true <-> (x < y)%Q.
Proof.
  unfold Js.Qlt_bool. rewrite negb_true_iff, Qle_bool_false.
  split; [apply Qnot_le_lt | apply Qlt_not_le].
Qed.

Lemma Qlt_bool_false (x y : Q) : Js.Qlt_bool x y = false <-> (y <= x)%Q.
Proof.
  unfold Js.Qlt_bool. now rewrite negb_false_iff, Qle_bool_iff.
Qed.

(** What the number input passes on is within its bounds. *)
Lemma clamp_spec (lo hi : Q) (num : Js.number) :
  Js.num_isNaN num = false -> (lo <= hi)%Q ->
  exists q, Settings.math_min (Settings.math_max num (Js.Fin lo)) (Js.Fin hi)
            = Js.Fin q
            /\ (lo <= q)%Q /\ (q <= hi)%Q.
Proof.
  intros Hnan Hle.
  assert (Hlo : Settings.math_min (Js.Fin lo) (Js.Fin hi) = Js.Fin lo).
  { unfold Settings.math_min. cbn [Js.num_isNaN orb Js.ltb].
    now rewrite (proj2 (Qlt_bool_false hi lo) Hle). }
  destruct num as [| | | x]; [discriminate | | |].
  - exists hi. split; [reflexivity |]. split; [exact Hle | apply Qle_refl].
  - exists lo. split; [exact Hlo |]. split; [apply Qle_refl | exact Hle].
  - unfold Settings.math_max. cbn [Js.num_isNaN orb Js.ltb].
    destruct (Js.Qlt_bool x lo) eqn:Hx.
    + exists lo. split; [exact Hlo |]. split; [apply Qle_refl | exact Hle].
    + apply Qlt_bool_false in Hx.
      unfold Settings.math_min. cbn [Js.num_isNaN orb Js.ltb].
      destruct (Js.Qlt_bool hi x) eqn:Hh.
      * exists hi. split; [reflexivity |]. split; [exact Hle | apply Qle_refl].
      * apply Qlt_bool_false in Hh. now exists x.
Qed.

Lemma handleChange_spec (lo hi : Q) (val : string) (v : Js.value) :
  (lo <= hi)%Q ->
  Settings.handleChange (Js.Fin lo) (Js.Fin hi) val = Some v ->
  v = Js.VStr ""
  \/ exists q, v = Js.VNum (Js.Fin q) /\ (lo <= q)%Q /\ (q <= hi)%Q.
Proof.
  intros Hle. unfold Settings.handleChange.
  destruct (String.eqb val ""); [intros [= <-]; now left |].
  destruct (Js.num_isNaN (Js.parseFloat val)) eqn:Hnan; [discriminate |].
  cbn [negb]. intros [= <-]. right.
  destruct (clamp_spec lo hi _ Hnan Hle) as (q & -> & Hq). now exists q.
Qed.

Lemma range_invalid_Fin (q : Q) (hi : Z) :
  Settings.range_invalid (Js.VNum (Js.Fin q)) hi = true
  <-> (q <= 0)%Q \/ (inject_Z hi < q)%Q.
Proof.
  unfold Settings.range_invalid, Js.gtb, Js.of_Z.
  cbn [Js.ToNumber Js.leb Js.ltb].
  now rewrite orb_true_iff, Qle_bool_iff, Qlt_bool_true.
Qed.

Lemma window_invalid_Fin (q : Q) :
  Settings.window_invalid (Js.VNum (Js.Fin q)) = true
  <-> (q < 1)%Q \/ (120 < q)%Q.
Proof.
  unfold Settings.window_invalid, Js.gtb, Js.of_Z.
  cbn [Js.ToNumber Js.leb Js.ltb].
  now rewrite orb_true_iff, !Qlt_bool_true.
Qed.

End SettingsPage.

(** X23.  A value the number input passes on for a threshold is refused
    by the validation only when the input was left empty: with a
    positive lower bound, as the amounts ([0.1] to [50] or [500]) and the
    time windows ([1] to [120]) have, every number the input lets
    through is accepted; the humidity input, whose lower bound is [0],
    also lets a zero through, which the validation refuses.  A value
    that is not a number at all passes both range tests, and nothing is
    reported for rules that are switched off. *)
Theorem threshold_inputs_validated
        (lo : Q) (hi : Z) (val : string) (v : Js.value)
        (thresholds : Settings.Thresholds) :
  ((0 < lo)%Q -> (lo <= inject_Z hi)%Q ->
   Settings.handleChange (Js.Fin lo) (Js.of_Z hi) val = Some v ->
   (Settings.range_invalid v hi = true <-> v = Js.VStr ""))
  /\ (0 <= hi ->
      Settings.handleChange (Js.of_Z 0) (Js.of_Z hi) val = Some v ->
      (Settings.range_invalid v hi = true
       <-> v = Js.VStr "" \/ exists q, v = Js.VNum (Js.Fin q) /\ (q == 0)%Q))
  /\ (Settings.handleChange (Js.of_Z 1) (Js.of_Z 120) val = Some v ->
      (Settings.window_invalid v = true <-> v = Js.VStr ""))
  /\ (Js.isNaN v = true ->
      Settings.range_invalid v hi = false /\ Settings.window_invalid v = false)
  /\ (Settings.enabled (Settings.pressureDrop thresholds) = false ->
      Settings.humidity_enabled (Settings.humidity thresholds) = false ->
      Settings.enabled (Settings.temperatureDrop thresholds) = false ->
      Settings.enabled (Settings.rainfall thresholds) = false ->
      Settings.validateThresholds thresholds = []).
Proof.
  split; [| split; [| split; [| split]]].
  - intros Hpos Hle Hv.
    destruct (handleChange_spec lo (inject_Z hi) val v Hle Hv)
      as [-> | (q & -> & Hq1 & Hq2)].
    + split; [reflexivity | intros _; reflexivity].
    + rewrite range_invalid_Fin. split; [| discriminate].
      intros [Hz | Hbig]; exfalso; lra.
  - intros Hhi Hv.
    assert (Hle : (inject_Z 0 <= inject_Z hi)%Q) by now rewrite <- Zle_Qle.
    destruct (handleChange_spec (inject_Z 0) (inject_Z hi) val v Hle Hv)
      as [-> | (q & -> & Hq1 & Hq2)].
    + split; [now left | intros _; reflexivity].
    + rewrite range_invalid_Fin. split.
      * intros [Hz | Hbig]; [| exfalso; lra].
        right. exists q. split; [reflexivity |]. change (0 <= q)%Q in Hq1. lra.
      * intros [[=] | (q' & [= <-] & Hz)]. left. lra.
  - intros Hv.
    assert (Hle : (inject_Z 1 <= inject_Z 120)%Q) by discriminate.
    destruct (handleChange_spec (inject_Z 1) (inject_Z 120) val v Hle Hv)
      as [-> | (q & -> & Hq1 & Hq2)].
    + split; [reflexivity | intros _; reflexivity].
    + rewrite window_invalid_Fin. split; [| discriminate].
      change (inject_Z 1) with 1%Q in Hq1.
      change (inject_Z 120) with 120%Q in Hq2.
      intros [Hz | Hbig]; exfalso; lra.
  - unfold Js.isNaN, Settings.range_invalid, Settings.window_invalid, Js.gtb.
    destruct (Js.ToNumber v); try discriminate. intros _. split; reflexivity.
  - unfold Settings.validateThresholds. now intros -> -> -> ->.
Qed.

Lemma threshold_inputs_validated_witness :
  Settings.window_invalid (Js.VNum (Js.of_Z 120)) = false
  /\ Settings.range_invalid (Js.VStr "abc") 50 = false.
Proof.
  destruct (threshold_inputs_validated 1 120 "500" (Js.VNum (Js.of_Z 120))
              (Settings.mkThresholds
                 (Settings.mkWindowRule false Js.VUndefined Js.VUndefined "")
                 (Settings.mkHumidityRule false Js.VUndefined "")
                 (Settings.mkWindowRule false Js.VUndefined Js.VUndefined "")
                 (Settings.mkWindowRule false Js.VUndefined Js.VUndefined "")))
    as (_ & _ & Hwindow & _).
  destruct (threshold_inputs_validated 1 50 "" (Js.VStr "abc")
              (Settings.mkThresholds
                 (Settings.mkWindowRule false Js.VUndefined Js.VUndefined "")
                 (Settings.mkHumidityRule false Js.VUndefined "")
                 (Settings.mkWindowRule false Js.VUndefined Js.VUndefined "")
                 (Settings.mkWindowRule false Js.VUndefined Js.VUndefined "")))
    as (_ & _ & _ & Hnan & _).
  split.
  - apply not_true_is_false. intros Hw.
    apply Hwindow in Hw; [discriminate Hw | vm_compute; reflexivity].
  - apply Hnan. vm_compute. reflexivity.
Defined.

(** X24.  System settings are saved only when they are valid: the update
    interval is an integer from 5 to 60, the data retention an integer
    from 1 to 90, confirmed by the user when it is below 7, and a Google
    or Mapbox map has an API key that is not blank.  A number field that
    was emptied holds [NaN], which passes the range test of the
    validation; the save, once confirmed where a confirmation is asked
    for, then fails at the database instead of being refused with the
    range message. *)
Theorem system_settings_saved_valid
        (systemSettings : Settings.SystemSettings) (confirmed : bool) :
  (Settings.saveSystemSettings systemSettings confirmed = Settings.Saved ->
   exists interval retention,
     Settings.updateInterval systemSettings = Some interval
     /\ Settings.dataRetention systemSettings = Some retention
     /\ 5 <= interval <= 60 /\ 1 <= retention <= 90
     /\ (retention < 7 -> confirmed = true)
     /\ (Settings.mapProvider systemSettings = "google"
         \/ Settings.mapProvider systemSettings = "mapbox" ->
         Js.trim (Settings.mapApiKey systemSettings) <> ""))
  /\ (Settings.updateInterval systemSettings = None ->
      Settings.UpdateIntervalRange
        ∉ Settings.validateSystemSettings systemSettings)
  /\ (Settings.dataRetention systemSettings = None ->
      Settings.DataRetentionRange
        ∉ Settings.validateSystemSettings systemSettings)
  /\ (Settings.updateInterval systemSettings = None
      \/ Settings.dataRetention systemSettings = None ->
      Settings.validateSystemSettings systemSettings = [] ->
      Settings.saveSystemSettings systemSettings true = Settings.SaveFailed).
Proof.
  destruct systemSettings as [interval retention provider key].
  unfold Settings.saveSystemSettings, Settings.validateSystemSettings,
    Settings.push_if, Js.gtb.
  cbn [Settings.updateInterval Settings.dataRetention Settings.mapProvider
       Settings.mapApiKey].
  split; [| split; [| split]].
  - destruct interval as [i |], retention as [r |];
      cbn [Settings.number_of]; rewrite ?ltb_of_Z; cbn [Js.ltb orb app].
    + destruct (Z.ltb_spec i 5); [discriminate |].
      destruct (Z.ltb_spec 60 i); [discriminate |].
      destruct (Z.ltb_spec r 1); [discriminate |].
      destruct (Z.ltb_spec 90 r); [discriminate |].
      cbn [orb app].
      destruct ((String.eqb provider "google" || String.eqb provider "mapbox")
                && String.eqb (Js.trim key) "") eqn:Hkey; [discriminate |].
      destruct (Z.ltb_spec r 7); destruct confirmed; cbn [negb andb];
        try discriminate; intros _; exists i, r;
        (repeat split; try lia; try done);
        intros Hp Hk; rewrite Hk in Hkey;
        destruct Hp as [-> | ->]; discriminate Hkey.
    + destruct (Z.ltb_spec i 5); [discriminate |].
      destruct (Z.ltb_spec 60 i); [discriminate |].
      cbn [Js.ltb Js.of_Z orb andb app].
      destruct (_ && String.eqb (Js.trim key) ""); discriminate.
    + destruct (Z.ltb_spec r 1); [discriminate |].
      destruct (Z.ltb_spec 90 r); [discriminate |].
      cbn [Js.ltb Js.of_Z orb andb app].
      destruct (_ && String.eqb (Js.trim key) "");
        [discriminate |].
      destruct ((r <? 7) && negb confirmed); discriminate.
    + cbn [Js.ltb Js.of_Z orb andb app].
      destruct (_ && String.eqb (Js.trim key) ""); discriminate.
  - intros ->. cbn [Settings.number_of Js.ltb Js.of_Z orb app].
    intros Hin. apply elem_of_app in Hin as [Hin | Hin].
    + destruct (_ || _); [| inversion Hin].
      apply list_elem_of_singleton in Hin. discriminate Hin.
    + destruct (_ && _); [| inversion Hin].
      apply list_elem_of_singleton in Hin. discriminate Hin.
  - intros ->. cbn [Settings.number_of Js.ltb Js.of_Z orb app].
    intros Hin. apply elem_of_app in Hin as [Hin | Hin].
    + destruct (_ || _); [| inversion Hin].
      apply list_elem_of_singleton in Hin. discriminate Hin.
    + destruct (_ && _); [| inversion Hin].
      apply list_elem_of_singleton in Hin. discriminate Hin.
  - intros Hnan Hvalid. rewrite Hvalid.
    destruct interval as [i |], retention as [r |];
      cbn [Settings.number_of Js.ltb Js.of_Z andb]; try reflexivity.
    + destruct Hnan; discriminate.
    + now rewrite andb_false_r.
Qed.

Lemma system_settings_saved_valid_witness :
  Settings.saveSystemSettings
    (Settings.mkSystemSettings None (Some 7) "leaflet" "") true
  = Settings.SaveFailed.
Proof.
  destruct (system_settings_saved_valid
              (Settings.mkSystemSettings None (Some 7) "leaflet" "") true)
    as (_ & _ & _ & Hfail).
  apply Hfail; [now left | reflexivity].
Defined.

(** ** Editing a node *)

Section EditingNodes.

Lemma number_or_zero_cases (v : Js.value) :
  (Js.num_truthy (Js.parseFloat_value v) = true
   /\ NodeEdit.number_or_zero v = Js.parseFloat_value v)
  \/ (Js.num_truthy (Js.parseFloat_value v) = false
      /\ NodeEdit.number_or_zero v = Js.of_Z 0).
Proof.
  unfold NodeEdit.number_or_zero.
  destruct (Js.num_truthy (Js.parseFloat_value v)); [left | right]; done.
Qed.

Lemma number_or_zero_not_NaN (v : Js.value) :
  Js.num_isNaN (NodeEdit.number_or_zero v) = false.
Proof.
  unfold NodeEdit.number_or_zero.
  destruct (Js.parseFloat_value v) as [| | | q]; try reflexivity.
  cbn [Js.num_truthy]. now destruct (negb _).
Qed.

End EditingNodes.

(** X25.  Saving an edited node never writes a [NaN] coordinate: a
    coordinate field that is empty, does not parse, or holds zero is
    written as [0].  The coordinates are not range-checked.  After the
    save the node is drawn on the dashboard map exactly when both
    coordinate fields parse to finite numbers different from zero, the
    latitude within [-90, 90] and the longitude within [-180, 180]: an
    edit that empties a coordinate field, or enters a latitude of 200,
    takes the node off the map. *)
Theorem save_node_coordinates
        (node : Db.Node) (stored : Db.Metadata) (edited : NodeEdit.Edited) :
  let p := NodeEdit.payload edited in
  let node' := NodeEdit.saved node stored edited in
  Js.num_isNaN (NodeEdit.p_latitude p) = false
  /\ Js.num_isNaN (NodeEdit.p_longitude p) = false
  /\ (Js.num_truthy (Js.parseFloat_value (NodeEdit.latitude edited)) = false ->
      NodeEdit.p_latitude p = Js.of_Z 0)
  /\ (NodeEdit.refused p = false ->
      (DashboardPage.check node' = None /\ DashboardMap.validNode node' = true
       <-> exists lat lon : Q,
           Js.parseFloat_value (NodeEdit.latitude edited) = Js.Fin lat
           /\ Js.parseFloat_value (NodeEdit.longitude edited) = Js.Fin lon
           /\ (inject_Z (-90) <= lat /\ lat <= inject_Z 90)%Q
           /\ (inject_Z (-180) <= lon /\ lon <= inject_Z 180)%Q
           /\ ~ (lat == 0)%Q /\ ~ (lon == 0)%Q)).
Proof.
  intros p node'. subst p node'.
  split; [apply number_or_zero_not_NaN |].
  split; [apply number_or_zero_not_NaN |].
  split.
  - intros Hz. cbn [NodeEdit.payload NodeEdit.p_latitude].
    unfold NodeEdit.number_or_zero. now rewrite Hz.
  - intros Hok. unfold NodeEdit.saved. rewrite Hok.
    set (node' := Db.mkNode _ _ _ _).
    unfold NodeEdit.refused in Hok.
    apply orb_false_elim in Hok as [Hok _].
    apply orb_false_elim in Hok as [Hlat Hlon].
    cbn [NodeEdit.payload NodeEdit.p_latitude NodeEdit.p_longitude] in Hlat, Hlon.
    destruct (NodeEdit.number_or_zero (NodeEdit.latitude edited))
      as [| | | lat] eqn:Elat; try discriminate.
    destruct (NodeEdit.number_or_zero (NodeEdit.longitude edited))
      as [| | | lon] eqn:Elon; try discriminate.
    assert (Hc : coordinates node' = Some (lat, lon)).
    { subst node'. unfold coordinates.
      cbn [Db.metadata NodeEdit.update Db.md_latitude Db.md_longitude
           NodeEdit.payload NodeEdit.p_latitude NodeEdit.p_longitude].
      now rewrite Elat, Elon. }
    rewrite check_none_iff, (validNode_finite node' lat lon Hc).
    unfold coordinates_valid. rewrite Hc.
    destruct (number_or_zero_cases (NodeEdit.latitude edited))
      as [[Ht1 E1] | [Ht1 E1]];
      destruct (number_or_zero_cases (NodeEdit.longitude edited))
        as [[Ht2 E2] | [Ht2 E2]];
      rewrite E1 in Elat; rewrite E2 in Elon.
    + split.
      * intros [(lat' & lon' & [= <- <-] & Hr1 & Hr2) [Hz1 Hz2]].
        now exists lat, lon.
      * intros (lat' & lon' & Hl1 & Hl2 & Hr1 & Hr2 & Hz1 & Hz2).
        rewrite Elat in Hl1. rewrite Elon in Hl2.
        injection Hl1 as <-. injection Hl2 as <-.
        split; [| done]. now exists lat, lon.
    + injection Elon as <-. split.
      * intros [_ [_ Hz2]]. exfalso. now apply Hz2.
      * intros (lat' & lon' & _ & Hl2 & _ & _ & _ & Hz2).
        rewrite Hl2 in Ht2. apply num_truthy_Fin in Hz2. congruence.
    + injection Elat as <-. split.
      * intros [_ [Hz1 _]]. exfalso. now apply Hz1.
      * intros (lat' & lon' & Hl1 & _ & _ & _ & Hz1 & _).
        rewrite Hl1 in Ht1. apply num_truthy_Fin in Hz1. congruence.
    + injection Elat as <-. split.
      * intros [_ [Hz1 _]]. exfalso. now apply Hz1.
      * intros (lat' & lon' & Hl1 & _ & _ & _ & Hz1 & _).
        rewrite Hl1 in Ht1. apply num_truthy_Fin in Hz1. congruence.
Qed.

Lemma save_node_coordinates_witness :
  let edited :=
    NodeEdit.mkEdited "Ridge sensor" "" "sensor" (Js.VStr "")
                      (Js.VStr "77.2090") (Js.VNum (Js.of_Z 0)) [] in
  NodeEdit.p_latitude (NodeEdit.payload edited) = Js.of_Z 0.
Proof.
  intros edited.
  destruct (save_node_coordinates Sample.node1
              (Db.mkMetadata "node1" "node" "Ridge sensor"
                 (Js.VNum (Js.Fin (286139 # 10000)))
                 (Js.VNum (Js.Fin (772090 # 10000))) Js.VUndefined
                 Sample.installedDate "Unknown" "" [] "active" Sample.now)
              edited) as (_ & _ & Hzero & _).
  apply Hzero. reflexivity.
Defined.

(** ** The home page's node counters *)

Section NodeCounters.




End NodeCounters.



(** ** The log panel *)

Section LogTypes.

Lemma adds_only_refl (s : Db.Store) : LogPanel.adds_only s s.
Proof. intros id e He. now left. Qed.

Lemma adds_only_frame (s s0 s' : Db.Store) :
  Db.logs s' = Db.logs s0 ->
  LogPanel.adds_only s s0 -> LogPanel.adds_only s s'.
Proof. intros Heq H id e He. rewrite Heq in He. now apply H. Qed.

Lemma adds_only_same_logs (s s' : Db.Store) :
  Db.logs s' = Db.logs s -> LogPanel.adds_only s s'.
Proof.
  intros Heq. apply (adds_only_frame s s); [exact Heq | apply adds_only_refl].
Qed.

Lemma adds_only_trans (s s0 s' : Db.Store) :
  LogPanel.adds_only s s0 -> LogPanel.adds_only s0 s' ->
  LogPanel.adds_only s s'.
Proof.
  intros H1 H2 id e He. destruct (H2 id e He) as [H0 | Ht]; [| now right].
  now apply H1.
Qed.

Lemma adds_only_put_log (s s0 : Db.Store) (entry : Db.LogEntry) :
  Db.log_type entry ∈ LogPanel.written_types ->
  LogPanel.adds_only s s0 -> LogPanel.adds_only s (Db.put_log entry s0).
Proof.
  intros Ht H id e He. cbn [Db.put_log Db.set_logs Db.logs] in He.
  destruct (decide (Db.log_id entry = id)) as [<- | Hne].
  - rewrite lookup_insert_eq in He. injection He as <-. now right.
  - rewrite lookup_insert_ne in He by done. now apply H.
Qed.

Lemma sendSMSNotification_logs {E} env rcpts msg alertId sev ticks
      (s : Db.Store) :
  exists s' r,
    Notifications.sendSMSNotification (E := E) env rcpts msg alertId sev ticks s
    = (s', inr r)
    /\ LogPanel.adds_only s s'.
Proof.
  unfold Notifications.sendSMSNotification.
  destruct (SmsRoute.POST env _) as [result attempted].
  destruct (negb _); run_action; eexists _, _; (split; [reflexivity |]).
  - apply adds_only_put_log; [| now apply adds_only_same_logs].
    cbn [Db.log_type]. unfold LogPanel.written_types.
    apply (bool_decide_unpack _). vm_compute. exact I.
  - apply adds_only_put_log; [| now apply adds_only_same_logs].
    cbn [Db.log_type]. unfold LogPanel.written_types.
    destruct (SmsRoute.success result);
      [| destruct (Notifications.option_truthy _)];
      apply (bool_decide_unpack _); vm_compute; exact I.
Qed.

Lemma sendInAppNotification_logs {E} alertId msg sev nodes ticks
      (s : Db.Store) :
  exists s' r,
    Notifications.sendInAppNotification (E := E) alertId msg sev nodes ticks s
    = (s', inr r)
    /\ Db.logs s' = Db.logs s.
Proof.
  unfold Notifications.sendInAppNotification. run_action.
  eexists _, _; repeat split.
Qed.

Lemma createAlert_logs env (f : Admin.AlertForm) recipients ticks
      (s : Db.Store) :
  exists s' out,
    Admin.createAlert env f recipients ticks s = (s', inr out)
    /\ LogPanel.adds_only s s'.
Proof.
  unfold Admin.createAlert.
  set (alertId := Utils.generateId "alert" (Admin.alert_tick ticks)).
  set (phones := map Db.ct_phone recipients).
  unfold Db.bind at 1. unfold Db.write at 1.
  unfold Db.bind at 1. unfold Db.read at 1.
  cbn [Db.set_alerts Db.alerts].
  rewrite bool_decide_eq_true_2 by (rewrite lookup_insert_eq; eauto).
  unfold Db.bind at 1. cbn [negb Db.throw_if]. unfold Db.ret at 1.
  unfold Db.bind at 1. rewrite for_each_link.
  unfold Db.bind at 1. unfold Db.write at 1.
  set (s1 := Db.put_log _ _).
  assert (Hs1 : LogPanel.adds_only s s1).
  { subst s1. apply adds_only_put_log.
    - cbn [Admin.alertLog Db.log_type]. now left.
    - now apply adds_only_same_logs. }
  clearbody s1.
  unfold Db.bind at 1.
  destruct (Admin.sendSMS f && Nat.ltb 0 (length phones)).
  - unfold Db.bind at 1.
    destruct (sendSMSNotification_logs (E := Admin.Error) env phones
                ("[" ++ Js.toUpperCase (Admin.severity f) ++ "] "
                 ++ Admin.message f)
                alertId (Admin.severity f) (Admin.sms_ticks ticks) s1)
      as (s2 & [smsResult attempted] & -> & H2).
    unfold Db.ret at 1. unfold Db.bind at 1.
    destruct (sendInAppNotification_logs (E := Admin.Error) alertId
                (Admin.message f) (Admin.severity f) (Admin.affectedNodes f)
                (Admin.inapp_ticks ticks) s2)
      as (s3 & ok & -> & H3).
    unfold Db.ret. eexists _, _. split; [reflexivity |].
    apply (adds_only_frame s s2); [exact H3 |].
    now apply (adds_only_trans s s1).
  - unfold Db.ret at 1. unfold Db.bind at 1.
    destruct (sendInAppNotification_logs (E := Admin.Error) alertId
                (Admin.message f) (Admin.severity f) (Admin.affectedNodes f)
                (Admin.inapp_ticks ticks) s1)
      as (s3 & ok & -> & H3).
    unfold Db.ret. eexists _, _. split; [reflexivity |].
    now apply (adds_only_frame s s1).
Qed.

Lemma shown_type (logFilter logDateRange logSearchTerm : string) (now : Z)
      (log : Db.LogEntry) :
  LogPanel.shown logFilter logDateRange logSearchTerm now log = true ->
  logFilter = "all" \/ LogPanel.typeMap logFilter = Some (Db.log_type log).
Proof.
  unfold LogPanel.shown.
  destruct (String.eqb_spec logFilter "all") as [-> | Hne]; [now left |].
  cbn [negb andb].
  destruct (bool_decide_reflect
              (Some (Db.log_type log) = LogPanel.typeMap logFilter))
    as [Heq | Hneq]; [now right | discriminate].
Qed.

End LogTypes.

(** X27.  The handlers that write to the log — alert creation with its
    SMS notification, node deletion, import and clean-up — add only
    entries of the types [alert_triggered], [node_deletion],
    [data_import], [data_cleanup] and [sms_pending], [sms_sent],
    [sms_partial], [sms_failed].  The log panel shows an entry under a filter other than All only when the
    entry's type is the one type mapped to the filter.  So on a log that
    holds only such entries the Registrations and the Errors filter show
    nothing, and the SMS filter shows the [sms_sent] entries only: the
    pending, partial and failed ones are hidden. *)
Theorem log_filters_and_written_types
        (logs : list Db.LogEntry) (logDateRange logSearchTerm : string)
        (now : Z) (s : Db.Store) :
  (forall env f ticks,
      LogPanel.adds_only s (fst (Admin.handleCreateAlert env f ticks s)))
  /\ (forall nodeId tick at_,
         LogPanel.adds_only s (Admin.handleDeleteNode nodeId tick at_ s))
  /\ (forall preview tick at_,
         LogPanel.adds_only s (Admin.confirmImportData preview tick at_ s))
  /\ (forall days start tick at_,
         LogPanel.adds_only s
           (fst (Cleanup.handleCleanupOldData days start tick at_ s)))
  /\ (forall logFilter log,
         log ∈ LogPanel.filteredLogs logs logFilter logDateRange logSearchTerm
                                     now ->
         logFilter = "all"
         \/ LogPanel.typeMap logFilter = Some (Db.log_type log))
  /\ (Forall (fun log => Db.log_type log ∈ LogPanel.written_types) logs ->
      LogPanel.filteredLogs logs "registrations" logDateRange logSearchTerm now
      = []
      /\ LogPanel.filteredLogs logs "errors" logDateRange logSearchTerm now
         = []
      /\ forall log,
           log ∈ LogPanel.filteredLogs logs "sms" logDateRange logSearchTerm
                                       now ->
           Db.log_type log = "sms_sent").
Proof.
  split; [| split; [| split; [| split; [| split]]]].
  - intros env f ticks. unfold Admin.handleCreateAlert.
    destruct (Nat.ltb _ _); [apply adds_only_refl |].
    destruct (Nat.eqb _ _); [apply adds_only_refl |].
    destruct (createAlert_logs env f
                (Admin.computeRecipients (Db.contacts s) (Admin.affectedNodes f))
                ticks s) as (s' & out & -> & H).
    exact H.
  - intros nodeId tick at_. unfold Admin.handleDeleteNode.
    apply adds_only_put_log; [| now apply adds_only_same_logs].
    cbn [Db.log_type]. apply (bool_decide_unpack _). vm_compute. exact I.
  - intros preview tick at_. unfold Admin.confirmImportData.
    apply adds_only_put_log; [| now apply adds_only_same_logs].
    cbn [Db.log_type]. apply (bool_decide_unpack _). vm_compute. exact I.
  - intros days start tick at_. unfold Cleanup.handleCleanupOldData.
    destruct days as [d |]; cbn [fst].
    + apply adds_only_put_log; [| now apply adds_only_same_logs].
      cbn [Db.log_type]. apply (bool_decide_unpack _). vm_compute. exact I.
    + now apply adds_only_same_logs.
  - intros logFilter log Hin. unfold LogPanel.filteredLogs in Hin.
    apply list_elem_of_In, filter_In in Hin as [_ Hshown].
    now apply shown_type in Hshown.
  - intros Htypes.
    assert (Hnone : forall logFilter t,
               LogPanel.typeMap logFilter = Some t ->
               logFilter <> "all" -> t ∉ LogPanel.written_types ->
               LogPanel.filteredLogs logs logFilter logDateRange logSearchTerm
                                     now = []).
    { intros logFilter t Hmap Hne Ht. unfold LogPanel.filteredLogs.
      induction Htypes as [| log l Hlog _ IH]; [reflexivity |].
      cbn [List.filter].
      destruct (LogPanel.shown logFilter logDateRange logSearchTerm now log)
        eqn:Hshown; [| exact IH].
      apply shown_type in Hshown as [-> | Heq]; [done |].
      rewrite Hmap in Heq. injection Heq as ->. done. }
    split; [| split].
    + apply (Hnone "registrations" "node_registration");
        [reflexivity | discriminate |].
      apply (bool_decide_unpack _). vm_compute. exact I.
    + apply (Hnone "errors" "system_error"); [reflexivity | discriminate |].
      apply (bool_decide_unpack _). vm_compute. exact I.
    + intros log Hin. unfold LogPanel.filteredLogs in Hin.
      apply list_elem_of_In, filter_In in Hin as [_ Hshown].
      apply shown_type in Hshown as [[=] | [= Heq]]. now symmetry.
Qed.

Lemma log_filters_and_written_types_witness :
  LogPanel.filteredLogs
    (Js.values
       (Db.logs (fst (Admin.handleCreateAlert Sample.env_unconfigured
                        Sample.alert_form Sample.ticks Sample.store2))))
    "registrations" "24h" "" Sample.now
  = [].
Proof.
  destruct (log_filters_and_written_types
              (Js.values
                 (Db.logs (fst (Admin.handleCreateAlert Sample.env_unconfigured
                                  Sample.alert_form Sample.ticks
                                  Sample.store2))))
              "24h" "" Sample.now Sample.store2)
    as (_ & _ & _ & _ & _ & Hfilters).
  apply Hfilters.
  apply (bool_decide_unpack _). vm_compute. exact I.
Defined.

(** ** The lines of the map *)

Section Lines.

Lemma validNodes_idempotent (nodes : list Db.Node) :
  DashboardMap.validNodes (DashboardMap.validNodes nodes)
  = DashboardMap.validNodes nodes.
Proof.
  unfold DashboardMap.validNodes.
  induction nodes as [| n l IH]; [reflexivity |].
  cbn [List.filter]. destruct (DashboardMap.validNode n) eqn:Hn; [| exact IH].
  cbn [List.filter]. now rewrite Hn, IH.
Qed.

Lemma find_by_id_Some (validNodes : list Db.Node) (id : string)
      (node : Db.Node) :
  MapLines.find_by_id validNodes id = Some node ->
  node ∈ validNodes
  /\ exists metadata, Db.metadata node = Some metadata
                      /\ Db.md_nodeId metadata = id.
Proof.
  unfold MapLines.find_by_id. intros Hfind.
  apply find_some in Hfind as [Hin Hid]. split; [now apply list_elem_of_In |].
  destruct (Db.metadata node) as [metadata |]; [| discriminate].
  exists metadata. split; [reflexivity |]. now apply String.eqb_eq.
Qed.

Lemma marker_of_valid (nodes : list Db.Node) (node : Db.Node)
      (metadata : Db.Metadata) :
  node ∈ DashboardMap.validNodes nodes ->
  Db.metadata node = Some metadata ->
  MapLines.position metadata ∈ DashboardMap.markers nodes.
Proof.
  intros Hin Hmd. apply elem_of_markers. exists node, metadata.
  unfold DashboardMap.validNodes in Hin.
  apply list_elem_of_In, filter_In in Hin as [Hin Hvalid].
  apply list_elem_of_In in Hin. done.
Qed.

End Lines.

(** X28.  Every line the map draws joins two markers that are on the
    map: a node's link to a nearby node that is missing, or that the map
    filter leaves out, draws nothing.  A valid node's link to a nearby
    node that is found among the valid nodes is drawn.  The view is
    fitted to exactly the marker positions, and is left alone when there
    is no marker. *)
Theorem map_lines_join_markers
        (nodes : list Db.Node)
        (line : (Js.number * Js.number) * (Js.number * Js.number)) :
  (line ∈ MapLines.connections nodes ->
   line.1 ∈ DashboardMap.markers nodes /\ line.2 ∈ DashboardMap.markers nodes)
  /\ (forall node metadata nearbyNodeId nearbyNode nearbyMetadata,
         node ∈ DashboardMap.validNodes nodes ->
         Db.metadata node = Some metadata ->
         nearbyNodeId ∈ Db.md_nearbyNodes metadata ->
         MapLines.find_by_id (DashboardMap.validNodes nodes) nearbyNodeId
         = Some nearbyNode ->
         Db.metadata nearbyNode = Some nearbyMetadata ->
         (MapLines.position metadata, MapLines.position nearbyMetadata)
           ∈ MapLines.connections nodes)
  /\ MapLines.fitBounds (DashboardMap.validNodes nodes)
     = match DashboardMap.markers nodes with
       | [] => None
       | positions => Some positions
       end.
Proof.
  split; [| split].
  - unfold MapLines.connections. cbv zeta.
    intros Hin.
    apply list_elem_of_In, in_concat in Hin as (lines & Hlines & Hline).
    apply in_map_iff in Hlines as (node & <- & Hnode).
    apply list_elem_of_In in Hnode, Hline.
    unfold MapLines.lines_of in Hline.
    destruct (Db.metadata node) as [metadata |] eqn:Hmd; [| inversion Hline].
    apply list_elem_of_omap in Hline as (id & _ & Hsome).
    destruct (MapLines.find_by_id (DashboardMap.validNodes nodes) id)
      as [nearby |] eqn:Hfind; [| discriminate Hsome].
    cbn [mbind option_bind] in Hsome.
    destruct (Db.metadata nearby) as [nearbyMetadata |] eqn:Hnmd;
      [| discriminate Hsome].
    cbn [mbind option_bind] in Hsome. injection Hsome as <-. cbn [fst snd].
    apply find_by_id_Some in Hfind as [Hnearby _].
    split.
    + now apply (marker_of_valid nodes node).
    + now apply (marker_of_valid nodes nearby).
  - intros node metadata id nearby nearbyMetadata Hnode Hmd Hid Hfind Hnmd.
    unfold MapLines.connections. cbv zeta.
    apply list_elem_of_In, in_concat.
    exists (MapLines.lines_of (DashboardMap.validNodes nodes) node). split.
    + apply in_map. now apply list_elem_of_In.
    + apply list_elem_of_In. unfold MapLines.lines_of. rewrite Hmd.
      apply list_elem_of_omap. exists id. split; [exact Hid |].
      rewrite Hfind. cbn [mbind option_bind]. now rewrite Hnmd.
  - unfold MapLines.fitBounds, DashboardMap.markers.
    now rewrite validNodes_idempotent.
Qed.

Lemma map_lines_join_markers_witness :
  MapLines.fitBounds (DashboardMap.validNodes [Sample.node1])
  = Some [(Js.Fin (286139 # 10000), Js.Fin (772090 # 10000))].
Proof.
  destruct (map_lines_join_markers [Sample.node1]
              ((Js.of_Z 0, Js.of_Z 0), (Js.of_Z 0, Js.of_Z 0)))
    as (_ & _ & Hfit).
  rewrite Hfit. reflexivity.
Defined.
